(** * Stock Watchdog (las_bot): snapshot fetching, alert planning, dispatch

    A shallow embedding of [src/main.py]: the price monitor with its
    last-known-good cache ([StockPriceMonitor]), the mail service
    ([EmailService]) and the two pipelines that decide who is mailed
    ([StockWatchdog._check_all_stocks] and the [/alert/{symbol}] route).

    Conventions of the embedding.
    - A number is a binary64 float, with the arithmetic of IEEE 754: a
      Python [float], or a [numpy.float64] as pandas hands it out of a
      frame. An integer of [config.json], of the provider's [info] or of
      the source text stands for the float of the same value; on integers
      the program computes the same values as long as they and their
      products stay below 2^53.
    - A Python dict with string keys that is used as a map (the cache, the
      snapshot map, [info], [alert_preferences]) is a [gmap string _].
    - A snapshot (the dict built by [get_stock_data]) is a record of
      optional fields: [None] stands for a key that is not in the dict, so
      that [d.get(k, dflt)] is [default dflt (k d)].
    - The market-data provider, the wall clock and the SMTP transport are
      oracles; a counter in the state numbers the queries, so an oracle may
      answer differently each time it is asked.
    - Exceptions are threaded through a state-and-error monad: state changes
      made before a [raise] persist, as in Python. *)

From Stdlib Require Import PrimFloat FloatOps SpecFloat FloatAxioms.
From Stdlib Require Import QArith Qround ZArith Lia.
From stdpp Require Import base option list gmap strings pretty.

(** A decimal literal denotes the nearest float, as in Python. *)
#[global] Set Warnings "-inexact-float".

(** ** Numbers *)

(** A Python [float], or a [numpy.float64]: the same binary64 values
    and the same arithmetic, but not the same [round]. *)
Inductive number : Type :=
  | Float (x : float)
  | Float64 (x : float).

Coercion Float : float >-> number.

Definition float_of (a : number) : float :=
  match a with
  | Float x | Float64 x => x
  end.

(** A binary operation: the result is a [numpy.float64] as soon as one
    operand is. *)
Definition binop (op : float -> float -> float) (a b : number) : number :=
  match a, b with
  | Float x, Float y => Float (op x y)
  | _, _ => Float64 (op (float_of a) (float_of b))
  end.

Definition sub : number -> number -> number := binop PrimFloat.sub.
Definition mul : number -> number -> number := binop PrimFloat.mul.

(** [a / b] for a divisor that is not zero: the program divides under a
    test of the divisor only. *)
Definition truediv : number -> number -> number := binop PrimFloat.div.

(** [a < b] and [a <= b]: false as soon as an operand is not a number. *)
Definition ltb (a b : number) : bool := (float_of a <? float_of b)%float.
Definition leb (a b : number) : bool := (float_of a <=? float_of b)%float.

(** Truth value of a number: zero, of either sign, is false. *)
Definition nonzero (a : number) : bool := negb (float_of a =? 0)%float.

(** What [json.dumps(..., allow_nan=False)] accepts. *)
Definition finite (a : number) : bool := is_finite (float_of a).

Declare Scope number_scope.
Delimit Scope number_scope with num.
Bind Scope number_scope with number.
Notation "a - b" := (sub a b) : number_scope.
Notation "a * b" := (mul a b) : number_scope.
Notation "a / b" := (truediv a b) : number_scope.
Notation "a < b" := (ltb a b = true) : number_scope.
Notation "a <= b" := (leb a b = true) : number_scope.

(** Nearest integer, ties to even. *)
Definition round_half_even (x : Q) : Z :=
  let f := Qfloor x in
  match Qcompare (x - inject_Z f) (1 # 2) with
  | Lt => f
  | Gt => (f + 1)%Z
  | Eq => if Z.even f then f else (f + 1)%Z
  end.

(** The value of a finite float, sign apart: [m * 2^e]. *)
Definition magnitude (m : positive) (e : Z) : Q :=
  match e with
  | Z0 => inject_Z (Zpos m)
  | Zpos p => inject_Z (Zpos m * 2 ^ Zpos p)
  | Zneg p => Zpos m # (2 ^ p)
  end.

(** The float nearest to [n / d], ties to even. *)
Definition nearest_float (n : Z) (d : positive) : float :=
  match n with
  | Z0 => zero
  | Zpos p => SF2Prim (SFdiv prec emax (S754_finite false p 0) (S754_finite false d 0))
  | Zneg p => SF2Prim (SFdiv prec emax (S754_finite true p 0) (S754_finite false d 0))
  end.

(** [round(x, ndigits)] on a Python float: the value of [x] is rounded
    to [ndigits] decimals, ties to even, and the float nearest to that
    decimal is returned, with the sign of [x]. Zeros, infinities and
    [nan] round to themselves. *)
Definition float_round (x : float) (ndigits : nat) : float :=
  match Prim2SF x with
  | S754_finite s m e =>
      let scale := (10 ^ Pos.of_nat ndigits)%positive in
      let r := nearest_float (round_half_even (magnitude m e * inject_Z (Zpos scale))) scale in
      if s then (- r)%float else r
  | _ => x
  end.

(** C's [rint]: the nearest integer, ties to even, with the sign of [y]. *)
Definition rint (y : float) : float :=
  match Prim2SF y with
  | S754_finite s m e =>
      if (e <? 0)%Z then
        let r := nearest_float (round_half_even (magnitude m e)) 1 in
        if s then (- r)%float else r
      else y
  | _ => y
  end.

(** [round(x, ndigits)] on a [numpy.float64], for [ndigits] from 1 to
    22: numpy scales by the power of ten, rounds to an integer and
    scales back, in floats. *)
Definition float64_round (x : float) (ndigits : nat) : float :=
  let f := nearest_float (10 ^ Z.of_nat ndigits) 1 in
  (rint (x * f) / f)%float.

(** Python's [round(x, ndigits)]. *)
Definition round (x : number) (ndigits : nat) : number :=
  match x with
  | Float x => Float (float_round x ndigits)
  | Float64 x => Float64 (float64_round x ndigits)
  end.

(** ** Python values, exceptions *)

(** The values found in the provider's [info] dict: [None] or a number. *)
Inductive pyval : Type :=
  | PyNone
  | PyNum (x : number).

(** Truth value of a Python value: [None] and zero are false. *)
Definition truthy (v : pyval) : bool :=
  match v with
  | PyNone => false
  | PyNum x => nonzero x
  end.

(** [a or b]. *)
Definition py_or (a b : pyval) : pyval := if truthy a then a else b.

Inductive exn : Type :=
  | ValueError (msg : string)
  | TypeError (msg : string)
  | IndexError
  | ProviderError (msg : string)
  | SMTPException (msg : string)
  | HTTPException (status_code : Z) (detail : string).

Inductive result (A : Type) : Type :=
  | Ok (a : A)
  | Raise (e : exn).
Arguments Ok {A} a.
Arguments Raise {A} e.

#[export] Instance result_ret : MRet result := fun A a => Ok a.
#[export] Instance result_bind : MBind result := fun A B f r =>
  match r with
  | Ok a => f a
  | Raise e => Raise e
  end.

(** The right operand of [x - y] for a float [x]: a number is required.
    A [numpy.float64] on the left hands the operands over to Python's
    floats, so the text of the error is the same. *)
Definition sub_operand (v : pyval) : result number :=
  match v with
  | PyNum x => Ok x
  | PyNone => Raise (TypeError "unsupported operand type(s) for -: 'float' and 'NoneType'")
  end.

(** The argument of [round]: a number is required. *)
Definition round_operand (v : pyval) : result number :=
  match v with
  | PyNum x => Ok x
  | PyNone => Raise (TypeError "type NoneType doesn't define __round__ method")
  end.

(** [l.iloc[i]] with Python's negative indices. *)
Definition iloc {A : Type} (l : list A) (i : Z) : result A :=
  let n := Z.of_nat (length l) in
  let j := if (i <? 0)%Z then (n + i)%Z else i in
  if (j <? 0)%Z then Raise IndexError
  else match l !! Z.to_nat j with
       | Some a => Ok a
       | None => Raise IndexError
       end.

(** [d.get(k)] and [d.get(k, default)] on a dict of Python values. *)
Definition dict_get (d : gmap string pyval) (k : string) : pyval :=
  default PyNone (d !! k).
Definition dict_get_or (d : gmap string pyval) (k : string) (dflt : pyval) : pyval :=
  default dflt (d !! k).

(** [s.upper()] for a string of ASCII characters: the letters a to z
    are the only ones that change. *)
Definition upper_ascii (c : Ascii.ascii) : Ascii.ascii :=
  let n := Ascii.nat_of_ascii c in
  if ((97 <=? n)%nat && (n <=? 122)%nat)%bool then Ascii.ascii_of_nat (n - 32) else c.

Fixpoint upper (s : string) : string :=
  match s with
  | EmptyString => EmptyString
  | String c s' => String (upper_ascii c) (upper s')
  end.

(** [', '.join(l)]. *)
Fixpoint join (sep : string) (l : list string) : string :=
  match l with
  | [] => ""
  | [x] => x
  | x :: l' => x +:+ sep +:+ join sep l'
  end.

(** A string of ASCII characters. *)
Fixpoint is_ascii (s : string) : bool :=
  match s with
  | EmptyString => true
  | String c s' => (Ascii.nat_of_ascii c <? 128)%nat && is_ascii s'
  end.

(** Truth value of a string: non-empty. *)
Definition nonempty (s : string) : bool :=
  match s with
  | EmptyString => false
  | _ => true
  end.

(** ** Configuration records *)

Record StockConfig : Type := {
  symbol : string;
  company_name : string;
  quantity_factor : float;
  loan_outstanding : float;
  security_cover_threshold : float
}.

Record SenderConfig : Type := {
  from_email : string;
  from_name : string;
  smtp_host : string;
  smtp_port : Z;
  smtp_username : string;
  smtp_password : string;
  use_tls : bool
}.

Record RecipientConfig : Type := {
  email : string;
  subscribed_symbols : list string;
  name : string;
  cc : list string;
  bcc : list string;
  alert_preferences : gmap string bool
}.

(** [alert_prefs.get(key, True)]. *)
Definition pref (r : RecipientConfig) (key : string) : bool :=
  default true (alert_preferences r !! key).

(** What [ConfigManager] hands to a pipeline run. *)
Record Config : Type := {
  get_stocks : list StockConfig;
  get_recipients : list RecipientConfig;
  get_currency_symbol : string
}.

(** [next((sc for sc in all_stock_configs if sc.symbol == symbol), None)],
    where [symbol] is the result of [stock_data.get("symbol")]. *)
Definition find_config (all_stock_configs : list StockConfig) (sym : option string)
  : option StockConfig :=
  List.find (fun sc => bool_decide (Some (symbol sc) = sym)) all_stock_configs.

(** ** Provider data and snapshots *)

(** A row of a history: [Close] is a [numpy.float64] in a frame that
    pandas built, and whatever the frame holds otherwise; [Volume] is
    the integer that [int(...)] makes of the volume. *)
Record Bar : Type := { Close : number; Volume : Z }.

(** What [yf.Ticker(symbol)] yields: [info] and the two histories
    ([period="5d", interval="1d"] and [period="1d", interval="1m"]). *)
Record TickerData : Type := {
  info : gmap string pyval;
  hist_5d : list Bar;
  hist_1d : list Bar
}.

(** The volume of a snapshot: the integer of the last intraday bar, or
    what [info] holds. *)
Inductive volume_value : Type :=
  | Of_bar (n : Z)
  | Of_info (v : pyval).

Module Snapshot.
(** The dict built by [get_stock_data]; the key ["52_week_high"] is the
    field [week52_high], and likewise for the low. *)
Record t : Type := {
  symbol : option string;
  current_price : option number;
  previous_close : option number;
  yesterday_close : option number;
  change : option number;
  change_percent : option number;
  yesterday_change : option number;
  yesterday_change_percent : option number;
  volume : option volume_value;
  timestamp : option string;
  market_cap : option pyval;
  pe_ratio : option pyval;
  week52_high : option pyval;
  week52_low : option pyval;
  security_cover : option number
}.
End Snapshot.

(** ** [StockPriceMonitor.get_stock_data]: the [try] block *)

Section TryBlock.
Local Open Scope number_scope.

(** "Current price logic": the price and the volume. With no intraday bar
    the provider's [currentPrice], then [previousClose], is used, and a
    missing or zero price raises [ValueError]. *)
Definition current_price_logic (sym : string) (ticker : TickerData)
  : result (number * volume_value) :=
  match hist_1d ticker with
  | [] =>
      let current_price :=
        py_or (dict_get (info ticker) "currentPrice") (dict_get (info ticker) "previousClose") in
      match current_price with
      | PyNum price =>
          if negb (truthy current_price)
          then Raise (ValueError ("No data available for " +:+ sym))
          else Ok (price, Of_info (dict_get_or (info ticker) "volume" (PyNum 0%float)))
      | PyNone => Raise (ValueError ("No data available for " +:+ sym))
      end
  | _ =>
      current_price ← iloc (Close <$> hist_1d ticker) (-1);
      current_volume ← iloc (Volume <$> hist_1d ticker) (-1);
      Ok (current_price, Of_bar current_volume)
  end.

(** [not hist_5d.empty and len(hist_5d) >= n]. *)
Definition has_bars (ticker : TickerData) (n : nat) : bool :=
  match hist_5d ticker with
  | [] => false
  | _ => (n <=? length (hist_5d ticker))%nat
  end.

(** "Yesterday's closing price and previous close": the pair
    [(yesterday_close, prev_close)] after the [if]. *)
Definition closes_logic (ticker : TickerData) (current_price : number)
  : result (pyval * pyval) :=
  let prev_close := dict_get_or (info ticker) "previousClose" (PyNum current_price) in
  let yesterday_close := prev_close in
  if has_bars ticker 2 then
    y ← iloc (Close <$> hist_5d ticker) (-2);
    p ← iloc (Close <$> hist_5d ticker) (-1);
    Ok (PyNum y, PyNum p)
  else Ok (yesterday_close, prev_close).

(** "Yesterday's change (vs day before yesterday)": the pair
    [(yesterday_change, yesterday_change_percent)]. *)
Definition yesterday_change_logic (ticker : TickerData) (yesterday_close : number)
  : result (number * number) :=
  if has_bars ticker 3 then
    day_before_yesterday ← iloc (Close <$> hist_5d ticker) (-3);
    let yesterday_change := yesterday_close - day_before_yesterday in
    Ok (yesterday_change,
        if nonzero day_before_yesterday
        then (yesterday_change / day_before_yesterday) * 100%float
        else 0%float : number)
  else Ok (0%float : number, 0%float : number).

(** The cover ratio before rounding. *)
Definition security_cover_logic (stock_config : StockConfig) (current_price : number)
  : number :=
  if (0 <? loan_outstanding stock_config)%float
  then (quantity_factor stock_config * current_price) / loan_outstanding stock_config
  else 0%float.

(** The body of the [try] block, from the provider's data to the dict
    [data]; [now] is the [datetime.now().isoformat()] of the dict. The
    first use of [prev_close] is the subtraction, the first use of
    [yesterday_close] without at least three daily bars is [round]. *)
Definition fresh_snapshot (stock_config : StockConfig) (ticker : TickerData) (now : string)
  : result Snapshot.t :=
  '(current_price, current_volume) ← current_price_logic (symbol stock_config) ticker;
  '(yesterday_close, prev_close) ← closes_logic ticker current_price;
  prev_close ← sub_operand prev_close;
  let current_change := current_price - prev_close in
  let current_change_percent :=
    if nonzero prev_close then (current_change / prev_close) * 100%float
    else 0%float : number in
  yesterday_close ← round_operand yesterday_close;
  '(yesterday_change, yesterday_change_percent) ← yesterday_change_logic ticker yesterday_close;
  let security_cover := security_cover_logic stock_config current_price in
  Ok {| Snapshot.symbol := Some (symbol stock_config);
        Snapshot.current_price := Some (round current_price 2);
        Snapshot.previous_close := Some (round prev_close 2);
        Snapshot.yesterday_close := Some (round yesterday_close 2);
        Snapshot.change := Some (round current_change 2);
        Snapshot.change_percent := Some (round current_change_percent 2);
        Snapshot.yesterday_change := Some (round yesterday_change 2);
        Snapshot.yesterday_change_percent := Some (round yesterday_change_percent 2);
        Snapshot.volume := Some current_volume;
        Snapshot.timestamp := Some now;
        Snapshot.market_cap := Some (dict_get (info ticker) "marketCap");
        Snapshot.pe_ratio := Some (dict_get (info ticker) "trailingPE");
        Snapshot.week52_high := Some (dict_get (info ticker) "fiftyTwoWeekHigh");
        Snapshot.week52_low := Some (dict_get (info ticker) "fiftyTwoWeekLow");
        Snapshot.security_cover := Some (round security_cover 2) |}.

End TryBlock.

(** ** The world: monitor state, log, oracles *)

Inductive level : Type := INFO | WARNING | ERROR.

Inductive log_message : Type :=
  | Error_fetching_data (sym : string) (e : exn)
  | Returning_cached_data (sym : string)
  | Failed_to_fetch (sym : string) (e : exn)
  | Using_cached_data (sym : string)
  | Cannot_send_email
  | Email_sent_successfully (recipient_name : string)
  | Failed_to_send_email (to : string) (e : exn)
  | No_stocks_or_recipients
  | Email_sent_to (recipient_name : string) (n_stocks : nat) (alert : bool) (cc_bcc_info : string)
  | Error_in_check_all_stocks (e : exn)
  | Error_in_alert_endpoint (upper_symbol : string) (e : exn).

(** One block of the rendered report, per instrument: the styling
    decisions and the values that are formatted into the table. The HTML
    template around them and the number formatting are not modelled. *)
Record Block : Type := {
  header_text : string;
  header_style : string;
  cover_style : string;
  current_price_val : number;
  previous_close_val : number;
  yesterday_close_val : number;
  current_change_val : number;
  current_change_percent_val : number;
  yesterday_change_val : number;
  yesterday_change_percent_val : number;
  security_cover_val : number;
  required_cover_val : float;
  current_change_color : string;
  yesterday_change_color : string;
  current_change_sign : string;
  yesterday_change_sign : string
}.

Record Html : Type := {
  html_currency_symbol : string;
  html_generated_on : string;
  html_blocks : list Block
}.

(** The MIME message of [send_alert]. *)
Record Message : Type := {
  msg_Subject : string;
  msg_From : string;
  msg_To : string;
  msg_Cc : option string;
  msg_html : Html
}.

(** A call [send_alert(recipient_config, subject, content)]. *)
Record SendCall : Type := {
  call_recipient : RecipientConfig;
  call_subject : string;
  call_content : Html
}.

(** The oracles: the provider, the clock and the transport, each asked
    with the number of the query. *)
Record Oracle : Type := {
  yf_Ticker : nat -> string -> result TickerData;
  datetime_now : nat -> string;
  smtp_send_message : nat -> SenderConfig -> Message -> list string -> result unit
}.

(** [cache] and [last_update] are the monitor's dicts; [queries] counts
    the oracle queries made so far; [log] is the log, oldest first;
    [send_alert_calls] records every call of [send_alert], oldest first. *)
Record World : Type := {
  cache : gmap string Snapshot.t;
  last_update : gmap string string;
  queries : nat;
  log : list (level * log_message);
  send_alert_calls : list SendCall
}.

Definition M (A : Type) : Type := World -> result A * World.

#[export] Instance M_ret : MRet M := fun A a w => (Ok a, w).
#[export] Instance M_bind : MBind M := fun A B f m w =>
  match m w with
  | (Ok a, w') => f a w'
  | (Raise e, w') => (Raise e, w')
  end.

Definition raise {A : Type} (e : exn) : M A := fun w => (Raise e, w).

Definition lift {A : Type} (r : result A) : M A := fun w => (r, w).

(** [try: body except Exception as e: handler e]. *)
Definition try_except {A : Type} (body : M A) (handler : exn -> M A) : M A := fun w =>
  match body w with
  | (Ok a, w') => (Ok a, w')
  | (Raise e, w') => handler e w'
  end.

Definition get_world : M World := fun w => (Ok w, w).

(** The number of the next oracle query. *)
Definition next_query : M nat := fun w =>
  (Ok (queries w),
   {| cache := cache w; last_update := last_update w; queries := S (queries w);
      log := log w; send_alert_calls := send_alert_calls w |}).

Definition logging (lvl : level) (msg : log_message) : M unit := fun w =>
  (Ok tt,
   {| cache := cache w; last_update := last_update w; queries := queries w;
      log := log w ++ [(lvl, msg)]; send_alert_calls := send_alert_calls w |}).

(** [self.cache[symbol] = data]. *)
Definition set_cache (sym : string) (data : Snapshot.t) : M unit := fun w =>
  (Ok tt,
   {| cache := <[sym := data]> (cache w); last_update := last_update w;
      queries := queries w; log := log w; send_alert_calls := send_alert_calls w |}).

(** [self.last_update[symbol] = datetime.now()]. *)
Definition set_last_update (sym : string) (now : string) : M unit := fun w =>
  (Ok tt,
   {| cache := cache w; last_update := <[sym := now]> (last_update w);
      queries := queries w; log := log w; send_alert_calls := send_alert_calls w |}).

Definition record_send_alert (c : SendCall) : M unit := fun w =>
  (Ok tt,
   {| cache := cache w; last_update := last_update w; queries := queries w;
      log := log w; send_alert_calls := send_alert_calls w ++ [c] |}).

(** [datetime.now()]. *)
Definition now (o : Oracle) : M string :=
  n ← next_query; mret (datetime_now o n).

(** [for x in l: f x]. *)
Fixpoint for_each {A : Type} (l : list A) (f : A -> M unit) : M unit :=
  match l with
  | [] => mret tt
  | x :: l' => f x ;; for_each l' f
  end.

(** [acc = init; for x in l: acc = f acc x]. *)
Fixpoint for_fold {A B : Type} (l : list A) (f : B -> A -> M B) (acc : B) : M B :=
  match l with
  | [] => mret acc
  | x :: l' => acc' ← f acc x; for_fold l' f acc'
  end.

(** [asyncio.gather] with [return_exceptions=True]: the coroutines have
    no suspension point, so they run one after the other, in order, and
    an exception of one is its result. *)
Fixpoint gather {A : Type} (tasks : list (M A)) : M (list (result A)) :=
  match tasks with
  | [] => mret []
  | task :: tasks' => fun w =>
      let '(r, w') := task w in
      (rs ← gather tasks'; mret (r :: rs)) w'
  end.

(** ** [StockPriceMonitor] *)

(** The [try] block of [get_stock_data]: the provider is asked, the
    snapshot is built, cached and returned. The clock is read for the
    timestamp of the dict before the other values are computed; they do
    not depend on it. *)
Definition get_stock_data_try (o : Oracle) (stock_config : StockConfig) : M Snapshot.t :=
  let sym := symbol stock_config in
  n ← next_query;
  ticker ← lift (yf_Ticker o n sym);
  ts ← now o;
  data ← lift (fresh_snapshot stock_config ticker ts);
  set_cache sym data ;;
  updated ← now o;
  set_last_update sym updated ;;
  mret data.

(** The [except Exception as e] block: the cached snapshot of the symbol
    is returned when there is one, and [e] is raised again when there is
    none. *)
Definition get_stock_data_except (sym : string) (e : exn) : M Snapshot.t :=
  logging ERROR (Error_fetching_data sym e) ;;
  w ← get_world;
  match cache w !! sym with
  | Some cached => logging WARNING (Returning_cached_data sym) ;; mret cached
  | None => raise e
  end.

(** [get_stock_data]: the [try] block under its handler. *)
Definition get_stock_data (o : Oracle) (stock_config : StockConfig) : M Snapshot.t :=
  try_except (get_stock_data_try o stock_config)
             (get_stock_data_except (symbol stock_config)).

(** One turn of the loop of [check_multiple_stocks] over
    [zip(stock_configs, results)]. *)
Definition collect_result (stock_data_map : gmap string Snapshot.t)
    (item : StockConfig * result Snapshot.t) : M (gmap string Snapshot.t) :=
  let sym := symbol item.1 in
  match item.2 with
  | Raise e =>
      logging ERROR (Failed_to_fetch sym e) ;;
      w ← get_world;
      match cache w !! sym with
      | Some cached =>
          logging WARNING (Using_cached_data sym) ;;
          mret (<[sym := cached]> stock_data_map)
      | None => mret stock_data_map
      end
  | Ok data => mret (<[sym := data]> stock_data_map)
  end.

Definition check_multiple_stocks (o : Oracle) (stock_configs : list StockConfig)
  : M (gmap string Snapshot.t) :=
  let tasks := get_stock_data o <$> stock_configs in
  results ← gather tasks;
  for_fold (zip stock_configs results) collect_result ∅.

(** ** [EmailService] *)

(** [all_recipients] of [_send_smtp_email]: TO + CC + BCC. *)
Definition all_recipients (recipient_config : RecipientConfig) : list string :=
  [email recipient_config] ++ cc recipient_config ++ bcc recipient_config.

(** [_send_smtp_email]: one delivery to all the recipients. *)
Definition _send_smtp_email (o : Oracle) (config : SenderConfig) (msg : Message)
    (recipient_config : RecipientConfig) : M unit :=
  n ← next_query;
  lift (smtp_send_message o n config msg (all_recipients recipient_config)).

(** The message of [send_alert]: BCC addresses are in no header. *)
Definition mime_message (config : SenderConfig) (recipient_config : RecipientConfig)
    (subject : string) (content : Html) : Message :=
  {| msg_Subject := subject;
     msg_From := from_name config +:+ " <" +:+ from_email config +:+ ">";
     msg_To := email recipient_config;
     msg_Cc := match cc recipient_config with
               | [] => None
               | _ => Some (join ", " (cc recipient_config))
               end;
     msg_html := content |}.

(** [send_alert]: nothing is sent without a password; a failure of the
    transport is caught and logged. *)
Definition send_alert (o : Oracle) (config : SenderConfig)
    (recipient_config : RecipientConfig) (subject : string) (content : Html) : M unit :=
  record_send_alert {| call_recipient := recipient_config;
                       call_subject := subject;
                       call_content := content |} ;;
  if negb (nonempty (smtp_password config)) then logging ERROR Cannot_send_email
  else
    let msg := mime_message config recipient_config subject content in
    try_except
      (_send_smtp_email o config msg recipient_config ;;
       let recipient_name :=
         if nonempty (name recipient_config) then name recipient_config
         else email recipient_config in
       logging INFO (Email_sent_successfully recipient_name))
      (fun e => logging ERROR (Failed_to_send_email (email recipient_config) e)).

(** The block of one snapshot in [format_grouped_alert]; no block when no
    configuration has the snapshot's symbol. *)
Definition format_block (all_stock_configs : list StockConfig) (stock_data : Snapshot.t)
  : option Block :=
  let sym := Snapshot.symbol stock_data in
  match find_config all_stock_configs sym with
  | None => None
  | Some stock_config =>
      let is_cover_breached :=
        ltb (default (Float 999) (Snapshot.security_cover stock_data))
            (security_cover_threshold stock_config) in
      let title := company_name stock_config +:+ " (" +:+ default "None" sym +:+ ")" in
      let zero : number := 0%float in
      let current_change := default zero (Snapshot.change stock_data) in
      let yesterday_change := default zero (Snapshot.yesterday_change stock_data) in
      Some {| header_text :=
                if is_cover_breached then "ATTENTION: " +:+ title
                else "Update for " +:+ title;
              header_style := if is_cover_breached then "color: red;" else "color: blue;";
              cover_style :=
                if is_cover_breached then "color: red; font-weight: bold;" else "";
              current_price_val := default zero (Snapshot.current_price stock_data);
              previous_close_val := default zero (Snapshot.previous_close stock_data);
              yesterday_close_val := default zero (Snapshot.yesterday_close stock_data);
              current_change_val := current_change;
              current_change_percent_val := default zero (Snapshot.change_percent stock_data);
              yesterday_change_val := yesterday_change;
              yesterday_change_percent_val :=
                default zero (Snapshot.yesterday_change_percent stock_data);
              security_cover_val := default zero (Snapshot.security_cover stock_data);
              required_cover_val := security_cover_threshold stock_config;
              current_change_color := if leb zero current_change then "green" else "red";
              yesterday_change_color := if leb zero yesterday_change then "green" else "red";
              current_change_sign := if leb zero current_change then "+" else "";
              yesterday_change_sign := if leb zero yesterday_change then "+" else "" |}
  end.

Definition format_grouped_alert (o : Oracle) (all_stock_data : list Snapshot.t)
    (all_stock_configs : list StockConfig) (currency_symbol : string) : M Html :=
  let email_body_html := omap (format_block all_stock_configs) all_stock_data in
  generated ← now o;
  mret {| html_currency_symbol := currency_symbol;
          html_generated_on := generated;
          html_blocks := email_body_html |}.

(** ** [StockWatchdog._check_all_stocks] *)

(** The loop that sets [is_any_cover_breached], with its [break]. *)
Definition is_any_cover_breached (all_stocks_config : list StockConfig)
    (recipient_stock_data : list Snapshot.t) : bool :=
  existsb
    (fun stock_data =>
       match find_config all_stocks_config (Snapshot.symbol stock_data) with
       | Some stock_config =>
           ltb (default (Float 999) (Snapshot.security_cover stock_data))
               (security_cover_threshold stock_config)
       | None => false
       end)
    recipient_stock_data.

(** The snapshots of the recipient's subscribed symbols that are in the
    fetched map, in subscription order. *)
Definition recipient_snapshots (fetched_stock_data_map : gmap string Snapshot.t)
    (recipient : RecipientConfig) : list Snapshot.t :=
  omap (fun sym => fetched_stock_data_map !! sym) (subscribed_symbols recipient).

(** The [cc_bcc_info] of the closing log line. *)
Definition cc_bcc_info (recipient : RecipientConfig) : string :=
  (match cc recipient with
   | [] => ""
   | _ => " (CC: " +:+ join ", " (cc recipient) +:+ ")"
   end) +:+
  (match bcc recipient with
   | [] => ""
   | _ => " (BCC: " +:+ pretty (length (bcc recipient)) +:+ " recipients)"
   end).

(** The body of [for recipient in recipients]. *)
Definition process_recipient (o : Oracle) (sender : SenderConfig)
    (all_stocks_config : list StockConfig) (currency_symbol : string)
    (fetched_stock_data_map : gmap string Snapshot.t)
    (is_scheduled threat_only : bool) (recipient : RecipientConfig) : M unit :=
  let should_send_scheduled := is_scheduled && pref recipient "scheduled_reports" in
  let should_send_threat := threat_only && pref recipient "threat_alerts" in
  if negb (should_send_scheduled || should_send_threat) then mret tt
  else
    let recipient_stock_data := recipient_snapshots fetched_stock_data_map recipient in
    match recipient_stock_data with
    | [] => mret tt
    | _ =>
        let breached := is_any_cover_breached all_stocks_config recipient_stock_data in
        let should_send_email_now :=
          (should_send_scheduled && negb threat_only) || (should_send_threat && breached) in
        if should_send_email_now then
          let subject := if breached then "BOT ALERT!" else "Stock Update" in
          let subject := if is_scheduled then "Scheduled Report - " +:+ subject else subject in
          email_content ←
            format_grouped_alert o recipient_stock_data all_stocks_config currency_symbol;
          send_alert o sender recipient subject email_content ;;
          let recipient_name :=
            if nonempty (name recipient) then name recipient else email recipient in
          logging INFO (Email_sent_to recipient_name (length recipient_stock_data)
                                      breached (cc_bcc_info recipient))
        else mret tt
    end.

Definition _check_all_stocks (o : Oracle) (sender : SenderConfig) (config : Config)
    (is_scheduled threat_only : bool) : M unit :=
  let all_stocks_config := get_stocks config in
  let recipients := get_recipients config in
  let currency_symbol := get_currency_symbol config in
  match all_stocks_config, recipients with
  | [], _ | _, [] => logging INFO No_stocks_or_recipients
  | _, _ =>
      try_except
        (fetched_stock_data_map ← check_multiple_stocks o all_stocks_config;
         for_each recipients
           (process_recipient o sender all_stocks_config currency_symbol
                              fetched_stock_data_map is_scheduled threat_only))
        (fun e => logging ERROR (Error_in_check_all_stocks e))
  end.

Definition _scheduled_check (o : Oracle) (sender : SenderConfig) (config : Config) : M unit :=
  _check_all_stocks o sender config true false.

Definition _continuous_threat_check (o : Oracle) (sender : SenderConfig) (config : Config)
  : M unit :=
  _check_all_stocks o sender config false true.

(** ** The route [POST /alert/{symbol}] *)

(** [str(e)]. *)
Definition str (e : exn) : string :=
  match e with
  | ValueError msg => msg
  | TypeError msg => msg
  | IndexError => "single positional indexer is out-of-bounds"
  | ProviderError msg => msg
  | SMTPException msg => msg
  | HTTPException status_code detail => pretty status_code +:+ ": " +:+ detail
  end.

(** The JSON answers of the route. *)
Inductive alert_response : Type :=
  | No_recipients_to_notify (upper_symbol : string)
  | Alert_sent (upper_symbol : string) (n_recipients : nat).

(** [final_subject] of the manual alert. *)
Definition final_subject (stock_data : Snapshot.t) (stock_config_obj : StockConfig) : string :=
  let is_cover_breached :=
    ltb (default (Float 999) (Snapshot.security_cover stock_data))
        (security_cover_threshold stock_config_obj) in
  let subject := if is_cover_breached then "BOT ALERT!" else "Manual Stock Update" in
  subject +:+ ": " +:+ symbol stock_config_obj.

(** [recipients_to_notify]. *)
Definition recipients_to_notify (upper_symbol : string) (recipients : list RecipientConfig)
  : list RecipientConfig :=
  List.filter
    (fun r => bool_decide (upper_symbol ∈ subscribed_symbols r) && pref r "manual_alerts")
    recipients.

Definition trigger_manual_alert (o : Oracle) (sender : SenderConfig) (config : Config)
    (sym : string) : M alert_response :=
  let upper_symbol := upper sym in
  let all_stocks_config := get_stocks config in
  match List.find (fun s => bool_decide (upper (symbol s) = upper_symbol)) all_stocks_config with
  | None => raise (HTTPException 404 ("Stock " +:+ upper_symbol +:+ " not in watchlist."))
  | Some stock_config_obj =>
      try_except
        (stock_data ← get_stock_data o stock_config_obj;
         let currency_symbol := get_currency_symbol config in
         let to_notify := recipients_to_notify upper_symbol (get_recipients config) in
         match to_notify with
         | [] => mret (No_recipients_to_notify upper_symbol)
         | _ =>
             let subject := final_subject stock_data stock_config_obj in
             content ← format_grouped_alert o [stock_data] [stock_config_obj] currency_symbol;
             for_each to_notify (fun recipient => send_alert o sender recipient subject content) ;;
             mret (Alert_sent upper_symbol (length to_notify))
         end)
        (fun e =>
           logging ERROR (Error_in_alert_endpoint upper_symbol e) ;;
           raise (HTTPException 500 ("Error processing manual alert for " +:+ upper_symbol
                                     +:+ ": " +:+ str e)))
  end.

(** ** Vocabulary of the properties *)

(** The snapshot map of a pipeline run started in world [w]. *)
Definition fetched_map (o : Oracle) (stock_configs : list StockConfig) (w : World)
  : gmap string Snapshot.t :=
  match (check_multiple_stocks o stock_configs w).1 with
  | Ok m => m
  | Raise _ => ∅
  end.

(** The results of the single-instrument fetches of that run, in the
    order of [stock_configs]. *)
Definition fetch_results (o : Oracle) (stock_configs : list StockConfig) (w : World)
  : list (result Snapshot.t) :=
  match (gather (get_stock_data o <$> stock_configs) w).1 with
  | Ok results => results
  | Raise _ => []
  end.

(** The calls of [send_alert] made by a run started in world [w]. *)
Definition calls_of_run {A : Type} (run : M A) (w : World) : list SendCall :=
  drop (length (send_alert_calls w)) (send_alert_calls (run w).2).

(** The log lines written by a run started in world [w]. *)
Definition log_of_run {A : Type} (run : M A) (w : World) : list (level * log_message) :=
  drop (length (log w)) (log (run w).2).

(** Some subscribed symbol of the recipient is in the snapshot map, its
    snapshot names a configured instrument, and the cover ratio of the
    snapshot (999 when the snapshot has none) is below the threshold of
    that instrument. *)
Definition any_breach (all_stocks_config : list StockConfig)
    (m : gmap string Snapshot.t) (r : RecipientConfig) : Prop :=
  ∃ sym stock_data stock_config,
    sym ∈ subscribed_symbols r ∧
    m !! sym = Some stock_data ∧
    find_config all_stocks_config (Snapshot.symbol stock_data) = Some stock_config ∧
    (default (Float 999) (Snapshot.security_cover stock_data)
       < security_cover_threshold stock_config)%num.

(** The planner's decision for one recipient, as a function of the
    snapshot map: whether [send_alert] is called. *)
Definition sends_email (all_stocks_config : list StockConfig)
    (m : gmap string Snapshot.t) (is_scheduled threat_only : bool)
    (r : RecipientConfig) : bool :=
  let should_send_scheduled := is_scheduled && pref r "scheduled_reports" in
  let should_send_threat := threat_only && pref r "threat_alerts" in
  (should_send_scheduled || should_send_threat) &&
  match recipient_snapshots m r with
  | [] => false
  | recipient_stock_data =>
      (should_send_scheduled && negb threat_only) ||
      (should_send_threat && is_any_cover_breached all_stocks_config recipient_stock_data)
  end.

(** The subject of that call. *)
Definition email_subject (all_stocks_config : list StockConfig)
    (m : gmap string Snapshot.t) (is_scheduled : bool) (r : RecipientConfig) : string :=
  let subject :=
    if is_any_cover_breached all_stocks_config (recipient_snapshots m r)
    then "BOT ALERT!" else "Stock Update" in
  if is_scheduled then "Scheduled Report - " +:+ subject else subject.

(** Two worlds that differ at most in their logs. *)
Definition same_but_log (w1 w2 : World) : Prop :=
  cache w1 = cache w2 ∧ last_update w1 = last_update w2 ∧
  queries w1 = queries w2 ∧ send_alert_calls w1 = send_alert_calls w2.

(** Two computations that return the same result and keep worlds equal
    up to their logs. *)
Definition transport_blind {A : Type} (m1 m2 : M A) : Prop :=
  ∀ w1 w2, same_but_log w1 w2 ->
    (m1 w1).1 = (m2 w2).1 ∧ same_but_log (m1 w1).2 (m2 w2).2.

(** The same provider and clock, another transport. *)
Definition with_transport (o : Oracle)
    (smtp : nat -> SenderConfig -> Message -> list string -> result unit) : Oracle :=
  {| yf_Ticker := yf_Ticker o;
     datetime_now := datetime_now o;
     smtp_send_message := smtp |}.

(** ** Example data *)

Definition ex_stock : StockConfig :=
  {| symbol := "STAR.NS";
     company_name := "Strides Pharma Science Limited";
     quantity_factor := 1150000;
     loan_outstanding := 4800000;
     security_cover_threshold := 1.7 |}.

(** The same instrument with the loan repaid. *)
Definition ex_stock_no_loan : StockConfig :=
  {| symbol := "STAR.NS";
     company_name := "Strides Pharma Science Limited";
     quantity_factor := 1150000;
     loan_outstanding := 0;
     security_cover_threshold := 1.7 |}.

(** A bar of a frame that pandas built. *)
Definition ex_bar (close : float) : Bar := {| Close := Float64 close; Volume := 1000 |}.

(** Three daily bars, closing at 6.80, 6.926 and 7.05, and an intraday
    bar at 7.00. *)
Definition ex_ticker : TickerData :=
  {| info := {[ "previousClose" := PyNum 6.93%float ]};
     hist_5d := [ex_bar 6.80; ex_bar 6.926; ex_bar 7.05];
     hist_1d := [ex_bar 7] |}.

(** One daily bar, no [previousClose] in [info], an intraday bar at 7.00. *)
Definition ex_ticker_one_bar : TickerData :=
  {| info := ∅; hist_5d := [ex_bar 6.80]; hist_1d := [ex_bar 7] |}.

Definition ex_now : string := "2025-01-06T09:30:00".

(** A snapshot of STAR.NS as [get_stock_data] builds it from an intraday
    bar with volume 1000 and an empty [info]. *)
Definition ex_data (price prev_close yesterday_close change change_percent
    yesterday_change yesterday_change_percent security_cover : number) (ts : string)
  : Snapshot.t :=
  {| Snapshot.symbol := Some "STAR.NS";
     Snapshot.current_price := Some price;
     Snapshot.previous_close := Some prev_close;
     Snapshot.yesterday_close := Some yesterday_close;
     Snapshot.change := Some change;
     Snapshot.change_percent := Some change_percent;
     Snapshot.yesterday_change := Some yesterday_change;
     Snapshot.yesterday_change_percent := Some yesterday_change_percent;
     Snapshot.volume := Some (Of_bar 1000);
     Snapshot.timestamp := Some ts;
     Snapshot.market_cap := Some PyNone;
     Snapshot.pe_ratio := Some PyNone;
     Snapshot.week52_high := Some PyNone;
     Snapshot.week52_low := Some PyNone;
     Snapshot.security_cover := Some security_cover |}.

(** What [ex_ticker] gives for [ex_stock]: 1150000 x 7 / 4800000 is
    1.6770..., stored as 1.68. *)
Definition ex_snapshot : Snapshot.t :=
  ex_data (Float64 7) (Float64 7.05) (Float64 6.93) (Float64 (-0.05)) (Float64 (-0.71))
          (Float64 0.13) (Float64 1.85) (Float64 1.68) ex_now.

(** What [ex_ticker] gives for [ex_stock_no_loan]. *)
Definition ex_snapshot_no_loan : Snapshot.t :=
  ex_data (Float64 7) (Float64 7.05) (Float64 6.93) (Float64 (-0.05)) (Float64 (-0.71))
          (Float64 0.13) (Float64 1.85) (Float 0) ex_now.

(** What [ex_ticker_one_bar] gives for [ex_stock]. *)
Definition ex_snapshot_one_bar : Snapshot.t :=
  ex_data (Float64 7) (Float64 7) (Float64 7) (Float64 0) (Float64 0) (Float 0) (Float 0)
          (Float64 1.68) ex_now.

(** A dict with the symbol and the price only, without a cover ratio. *)
Definition ex_snapshot_no_cover : Snapshot.t :=
  {| Snapshot.symbol := Some "STAR.NS";
     Snapshot.current_price := Some (Float64 7);
     Snapshot.previous_close := None;
     Snapshot.yesterday_close := None;
     Snapshot.change := None;
     Snapshot.change_percent := None;
     Snapshot.yesterday_change := None;
     Snapshot.yesterday_change_percent := None;
     Snapshot.volume := None;
     Snapshot.timestamp := None;
     Snapshot.market_cap := None;
     Snapshot.pe_ratio := None;
     Snapshot.week52_high := None;
     Snapshot.week52_low := None;
     Snapshot.security_cover := None |}.

(** The price has recovered: the intraday bar is at 7.50, and
    1150000 x 7.5 / 4800000 is 1.796..., stored as 1.8. *)
Definition ex_ticker_recovered : TickerData :=
  {| info := {[ "previousClose" := PyNum 6.93%float ]};
     hist_5d := [ex_bar 6.80; ex_bar 6.926; ex_bar 7.05];
     hist_1d := [ex_bar 7.5] |}.

Definition ex_sender : SenderConfig :=
  {| from_email := "noreply@yourdomain.com";
     from_name := "Stock Watchdog";
     smtp_host := "smtp.hostinger.com";
     smtp_port := 587;
     smtp_username := "noreply@yourdomain.com";
     smtp_password := "secret";
     use_tls := true |}.

(** A recipient with the default preferences. *)
Definition ex_recipient : RecipientConfig :=
  {| email := "trader@yourcompany.com";
     subscribed_symbols := ["STAR.NS"];
     name := "";
     cc := [];
     bcc := [];
     alert_preferences := ∅ |}.

Definition ex_config : Config :=
  {| get_stocks := [ex_stock];
     get_recipients := [ex_recipient];
     get_currency_symbol := "INR" |}.

(** The provider answers [ex_ticker], the transport delivers. *)
Definition ex_oracle : Oracle :=
  {| yf_Ticker := fun _ _ => Ok ex_ticker;
     datetime_now := fun _ => ex_now;
     smtp_send_message := fun _ _ _ _ => Ok tt |}.

(** The provider answers [ex_ticker_recovered]. *)
Definition ex_oracle_recovered : Oracle :=
  {| yf_Ticker := fun _ _ => Ok ex_ticker_recovered;
     datetime_now := fun _ => ex_now;
     smtp_send_message := fun _ _ _ _ => Ok tt |}.

(** The provider is down. *)
Definition ex_oracle_down : Oracle :=
  {| yf_Ticker := fun _ _ => Raise (ProviderError "connection timed out");
     datetime_now := fun _ => ex_now;
     smtp_send_message := fun _ _ _ _ => Ok tt |}.

(** One daily bar, and a null [previousClose] in [info]. *)
Definition ex_oracle_null_close : Oracle :=
  {| yf_Ticker := fun _ _ =>
       Ok {| info := {[ "previousClose" := PyNone ]};
             hist_5d := [ex_bar 6.80];
             hist_1d := [ex_bar 7] |};
     datetime_now := fun _ => ex_now;
     smtp_send_message := fun _ _ _ _ => Ok tt |}.

(** The intraday bar has no price: pandas holds [nan] there. *)
Definition ex_ticker_nan : TickerData :=
  {| info := {[ "previousClose" := PyNum 6.93%float ]};
     hist_5d := [ex_bar 6.80; ex_bar 6.926; ex_bar 7.05];
     hist_1d := [ex_bar nan] |}.

(** What [ex_ticker_nan] gives for [ex_stock]. *)
Definition ex_snapshot_nan : Snapshot.t :=
  ex_data (Float64 nan) (Float64 7.05) (Float64 6.93) (Float64 nan) (Float64 nan)
          (Float64 0.13) (Float64 1.85) (Float64 nan) ex_now.

(** The transport is down. *)
Definition ex_oracle_smtp_down : Oracle :=
  {| yf_Ticker := fun _ _ => Ok ex_ticker;
     datetime_now := fun _ => ex_now;
     smtp_send_message := fun _ _ _ _ => Raise (SMTPException "authentication failed") |}.

(** A fresh process: nothing cached, nothing logged. *)
Definition ex_world : World :=
  {| cache := ∅; last_update := ∅; queries := 0; log := []; send_alert_calls := [] |}.

(** A process that has fetched STAR.NS before. *)
Definition ex_world_cached : World :=
  {| cache := {[ "STAR.NS" := ex_snapshot ]};
     last_update := {[ "STAR.NS" := ex_now ]};
     queries := 3; log := []; send_alert_calls := [] |}.

(** A second instrument, for which the provider below has no data. *)
Definition ex_stock_down : StockConfig :=
  {| symbol := "DOWN.NS";
     company_name := "Delisted Limited";
     quantity_factor := 1000;
     loan_outstanding := 1000;
     security_cover_threshold := 1.5 |}.

(** The provider answers for STAR.NS only. *)
Definition ex_oracle_partial : Oracle :=
  {| yf_Ticker := fun _ sym =>
       if bool_decide (sym = "STAR.NS") then Ok ex_ticker
       else Raise (ProviderError "no data found, symbol may be delisted");
     datetime_now := fun _ => ex_now;
     smtp_send_message := fun _ _ _ _ => Ok tt |}.

(** An instrument with quantity factor 1,000,000, loan 4,000,000 and
    threshold 1.5, one subscriber, and a provider quoting a given price. *)
Definition ex_stock_x : StockConfig :=
  {| symbol := "X";
     company_name := "X Limited";
     quantity_factor := 1000000;
     loan_outstanding := 4000000;
     security_cover_threshold := 1.5 |}.

Definition ex_config_x : Config :=
  {| get_stocks := [ex_stock_x];
     get_recipients :=
       [{| email := "trader@yourcompany.com"; subscribed_symbols := ["X"]; name := "";
           cc := []; bcc := []; alert_preferences := ∅ |}];
     get_currency_symbol := "INR" |}.

Definition ex_oracle_quoting (price : float) : Oracle :=
  {| yf_Ticker := fun _ _ => Ok {| info := ∅; hist_5d := []; hist_1d := [ex_bar price] |};
     datetime_now := fun _ => ex_now;
     smtp_send_message := fun _ _ _ _ => Ok tt |}.

(** ** The routes [GET /stock/{symbol}] and [GET /stocks] *)

(** The log lines of the two query routes. *)
Inductive api_log_message : Type :=
  | Error_in_stock_endpoint (upper_symbol : string) (e : exn)
  | Error_in_stocks_endpoint (e : exn).

(** The world of a query route: the monitor's world and the log lines of
    the route itself, which within one request come after every line the
    monitor writes. *)
Record ApiWorld : Type := {
  api_world : World;
  api_log : list (level * api_log_message)
}.

Definition Api (A : Type) : Type := ApiWorld -> result A * ApiWorld.

#[export] Instance Api_ret : MRet Api := fun A a w => (Ok a, w).
#[export] Instance Api_bind : MBind Api := fun A B f m w =>
  match m w with
  | (Ok a, w') => f a w'
  | (Raise e, w') => (Raise e, w')
  end.

(** A computation of the monitor, run inside a route. *)
Definition api_call {A : Type} (m : M A) : Api A := fun w =>
  let '(r, w') := m (api_world w) in
  (r, {| api_world := w'; api_log := api_log w |}).

Definition api_logging (lvl : level) (msg : api_log_message) : Api unit := fun w =>
  (Ok tt, {| api_world := api_world w; api_log := api_log w ++ [(lvl, msg)] |}).

Definition api_raise {A : Type} (e : exn) : Api A := fun w => (Raise e, w).

Definition api_try_except {A : Type} (body : Api A) (handler : exn -> Api A) : Api A :=
  fun w =>
    match body w with
    | (Ok a, w') => (Ok a, w')
    | (Raise e, w') => handler e w'
    end.

Definition api_lift {A : Type} (r : result A) : Api A := fun w => (r, w).

(** The floats of a snapshot are all finite. *)
Definition json_compliant (data : Snapshot.t) : bool :=
  let number_ok (v : option number) := default true (finite <$> v) in
  let pyval_ok (v : option pyval) :=
    match v with
    | Some (PyNum x) => finite x
    | _ => true
    end in
  number_ok (Snapshot.current_price data) && number_ok (Snapshot.previous_close data) &&
  number_ok (Snapshot.yesterday_close data) && number_ok (Snapshot.change data) &&
  number_ok (Snapshot.change_percent data) && number_ok (Snapshot.yesterday_change data) &&
  number_ok (Snapshot.yesterday_change_percent data) &&
  match Snapshot.volume data with
  | Some (Of_info v) => pyval_ok (Some v)
  | _ => true
  end &&
  pyval_ok (Snapshot.market_cap data) && pyval_ok (Snapshot.pe_ratio data) &&
  pyval_ok (Snapshot.week52_high data) && pyval_ok (Snapshot.week52_low data) &&
  number_ok (Snapshot.security_cover data).

(** [JSONResponse(content=...)]: the body is rendered at once, by
    [json.dumps] with [allow_nan=False], which raises [ValueError] on a
    float that is not finite; the text is the one of CPython 3.11. *)
Definition JSONResponse {A : Type} (compliant : A -> bool) (content : A) : result A :=
  if compliant content then Ok content
  else Raise (ValueError "Out of range float values are not JSON compliant").

(** [GET /stock/{symbol}]: the answer is the snapshot, or an
    [HTTPException] with status 404 or 500. *)
Definition get_stock_price (o : Oracle) (config : Config) (sym : string) : Api Snapshot.t :=
  let upper_symbol := upper sym in
  let all_stock_configs := get_stocks config in
  match List.find (fun s => bool_decide (upper (symbol s) = upper_symbol)) all_stock_configs with
  | None =>
      api_raise (HTTPException 404 ("Stock " +:+ upper_symbol
                                    +:+ " not found in configuration."))
  | Some stock_config_obj =>
      api_try_except
        (data ← api_call (get_stock_data o stock_config_obj);
         api_lift (JSONResponse json_compliant data))
        (fun e =>
           api_logging ERROR (Error_in_stock_endpoint upper_symbol e) ;;
           api_raise (HTTPException 500 ("Error fetching data for " +:+ upper_symbol
                                         +:+ ": " +:+ str e)))
  end.

(** [GET /stocks]: the snapshot map, the empty map when no instrument is
    configured. *)
Definition get_all_monitored_stocks (o : Oracle) (config : Config)
  : Api (gmap string Snapshot.t) :=
  match get_stocks config with
  | [] => mret ∅
  | stocks_config_list =>
      api_try_except
        (data ← api_call (check_multiple_stocks o stocks_config_list);
         api_lift (JSONResponse (fun m => forallb (fun kd => json_compliant kd.2)
                                                  (map_to_list m)) data))
        (fun e =>
           api_logging ERROR (Error_in_stocks_endpoint e) ;;
           api_raise (HTTPException 500 ("Error fetching data for all stocks: " +:+ str e)))
  end.

(** ** [ConfigManager] *)

(** The objects of [config.json]. A field is [None] when the object has
    no such key; a key that is present holds a value of the type the
    dataclass annotates, and the objects have no other keys. For [cc],
    [bcc] and [alert_preferences], [None] also stands for a JSON null. *)
Module StockJson.
Record t : Type := {
  symbol : option string;
  company_name : option string;
  quantity_factor : option float;
  loan_outstanding : option float;
  security_cover_threshold : option float
}.
End StockJson.

Module SenderJson.
Record t : Type := {
  from_email : option string;
  from_name : option string;
  smtp_host : option string;
  smtp_port : option Z;
  smtp_username : option string;
  smtp_password : option string;
  use_tls : option bool
}.
End SenderJson.

Module RecipientJson.
Record t : Type := {
  email : option string;
  subscribed_symbols : option (list string);
  name : option string;
  cc : option (list string);
  bcc : option (list string);
  alert_preferences : option (gmap string bool)
}.
End RecipientJson.

Module ScheduleJson.
Record t : Type := {
  daily_reports : option (list string);
  timezone : option string
}.
End ScheduleJson.

Module ConfigJson.
Record t : Type := {
  currency_symbol : option string;
  stocks : option (list StockJson.t);
  email_sender : option SenderJson.t;
  recipients : option (list RecipientJson.t);
  schedule : option ScheduleJson.t
}.
End ConfigJson.

(** What [get_sender_config] does: a configuration, or the [KeyError] of
    [self.config["email_sender"]], or the [TypeError] of a constructor
    that misses an argument. *)
Inductive sender_config_outcome : Type :=
  | Sender (config : SenderConfig)
  | Sender_KeyError (key : string)
  | Sender_TypeError.

(** [[f(x) for x in l]] when [f] may raise. *)
Fixpoint comprehension {A B : Type} (f : A -> result B) (l : list A) : result (list B) :=
  match l with
  | [] => Ok []
  | x :: l' => y ← f x; ys ← comprehension f l'; Ok (y :: ys)
  end.

(** The names in the message of a constructor that misses arguments:
    ['a'], ['a' and 'b'], ['a', 'b', and 'c']. *)
Fixpoint quoted_names (names : list string) : string :=
  match names with
  | [] => ""
  | [a] => "'" +:+ a +:+ "'"
  | [a; b] => "'" +:+ a +:+ "' and '" +:+ b +:+ "'"
  | [a; b; c] => "'" +:+ a +:+ "', '" +:+ b +:+ "', and '" +:+ c +:+ "'"
  | a :: names' => "'" +:+ a +:+ "', " +:+ quoted_names names'
  end.

(** The [TypeError] of a dataclass constructor called without the
    arguments [names], as CPython 3.10 and later word it. *)
Definition missing_arguments (cls : string) (names : list string) : exn :=
  TypeError (cls +:+ ".__init__() missing " +:+ pretty (length names)
             +:+ " required positional argument"
             +:+ (match names with [_] => "" | _ => "s" end) +:+ ": "
             +:+ quoted_names names).

(** The name of a key that is absent. *)
Definition absent {A : Type} (key : string) (v : option A) : list string :=
  match v with
  | Some _ => []
  | None => [key]
  end.

Module ConfigManager.

(** [StockConfig] built from the keys of [stock]: every field is
    required. *)
Definition StockConfig_init (stock : StockJson.t) : result StockConfig :=
  match StockJson.symbol stock, StockJson.company_name stock,
        StockJson.quantity_factor stock, StockJson.loan_outstanding stock,
        StockJson.security_cover_threshold stock with
  | Some s, Some c, Some q, Some l, Some t =>
      Ok {| symbol := s; company_name := c; quantity_factor := q;
            loan_outstanding := l; security_cover_threshold := t |}
  | _, _, _, _, _ =>
      Raise (missing_arguments "StockConfig"
               (absent "symbol" (StockJson.symbol stock)
                ++ absent "company_name" (StockJson.company_name stock)
                ++ absent "quantity_factor" (StockJson.quantity_factor stock)
                ++ absent "loan_outstanding" (StockJson.loan_outstanding stock)
                ++ absent "security_cover_threshold"
                     (StockJson.security_cover_threshold stock)))
  end.

(** The preferences that [__post_init__] gives a recipient without any. *)
Definition default_alert_preferences : gmap string bool :=
  {[ "scheduled_reports" := true; "threat_alerts" := true; "manual_alerts" := true ]}.

(** [RecipientConfig] built from the keys of [recipient], with
    [__post_init__]: [email] and [subscribed_symbols] are required. *)
Definition RecipientConfig_init (recipient : RecipientJson.t) : result RecipientConfig :=
  match RecipientJson.email recipient, RecipientJson.subscribed_symbols recipient with
  | Some e, Some s =>
      Ok {| email := e;
            subscribed_symbols := s;
            name := default "" (RecipientJson.name recipient);
            cc := default [] (RecipientJson.cc recipient);
            bcc := default [] (RecipientJson.bcc recipient);
            alert_preferences :=
              default default_alert_preferences (RecipientJson.alert_preferences recipient) |}
  | _, _ =>
      Raise (missing_arguments "RecipientConfig"
               (absent "email" (RecipientJson.email recipient)
                ++ absent "subscribed_symbols" (RecipientJson.subscribed_symbols recipient)))
  end.

(** [SenderConfig] built from the keys of [sender_data]: [use_tls]
    defaults to [True]. *)
Definition SenderConfig_init (sender_data : SenderJson.t) : sender_config_outcome :=
  match SenderJson.from_email sender_data, SenderJson.from_name sender_data,
        SenderJson.smtp_host sender_data, SenderJson.smtp_port sender_data,
        SenderJson.smtp_username sender_data, SenderJson.smtp_password sender_data with
  | Some e, Some n, Some h, Some p, Some u, Some pw =>
      Sender {| from_email := e; from_name := n; smtp_host := h; smtp_port := p;
                smtp_username := u; smtp_password := pw;
                use_tls := default true (SenderJson.use_tls sender_data) |}
  | _, _, _, _, _, _ => Sender_TypeError
  end.

Definition get_stocks (config : ConfigJson.t) : result (list StockConfig) :=
  comprehension StockConfig_init (default [] (ConfigJson.stocks config)).

Definition get_recipients (config : ConfigJson.t) : result (list RecipientConfig) :=
  comprehension RecipientConfig_init (default [] (ConfigJson.recipients config)).

Definition get_currency_symbol (config : ConfigJson.t) : string :=
  default "₹" (ConfigJson.currency_symbol config).

(** [sender_data['smtp_password'] = env_password], on the copy. *)
Definition set_smtp_password (sender_data : SenderJson.t) (password : string) : SenderJson.t :=
  {| SenderJson.from_email := SenderJson.from_email sender_data;
     SenderJson.from_name := SenderJson.from_name sender_data;
     SenderJson.smtp_host := SenderJson.smtp_host sender_data;
     SenderJson.smtp_port := SenderJson.smtp_port sender_data;
     SenderJson.smtp_username := SenderJson.smtp_username sender_data;
     SenderJson.smtp_password := Some password;
     SenderJson.use_tls := SenderJson.use_tls sender_data |}.

(** [get_sender_config]; [getenv] is [os.getenv('SMTP_PASSWORD')]. *)
Definition get_sender_config (config : ConfigJson.t) (getenv : option string)
  : sender_config_outcome :=
  match ConfigJson.email_sender config with
  | None => Sender_KeyError "email_sender"
  | Some sender_data =>
      let no_password :=
        match SenderJson.smtp_password sender_data with
        | None => true
        | Some password => negb (nonempty password)
        end in
      let sender_data :=
        if no_password then
          match getenv with
          | Some env_password =>
              if nonempty env_password then set_smtp_password sender_data env_password
              else sender_data
          | None => sender_data
          end
        else sender_data in
      SenderConfig_init sender_data
  end.

End ConfigManager.

(** The first three statements of [_check_all_stocks]: the instruments,
    the recipients and the currency symbol are read, in that order. *)
Definition read_config (config : ConfigJson.t) : result Config :=
  all_stocks_config ← ConfigManager.get_stocks config;
  recipients ← ConfigManager.get_recipients config;
  Ok {| get_stocks := all_stocks_config;
        get_recipients := recipients;
        get_currency_symbol := ConfigManager.get_currency_symbol config |}.

(** [_check_all_stocks] on the configuration as [ConfigManager] holds it:
    the three reads are outside the [try] block. *)
Definition _check_all_stocks_of (o : Oracle) (sender : SenderConfig) (config : ConfigJson.t)
    (is_scheduled threat_only : bool) : M unit :=
  parsed ← lift (read_config config);
  _check_all_stocks o sender parsed is_scheduled threat_only.

(** ** More vocabulary *)

(** A snapshot as [get_stock_data] builds it for the symbol [key]: it
    names the symbol and has every numeric field. *)
Definition well_formed (key : string) (d : Snapshot.t) : Prop :=
  Snapshot.symbol d = Some key ∧
  is_Some (Snapshot.current_price d) ∧
  is_Some (Snapshot.previous_close d) ∧
  is_Some (Snapshot.yesterday_close d) ∧
  is_Some (Snapshot.change d) ∧
  is_Some (Snapshot.change_percent d) ∧
  is_Some (Snapshot.yesterday_change d) ∧
  is_Some (Snapshot.yesterday_change_percent d) ∧
  is_Some (Snapshot.security_cover d).

(** Every entry of a cache or of a snapshot map is well formed for its
    key. *)
Definition all_well_formed (m : gmap string Snapshot.t) : Prop :=
  ∀ key d, m !! key = Some d -> well_formed key d.

(** A computation that leaves the monitor's two dicts as they are. *)
Definition keeps_cache {A : Type} (m : M A) : Prop :=
  ∀ w, cache (m w).2 = cache w ∧ last_update (m w).2 = last_update w.

(** ** More example data *)

(** The provider answers its first three queries and is down after. *)
Definition ex_oracle_flaky : Oracle :=
  {| yf_Ticker := fun n _ =>
       if (n <? 3)%nat then Ok ex_ticker
       else Raise (ProviderError "connection timed out");
     datetime_now := fun _ => ex_now;
     smtp_send_message := fun _ _ _ _ => Ok tt |}.

Definition ex_sender_no_password : SenderConfig :=
  {| from_email := "noreply@yourdomain.com";
     from_name := "Stock Watchdog";
     smtp_host := "smtp.hostinger.com";
     smtp_port := 587;
     smtp_username := "noreply@yourdomain.com";
     smtp_password := "";
     use_tls := true |}.

Definition ex_html : Html :=
  {| html_currency_symbol := "INR"; html_generated_on := ex_now; html_blocks := [] |}.

(** A recipient who wants manual alerts only. *)
Definition ex_recipient_opted_out : RecipientConfig :=
  {| email := "quiet@yourcompany.com";
     subscribed_symbols := ["STAR.NS"];
     name := "Quiet";
     cc := [];
     bcc := [];
     alert_preferences := {[ "scheduled_reports" := false; "threat_alerts" := false ]} |}.

(** A recipient who spells the symbol in lower case. *)
Definition ex_recipient_lower : RecipientConfig :=
  {| email := "lower@yourcompany.com";
     subscribed_symbols := ["star.ns"];
     name := "";
     cc := [];
     bcc := [];
     alert_preferences := ∅ |}.

Definition ex_config_three : Config :=
  {| get_stocks := [ex_stock];
     get_recipients := [ex_recipient_opted_out; ex_recipient; ex_recipient_lower];
     get_currency_symbol := "INR" |}.

Definition ex_config_nobody : Config :=
  {| get_stocks := [ex_stock]; get_recipients := []; get_currency_symbol := "INR" |}.

Definition ex_api_world : ApiWorld := {| api_world := ex_world; api_log := [] |}.

Definition ex_api_world_cached : ApiWorld :=
  {| api_world := ex_world_cached; api_log := [] |}.

(** A recipient object with the two required keys only. *)
Definition ex_recipient_json : RecipientJson.t :=
  {| RecipientJson.email := Some "trader@yourcompany.com";
     RecipientJson.subscribed_symbols := Some ["STAR.NS"];
     RecipientJson.name := None;
     RecipientJson.cc := None;
     RecipientJson.bcc := None;
     RecipientJson.alert_preferences := None |}.

(** A recipient object without [email]. *)
Definition ex_recipient_json_no_email : RecipientJson.t :=
  {| RecipientJson.email := None;
     RecipientJson.subscribed_symbols := Some ["STAR.NS"];
     RecipientJson.name := Some "Nobody";
     RecipientJson.cc := None;
     RecipientJson.bcc := None;
     RecipientJson.alert_preferences := None |}.

Definition ex_stock_json : StockJson.t :=
  {| StockJson.symbol := Some "STAR.NS";
     StockJson.company_name := Some "Strides Pharma Science Limited";
     StockJson.quantity_factor := Some 1150000%float;
     StockJson.loan_outstanding := Some 4800000%float;
     StockJson.security_cover_threshold := Some 1.7%float |}.

(** A configuration whose second recipient has no address. *)
Definition ex_config_json_malformed : ConfigJson.t :=
  {| ConfigJson.currency_symbol := None;
     ConfigJson.stocks := Some [ex_stock_json];
     ConfigJson.email_sender := None;
     ConfigJson.recipients := Some [ex_recipient_json; ex_recipient_json_no_email];
     ConfigJson.schedule := None |}.

(** * [validate_smtp.py] *)

Module ValidateSmtp.

(** What [open] and [json.load] make of [config.json]; the file does not
    change while the script runs. *)
Inductive config_file : Type :=
  | FileNotFoundError
  | JSONDecodeError (e : string)
  | Json (config : ConfigJson.t).

(** The lines the script prints. *)
Inductive line : Type :=
  | Config_not_found
  | Invalid_JSON (e : string)
  | Password_not_found
  | Testing_connection_to (smtp_host : string) (smtp_port : Z)
  | Username (smtp_username : string)
  | Connection_successful
  | Connection_failed (e : exn)
  | No_recipients_configured
  | Password_not_configured
  | Test_email_sent_to (to : string)
  | Failed_to_send_test_email (e : exn)
  | Title
  | Rule
  | Testing_SMTP_Connection
  | Check_your_configuration
  | Testing_Email_Sending
  | All_tests_passed
  | Email_sending_failed
  | Validation_crashed (key : string).

(** The message of [test_send_email]; its body is a constant. *)
Record TestMessage : Type := {
  test_Subject : string;
  test_From : string;
  test_To : string
}.

(** The mail server, by session: [SMTP_login] is [smtplib.SMTP(host,
    port)], [starttls()] and [login(username, password)];
    [SMTP_send_message] is [send_message(msg)], whose addressees are the
    message's own; [SMTP_quit] is the end of the [with] block. *)
Record Server : Type := {
  SMTP_login : nat -> string -> Z -> string -> string -> result unit;
  SMTP_send_message : nat -> TestMessage -> result unit;
  SMTP_quit : nat -> result unit
}.

(** [printed] is the standard output, oldest line first; [sessions]
    counts the sessions opened so far. *)
Record Console : Type := {
  printed : list line;
  sessions : nat
}.

(** A call returns, or raises the [KeyError] of a subscript: every other
    exception is caught where it is raised. *)
Inductive outcome (A : Type) : Type :=
  | Done (a : A)
  | KeyError (key : string).
Arguments Done {A} a.
Arguments KeyError {A} key.

Definition V (A : Type) : Type := Console -> outcome A * Console.

#[export] Instance V_ret : MRet V := fun A a c => (Done a, c).

#[export] Instance V_bind : MBind V := fun A B k m c =>
  match m c with
  | (Done a, c') => k a c'
  | (KeyError key, c') => (KeyError key, c')
  end.

Definition print (l : line) : V unit := fun c =>
  (Done tt, {| printed := printed c ++ [l]; sessions := sessions c |}).

Definition next_session : V nat := fun c =>
  (Done (sessions c), {| printed := printed c; sessions := S (sessions c) |}).

Definition load_config (f : config_file) : V (option ConfigJson.t) :=
  match f with
  | FileNotFoundError => print Config_not_found ;; mret None
  | JSONDecodeError e => print (Invalid_JSON e) ;; mret None
  | Json config => mret (Some config)
  end.

(** An object without keys. *)
Definition is_empty (config : ConfigJson.t) : bool :=
  match ConfigJson.currency_symbol config, ConfigJson.stocks config,
        ConfigJson.email_sender config, ConfigJson.recipients config,
        ConfigJson.schedule config with
  | None, None, None, None, None => true
  | _, _, _, _, _ => false
  end.

(** [config.get('email_sender', {})]. *)
Definition get_email_sender (config : ConfigJson.t) : SenderJson.t :=
  default {| SenderJson.from_email := None; SenderJson.from_name := None;
             SenderJson.smtp_host := None; SenderJson.smtp_port := None;
             SenderJson.smtp_username := None; SenderJson.smtp_password := None;
             SenderJson.use_tls := None |}
          (ConfigJson.email_sender config).

(** [os.getenv('SMTP_PASSWORD') or email_config.get('smtp_password', '')]. *)
Definition get_password (getenv : option string) (email_config : SenderJson.t) : string :=
  match getenv with
  | Some env_password =>
      if nonempty env_password then env_password
      else default "" (SenderJson.smtp_password email_config)
  | None => default "" (SenderJson.smtp_password email_config)
  end.

Definition get_smtp_host (email_config : SenderJson.t) : string :=
  default "smtp.hostinger.com" (SenderJson.smtp_host email_config).

Definition get_smtp_port (email_config : SenderJson.t) : Z :=
  default 587%Z (SenderJson.smtp_port email_config).

Definition get_smtp_username (email_config : SenderJson.t) : string :=
  default (default "" (SenderJson.from_email email_config))
          (SenderJson.smtp_username email_config).

(** [test_smtp_connection]: the line of success is printed inside the
    [with] block, before the session is closed. *)
Definition test_smtp_connection (server : Server) (f : config_file)
    (getenv : option string) : V bool :=
  config ← load_config f;
  match config with
  | None => mret false
  | Some config =>
      if is_empty config then mret false
      else
        let email_config := get_email_sender config in
        let password := get_password getenv email_config in
        if negb (nonempty password) then print Password_not_found ;; mret false
        else
          let smtp_host := get_smtp_host email_config in
          let smtp_port := get_smtp_port email_config in
          let smtp_username := get_smtp_username email_config in
          print (Testing_connection_to smtp_host smtp_port) ;;
          print (Username smtp_username) ;;
          n ← next_session;
          match SMTP_login server n smtp_host smtp_port smtp_username password with
          | Raise e => print (Connection_failed e) ;; mret false
          | Ok _ =>
              print Connection_successful ;;
              match SMTP_quit server n with
              | Raise e => print (Connection_failed e) ;; mret false
              | Ok _ => mret true
              end
          end
  end.

(** [recipient['email']]. *)
Definition get_email (recipient : RecipientJson.t) : V string :=
  match RecipientJson.email recipient with
  | Some to => mret to
  | None => fun c => (KeyError "email", c)
  end.

(** The headers of the test message. *)
Definition test_message (email_config : SenderJson.t) (to : string) : TestMessage :=
  {| test_Subject := "Stock Watchdog SMTP Test";
     test_From := default "Stock Watchdog" (SenderJson.from_name email_config)
                  +:+ " <" +:+ default "" (SenderJson.from_email email_config) +:+ ">";
     test_To := to |}.

(** [test_send_email]; [first] is [recipients[0]], and its subscript
    [email] is outside the [try] block. *)
Definition test_send_email (server : Server) (f : config_file)
    (getenv : option string) : V bool :=
  config ← load_config f;
  match config with
  | None => mret false
  | Some config =>
      if is_empty config then mret false
      else
        let email_config := get_email_sender config in
        let recipients := default [] (ConfigJson.recipients config) in
        match recipients with
        | [] => print No_recipients_configured ;; mret false
        | first :: _ =>
            let password := get_password getenv email_config in
            if negb (nonempty password) then print Password_not_configured ;; mret false
            else
              to ← get_email first;
              let msg := test_message email_config to in
              n ← next_session;
              match SMTP_login server n (get_smtp_host email_config)
                      (get_smtp_port email_config) (get_smtp_username email_config)
                      password with
              | Raise e => print (Failed_to_send_test_email e) ;; mret false
              | Ok _ =>
                  match SMTP_send_message server n msg with
                  | Raise e => print (Failed_to_send_test_email e) ;; mret false
                  | Ok _ =>
                      print (Test_email_sent_to to) ;;
                      match SMTP_quit server n with
                      | Raise e => print (Failed_to_send_test_email e) ;; mret false
                      | Ok _ => mret true
                      end
                  end
              end
        end
  end.

(** [main]: the second test runs only after the first one passed. *)
Definition main (server : Server) (f : config_file) (getenv : option string) : V bool :=
  print Title ;;
  print Rule ;;
  print Testing_SMTP_Connection ;;
  connection_ok ← test_smtp_connection server f getenv;
  if negb connection_ok then print Check_your_configuration ;; mret false
  else
    print Testing_Email_Sending ;;
    email_ok ← test_send_email server f getenv;
    if (email_ok : bool) then print All_tests_passed ;; mret true
    else print Email_sending_failed ;; mret false.

(** The script: the exit status and the console it leaves. *)
Definition script (server : Server) (f : config_file) (getenv : option string)
    (c : Console) : Z * Console :=
  let (success, c') := main server f getenv c in
  match success with
  | Done success => (if success then 0%Z else 1%Z, c')
  | KeyError key => (1%Z, (print (Validation_crashed key) c').2)
  end.

End ValidateSmtp.

(** ** Example data for the validation script *)

Definition ex_sender_json : SenderJson.t :=
  {| SenderJson.from_email := Some "noreply@yourdomain.com";
     SenderJson.from_name := Some "Stock Watchdog";
     SenderJson.smtp_host := Some "smtp.hostinger.com";
     SenderJson.smtp_port := Some 587%Z;
     SenderJson.smtp_username := Some "noreply@yourdomain.com";
     SenderJson.smtp_password := Some "secret";
     SenderJson.use_tls := None |}.

Definition ex_config_json : ConfigJson.t :=
  {| ConfigJson.currency_symbol := None;
     ConfigJson.stocks := Some [ex_stock_json];
     ConfigJson.email_sender := Some ex_sender_json;
     ConfigJson.recipients := Some [ex_recipient_json];
     ConfigJson.schedule := None |}.

(** A configuration whose first recipient has no address. *)
Definition ex_config_json_no_address : ConfigJson.t :=
  {| ConfigJson.currency_symbol := None;
     ConfigJson.stocks := Some [ex_stock_json];
     ConfigJson.email_sender := Some ex_sender_json;
     ConfigJson.recipients := Some [ex_recipient_json_no_email; ex_recipient_json];
     ConfigJson.schedule := None |}.

(** A mail server that accepts the password [rotated] only. *)
Definition ex_server : ValidateSmtp.Server :=
  {| ValidateSmtp.SMTP_login := fun _ _ _ _ password =>
       if bool_decide (password = "rotated") then Ok tt
       else Raise (SMTPException "authentication failed");
     ValidateSmtp.SMTP_send_message := fun _ _ => Ok tt;
     ValidateSmtp.SMTP_quit := fun _ => Ok tt |}.

Definition ex_console : ValidateSmtp.Console :=
  {| ValidateSmtp.printed := []; ValidateSmtp.sessions := 0 |}.

(** * Properties *)

(** ** Numbers and results *)

(** A float that equals zero is not above zero. *)
Lemma eqb_zero_not_positive (x : float) : (x =? 0)%float = true -> (0 <? x)%float = false.
Proof.
  rewrite FloatAxioms.eqb_spec, FloatAxioms.ltb_spec. change (Prim2SF 0) with (S754_zero false).
  by destruct (Prim2SF x) as [[]|[]| |[] m e].
Qed.

(** Two numbers of different values are different numbers. *)
Lemma number_neq (a b : number) : Prim2SF (float_of a) ≠ Prim2SF (float_of b) -> a ≠ b.
Proof. intros H ->. by apply H. Qed.

Lemma SFcompare_antisym (a b : spec_float) :
  SFcompare b a = CompOpp <$> SFcompare a b.
Proof.
  destruct a as [[]|[]| |[] m1 e1], b as [[]|[]| |[] m2 e2]; try reflexivity; simpl.
  - rewrite (Z.compare_antisym e1 e2).
    destruct (e1 ?= e2)%Z; simpl; try reflexivity.
    by rewrite Pos.compare_cont_antisym, CompOpp_involutive.
  - rewrite (Z.compare_antisym e1 e2).
    destruct (e1 ?= e2)%Z; simpl; try reflexivity.
    by rewrite Pos.compare_cont_antisym.
Qed.

(** [x <= y] excludes [y < x]. *)
Lemma leb_not_ltb (x y : float) : (x <=? y)%float = true -> (y <? x)%float = false.
Proof.
  rewrite FloatAxioms.leb_spec, FloatAxioms.ltb_spec. unfold SFleb, SFltb.
  rewrite (SFcompare_antisym (Prim2SF x) (Prim2SF y)).
  by destruct (SFcompare (Prim2SF x) (Prim2SF y)) as [[]|].
Qed.

(** The constants of the [try] block are kept by [round]. *)
Lemma round_zero : round 0%float 2 = 0%float.
Proof. reflexivity. Qed.

Lemma result_bind_Ok {A B : Type} (r : result A) (k : A -> result B) (b : B) :
  r ≫= k = Ok b -> ∃ a, r = Ok a ∧ k a = Ok b.
Proof. destruct r as [a|e]; simpl; [eauto | discriminate]. Qed.

Lemma result_bind_Raise {A B : Type} (r : result A) (k : A -> result B) (e : exn) :
  r ≫= k = Raise e -> r = Raise e ∨ ∃ a, r = Ok a ∧ k a = Raise e.
Proof. destruct r as [a|e']; simpl; [eauto | intros [= ->]; auto]. Qed.

(** [iloc] at [-k] reads the [k]-th element from the end. *)
Lemma iloc_from_end {A : Type} (l : list A) (k : nat) :
  (0 < k <= length l)%nat -> iloc l (- Z.of_nat k) = default (Raise IndexError) (Ok <$> l !! (length l - k)%nat).
Proof.
  intros Hk. unfold iloc.
  destruct (Z.ltb_spec (- Z.of_nat k) 0) as [_|]; [|lia].
  destruct (Z.ltb_spec (Z.of_nat (length l) + - Z.of_nat k) 0) as [|_]; [lia|].
  replace (Z.to_nat (Z.of_nat (length l) + - Z.of_nat k)) with (length l - k)%nat by lia.
  by destruct (l !! (length l - k)%nat).
Qed.

(** ** The snapshot that a fetch builds *)

(** Taking [fresh_snapshot] apart: the intermediate values of the [try]
    block of a fetch that succeeds. *)
Lemma fresh_snapshot_Ok (stock_config : StockConfig) (ticker : TickerData) (ts : string)
    (d : Snapshot.t) :
  fresh_snapshot stock_config ticker ts = Ok d ->
  ∃ price vol yc pc ych ychp,
    current_price_logic (symbol stock_config) ticker = Ok (price, vol) ∧
    closes_logic ticker price = Ok (PyNum yc, PyNum pc) ∧
    yesterday_change_logic ticker yc = Ok (ych, ychp) ∧
    Snapshot.symbol d = Some (symbol stock_config) ∧
    Snapshot.current_price d = Some (round price 2) ∧
    Snapshot.previous_close d = Some (round pc 2) ∧
    Snapshot.yesterday_close d = Some (round yc 2) ∧
    Snapshot.change d = Some (round (price - pc)%num 2) ∧
    Snapshot.yesterday_change d = Some (round ych 2) ∧
    Snapshot.yesterday_change_percent d = Some (round ychp 2) ∧
    Snapshot.security_cover d = Some (round (security_cover_logic stock_config price) 2).
Proof.
  unfold fresh_snapshot. intros H.
  apply result_bind_Ok in H as ([price vol] & Hprice & H).
  apply result_bind_Ok in H as ([yc0 pc0] & Hcl & H).
  apply result_bind_Ok in H as (pc & Hpc & H).
  apply result_bind_Ok in H as (yc & Hyc & H).
  apply result_bind_Ok in H as ([ych ychp] & Hych & H).
  injection H as <-.
  destruct pc0 as [|pc']; [discriminate|]. injection Hpc as ->.
  destruct yc0 as [|yc']; [discriminate|]. injection Hyc as ->.
  exists price, vol, yc, pc, ych, ychp. simpl. done.
Qed.

(** C4, as amended: when a fetch builds a snapshot from the fetched current
    price, the cover ratio it stores is what [round] makes, at two
    decimals, of the float (quantity_factor x current_price) /
    loan_outstanding when loan_outstanding is positive, and 0.0 when it is
    not. *)
Theorem C4_cover_ratio_rounded (stock_config : StockConfig) (ticker : TickerData)
    (ts : string) (d : Snapshot.t) :
  fresh_snapshot stock_config ticker ts = Ok d ->
  ∃ price vol,
    current_price_logic (symbol stock_config) ticker = Ok (price, vol) ∧
    ((0 <? loan_outstanding stock_config)%float = true ->
     Snapshot.security_cover d =
       Some (round (quantity_factor stock_config * price
                    / loan_outstanding stock_config)%num 2)) ∧
    ((0 <? loan_outstanding stock_config)%float = false ->
     Snapshot.security_cover d = Some (Float 0)).
Proof.
  intros H. apply fresh_snapshot_Ok in H
    as (price & vol & yc & pc & ych & ychp & Hp & _ & _ & _ & _ & _ & _ & _ & _ & _ & Hcover).
  exists price, vol. split; [done|]. rewrite Hcover. unfold security_cover_logic.
  split; intros Hloan; by rewrite Hloan.
Qed.

Lemma C4_cover_ratio_rounded_witness :
  ∃ price vol,
    current_price_logic (symbol ex_stock) ex_ticker = Ok (price, vol) ∧
    ((0 <? loan_outstanding ex_stock)%float = true ->
     Snapshot.security_cover ex_snapshot =
       Some (round (quantity_factor ex_stock * price / loan_outstanding ex_stock)%num 2)) ∧
    ((0 <? loan_outstanding ex_stock)%float = false ->
     Snapshot.security_cover ex_snapshot = Some (Float 0)).
Proof.
  apply (C4_cover_ratio_rounded ex_stock ex_ticker ex_now ex_snapshot).
  vm_compute. reflexivity.
Defined.

(** C4 fails as stated: for a loan of 4800000, a quantity factor of 1150000
    and a fetched price of 7, the quotient is 1.6770833333333333 and the
    snapshot stores 1.68. *)
Lemma C4_stored_cover_is_not_exact :
  fresh_snapshot ex_stock ex_ticker ex_now = Ok ex_snapshot ∧
  current_price_logic (symbol ex_stock) ex_ticker = Ok (Float64 7, Of_bar 1000) ∧
  (0 <? loan_outstanding ex_stock)%float = true ∧
  (quantity_factor ex_stock * Float64 7 / loan_outstanding ex_stock)%num
  = Float64 1.6770833333333333 ∧
  Snapshot.security_cover ex_snapshot = Some (Float64 1.68) ∧
  Float64 1.68 ≠ Float64 1.6770833333333333.
Proof.
  split; [vm_compute; reflexivity|].
  split; [vm_compute; reflexivity|].
  split; [reflexivity|].
  split; [vm_compute; reflexivity|].
  split; [vm_compute; reflexivity|].
  apply number_neq. vm_compute. discriminate.
Qed.

(** C3, as amended: with [loan_outstanding == 0] the cover ratio of the
    snapshot that a fetch builds is 0 at any price, and the breach check
    of the planner on that snapshot is true exactly when the threshold of
    the instrument is positive. *)
Theorem C3_no_loan_cover_zero (stock_config : StockConfig) (ticker : TickerData)
    (ts : string) (d : Snapshot.t) (all_stocks_config : list StockConfig) :
  (loan_outstanding stock_config =? 0)%float = true ->
  fresh_snapshot stock_config ticker ts = Ok d ->
  find_config all_stocks_config (Some (symbol stock_config)) = Some stock_config ->
  Snapshot.security_cover d = Some (Float 0) ∧
  (is_any_cover_breached all_stocks_config [d] = true
   <-> (0 <? security_cover_threshold stock_config)%float = true).
Proof.
  intros Hloan H Hfind. apply fresh_snapshot_Ok in H
    as (price & vol & yc & pc & ych & ychp & _ & _ & _ & Hsym & _ & _ & _ & _ & _ & _ & Hcover).
  assert (Hzero : Snapshot.security_cover d = Some (Float 0)).
  { rewrite Hcover. unfold security_cover_logic.
    by rewrite (eqb_zero_not_positive _ Hloan). }
  split; [done|].
  unfold is_any_cover_breached. simpl. rewrite Hsym, Hfind, Hzero. simpl.
  by rewrite orb_false_r.
Qed.

Lemma C3_no_loan_cover_zero_witness :
  Snapshot.security_cover ex_snapshot_no_loan = Some (Float 0) ∧
  (is_any_cover_breached [ex_stock_no_loan] [ex_snapshot_no_loan] = true
   <-> (0 <? security_cover_threshold ex_stock_no_loan)%float = true).
Proof.
  apply (C3_no_loan_cover_zero ex_stock_no_loan ex_ticker ex_now).
  - reflexivity.
  - vm_compute. reflexivity.
  - vm_compute. reflexivity.
Defined.

(** C3 fails as stated: with no loan outstanding and a threshold of 1.7 the
    stored cover ratio is 0, and the breach check is true, not false. *)
Lemma C3_no_loan_is_breached :
  (loan_outstanding ex_stock_no_loan =? 0)%float = true ∧
  fresh_snapshot ex_stock_no_loan ex_ticker ex_now = Ok ex_snapshot_no_loan ∧
  Snapshot.security_cover ex_snapshot_no_loan = Some (Float 0) ∧
  is_any_cover_breached [ex_stock_no_loan] [ex_snapshot_no_loan] = true.
Proof.
  split; [reflexivity|].
  split; [vm_compute; reflexivity|].
  split; vm_compute; reflexivity.
Qed.

Lemma has_bars_iff (ticker : TickerData) (k : nat) :
  (0 < k)%nat -> has_bars ticker k = true <-> (k ≤ length (Close <$> hist_5d ticker))%nat.
Proof.
  intros Hk. unfold has_bars. rewrite length_fmap.
  destruct (hist_5d ticker) as [|bar bars]; simpl.
  - split; [discriminate | lia].
  - destruct k as [|k]; [lia|]. rewrite Nat.leb_le. lia.
Qed.

Lemma iloc_closes (ticker : TickerData) (k : nat) (x : number) :
  (0 < k ≤ length (Close <$> hist_5d ticker))%nat ->
  iloc (Close <$> hist_5d ticker) (- Z.of_nat k) = Ok x ->
  (Close <$> hist_5d ticker) !! (length (Close <$> hist_5d ticker) - k)%nat = Some x.
Proof.
  intros Hk. rewrite iloc_from_end by done.
  destruct (_ !! _) as [y|]; simpl; [congruence | discriminate].
Qed.

(** C9, as amended: every value below is a float, stored after [round]
    at two decimals.
    The prior-session close of a built snapshot is the second-to-last
    daily close when there are at least 2 daily bars, and otherwise the
    provider's previous-close field, or the current price when [info] has
    no such field. The day change is the current price minus the last
    daily close when there are at least 2 daily bars, and otherwise minus
    that previous-close value. With at least 3 daily bars the prior-day
    change is the second-to-last daily close minus the third-to-last, and
    its percentage is taken of the third-to-last (0 when that close is 0);
    with fewer bars both are 0. *)
Theorem C9_closes_and_changes (stock_config : StockConfig) (ticker : TickerData)
    (ts : string) (d : Snapshot.t) :
  fresh_snapshot stock_config ticker ts = Ok d ->
  let closes := Close <$> hist_5d ticker in
  let n := length closes in
  ∃ price vol,
    current_price_logic (symbol stock_config) ticker = Ok (price, vol) ∧
    ((2 ≤ n)%nat ->
     ∃ y p, closes !! (n - 2)%nat = Some y ∧ closes !! (n - 1)%nat = Some p ∧
            Snapshot.yesterday_close d = Some (round y 2) ∧
            Snapshot.change d = Some (round (price - p)%num 2)) ∧
    ((n < 2)%nat ->
     ∃ pc, dict_get_or (info ticker) "previousClose" (PyNum price) = PyNum pc ∧
           Snapshot.yesterday_close d = Some (round pc 2) ∧
           Snapshot.change d = Some (round (price - pc)%num 2)) ∧
    ((3 ≤ n)%nat ->
     ∃ y b, closes !! (n - 2)%nat = Some y ∧ closes !! (n - 3)%nat = Some b ∧
            Snapshot.yesterday_change d = Some (round (y - b)%num 2) ∧
            Snapshot.yesterday_change_percent d =
              Some (round (if nonzero b then ((y - b) / b * 100%float)%num
                           else 0%float) 2)) ∧
    ((n < 3)%nat ->
     Snapshot.yesterday_change d = Some (Float 0) ∧
     Snapshot.yesterday_change_percent d = Some (Float 0)).
Proof.
  intros H closes n. apply fresh_snapshot_Ok in H
    as (price & vol & yc & pc & ych & ychp & Hp & Hcl & Hych & _ & _ & _ & Hyc & Hch & Hy1 & Hy2 & _).
  exists price, vol. split; [done|].
  unfold closes_logic in Hcl. unfold yesterday_change_logic in Hych.
  pose proof (has_bars_iff ticker 2 ltac:(lia)) as H2.
  pose proof (has_bars_iff ticker 3 ltac:(lia)) as H3.
  fold closes in H2, H3. fold n in H2, H3.
  assert (Hcl2 : (2 ≤ n)%nat ->
            closes !! (n - 2)%nat = Some yc ∧ closes !! (n - 1)%nat = Some pc).
  { intros Hn. apply H2 in Hn as E. rewrite E in Hcl.
    apply result_bind_Ok in Hcl as (y & Hy & Hcl).
    apply result_bind_Ok in Hcl as (p & Hp' & Hcl).
    injection Hcl as -> ->.
    apply (iloc_closes ticker 2) in Hy; [|fold closes; fold n; lia].
    apply (iloc_closes ticker 1) in Hp'; [|fold closes; fold n; lia].
    done. }
  split; [|split; [|split]].
  - intros Hn. destruct (Hcl2 Hn) as [Hy Hp']. exists yc, pc. auto.
  - intros Hn. destruct (has_bars ticker 2); [apply proj1 in H2; specialize (H2 eq_refl); lia|].
    injection Hcl as Hcl1 Hcl2'. assert (yc = pc) as -> by congruence. exists pc. auto.
  - intros Hn. destruct (Hcl2 ltac:(lia)) as [Hy _].
    apply H3 in Hn as E. rewrite E in Hych.
    apply result_bind_Ok in Hych as (b & Hb & Hych).
    apply (iloc_closes ticker 3) in Hb; [|fold closes; fold n; lia].
    injection Hych as <- <-. exists yc, b. auto.
  - intros Hn. destruct (has_bars ticker 3); [apply proj1 in H3; specialize (H3 eq_refl); lia|].
    injection Hych as <- <-. auto.
Qed.

Lemma C9_closes_and_changes_witness :
  let closes := Close <$> hist_5d ex_ticker in
  let n := length closes in
  ∃ price vol,
    current_price_logic (symbol ex_stock) ex_ticker = Ok (price, vol) ∧
    ((2 ≤ n)%nat ->
     ∃ y p, closes !! (n - 2)%nat = Some y ∧ closes !! (n - 1)%nat = Some p ∧
            Snapshot.yesterday_close ex_snapshot = Some (round y 2) ∧
            Snapshot.change ex_snapshot = Some (round (price - p)%num 2)) ∧
    ((n < 2)%nat ->
     ∃ pc, dict_get_or (info ex_ticker) "previousClose" (PyNum price) = PyNum pc ∧
           Snapshot.yesterday_close ex_snapshot = Some (round pc 2) ∧
           Snapshot.change ex_snapshot = Some (round (price - pc)%num 2)) ∧
    ((3 ≤ n)%nat ->
     ∃ y b, closes !! (n - 2)%nat = Some y ∧ closes !! (n - 3)%nat = Some b ∧
            Snapshot.yesterday_change ex_snapshot = Some (round (y - b)%num 2) ∧
            Snapshot.yesterday_change_percent ex_snapshot =
              Some (round (if nonzero b then ((y - b) / b * 100%float)%num
                           else 0%float) 2)) ∧
    ((n < 3)%nat ->
     Snapshot.yesterday_change ex_snapshot = Some (Float 0) ∧
     Snapshot.yesterday_change_percent ex_snapshot = Some (Float 0)).
Proof.
  apply (C9_closes_and_changes ex_stock ex_ticker ex_now ex_snapshot).
  vm_compute. reflexivity.
Defined.

(** C9 fails as stated, on two inputs. With daily closes 6.80, 6.926 and
    7.05 the second-to-last close is 6.926 and the difference to the bar
    before is 0.126 and a little, but the snapshot holds 6.93 and 0.13.
    With a single daily bar and no previous-close field in [info], the
    snapshot's prior-session close is the current price, 7. *)
Lemma C9_prior_close_differs :
  (fresh_snapshot ex_stock ex_ticker ex_now = Ok ex_snapshot ∧
   (Close <$> hist_5d ex_ticker) !! 1%nat = Some (Float64 6.926) ∧
   (Close <$> hist_5d ex_ticker) !! 0%nat = Some (Float64 6.80) ∧
   Snapshot.yesterday_close ex_snapshot = Some (Float64 6.93) ∧
   Float64 6.93 ≠ Float64 6.926 ∧
   (Float64 6.926 - Float64 6.80)%num = Float64 0.12600000000000033 ∧
   Snapshot.yesterday_change ex_snapshot = Some (Float64 0.13) ∧
   Float64 0.13 ≠ Float64 0.12600000000000033) ∧
  (fresh_snapshot ex_stock ex_ticker_one_bar ex_now = Ok ex_snapshot_one_bar ∧
   length (hist_5d ex_ticker_one_bar) = 1%nat ∧
   info ex_ticker_one_bar !! "previousClose" = None ∧
   current_price_logic (symbol ex_stock) ex_ticker_one_bar = Ok (Float64 7, Of_bar 1000) ∧
   Snapshot.yesterday_close ex_snapshot_one_bar = Some (Float64 7)).
Proof.
  split.
  - split; [vm_compute; reflexivity|].
    do 3 (split; [reflexivity|]).
    split; [apply number_neq; vm_compute; discriminate|].
    split; [vm_compute; reflexivity|].
    split; [reflexivity|].
    apply number_neq; vm_compute; discriminate.
  - split; [vm_compute; reflexivity|].
    split; [reflexivity|].
    split; [reflexivity|].
    split; vm_compute; reflexivity.
Qed.

(** ** The monitor: cache fallback *)

(** The world changes of one fetch that matter downstream. *)
Lemma get_stock_data_try_Raise (o : Oracle) (stock_config : StockConfig) (w w' : World)
    (e : exn) :
  get_stock_data_try o stock_config w = (Raise e, w') ->
  cache w' = cache w ∧ send_alert_calls w' = send_alert_calls w.
Proof.
  unfold get_stock_data_try, mbind, M_bind, next_query, lift, now, set_cache,
    set_last_update, mret, M_ret. simpl.
  destruct (yf_Ticker o (queries w) (symbol stock_config)) as [ticker|e1]; simpl.
  - destruct (fresh_snapshot stock_config ticker _) as [d|e2]; simpl; [discriminate|].
    by intros [= <- <-].
  - by intros [= <- <-].
Qed.

Lemma get_stock_data_try_Ok (o : Oracle) (stock_config : StockConfig) (w w' : World)
    (d : Snapshot.t) :
  get_stock_data_try o stock_config w = (Ok d, w') ->
  cache w' = <[symbol stock_config := d]> (cache w) ∧
  send_alert_calls w' = send_alert_calls w.
Proof.
  unfold get_stock_data_try, mbind, M_bind, next_query, lift, now, set_cache,
    set_last_update, mret, M_ret. simpl.
  destruct (yf_Ticker o (queries w) (symbol stock_config)) as [ticker|e1]; simpl;
    [|discriminate].
  destruct (fresh_snapshot stock_config ticker _) as [d'|e2]; simpl; [|discriminate].
  by intros [= <- <-].
Qed.

(** The [try] block raises exactly when the provider raises or the
    snapshot cannot be built from what the provider returned. *)
Lemma get_stock_data_try_fails_iff (o : Oracle) (stock_config : StockConfig) (w : World)
    (e : exn) :
  (get_stock_data_try o stock_config w).1 = Raise e <->
  yf_Ticker o (queries w) (symbol stock_config) = Raise e ∨
  ∃ ticker, yf_Ticker o (queries w) (symbol stock_config) = Ok ticker ∧
            fresh_snapshot stock_config ticker (datetime_now o (S (queries w))) = Raise e.
Proof.
  unfold get_stock_data_try, mbind, M_bind, next_query, lift, now, set_cache,
    set_last_update, mret, M_ret. simpl.
  destruct (yf_Ticker o (queries w) (symbol stock_config)) as [ticker|e1]; simpl.
  - destruct (fresh_snapshot stock_config ticker _) as [d|e2] eqn:Hd; simpl.
    + split; [discriminate|]. intros [H | (t & [= <-] & H)]; congruence.
    + split.
      * intros [= <-]. right. eauto.
      * intros [H | (t & [= <-] & H)]; congruence.
  - split.
    + intros [= <-]. by left.
    + intros [H | (t & H & _)]; congruence.
Qed.

(** C5: when the [try] block of [get_stock_data] raises, whatever the
    exception, the operation returns the cached snapshot of the symbol
    without raising, the cache untouched, when there is one, and raises
    that exception when there is none. *)
Theorem C5_failure_falls_back_to_cache (o : Oracle) (stock_config : StockConfig)
    (w : World) (e : exn) :
  (get_stock_data_try o stock_config w).1 = Raise e ->
  (∀ cached, cache w !! symbol stock_config = Some cached ->
     (get_stock_data o stock_config w).1 = Ok cached ∧
     cache (get_stock_data o stock_config w).2 = cache w) ∧
  (cache w !! symbol stock_config = None ->
     (get_stock_data o stock_config w).1 = Raise e).
Proof.
  intros Htry. unfold get_stock_data, try_except.
  destruct (get_stock_data_try o stock_config w) as [r w1] eqn:E. simpl in Htry. subst r.
  apply get_stock_data_try_Raise in E as [Hcache _].
  unfold get_stock_data_except, mbind, M_bind, logging, get_world, raise, mret, M_ret.
  simpl. rewrite Hcache. split.
  - intros cached ->. simpl. done.
  - intros ->. done.
Qed.

Lemma C5_failure_falls_back_to_cache_witness :
  (∀ cached, cache ex_world_cached !! symbol ex_stock = Some cached ->
     (get_stock_data ex_oracle_down ex_stock ex_world_cached).1 = Ok cached ∧
     cache (get_stock_data ex_oracle_down ex_stock ex_world_cached).2 = cache ex_world_cached) ∧
  (cache ex_world_cached !! symbol ex_stock = None ->
     (get_stock_data ex_oracle_down ex_stock ex_world_cached).1
     = Raise (ProviderError "connection timed out")).
Proof.
  apply (C5_failure_falls_back_to_cache ex_oracle_down ex_stock ex_world_cached).
  vm_compute. reflexivity.
Defined.

(** ** The monitor: the snapshot map of a run *)

(** What one fetch does to the cache: a value returned is the cache's
    entry afterwards, an exception leaves a cache that never had one. *)
Lemma get_stock_data_effect (o : Oracle) (stock_config : StockConfig) (w : World) :
  ∃ r w', get_stock_data o stock_config w = (r, w') ∧
    send_alert_calls w' = send_alert_calls w ∧
    match r with
    | Ok d => cache w' !! symbol stock_config = Some d ∧
              (cache w' = cache w ∨ cache w' = <[symbol stock_config := d]> (cache w))
    | Raise e => cache w !! symbol stock_config = None ∧ cache w' = cache w
    end.
Proof.
  unfold get_stock_data, try_except.
  destruct (get_stock_data_try o stock_config w) as [[d|e] w1] eqn:E.
  - apply get_stock_data_try_Ok in E as [Hcache Hcalls].
    exists (Ok d), w1. split; [done|]. split; [done|].
    split; [by rewrite Hcache, lookup_insert_eq | by right].
  - apply get_stock_data_try_Raise in E as [Hcache Hcalls].
    unfold get_stock_data_except, mbind, M_bind, logging, get_world, raise, mret, M_ret.
    simpl. rewrite Hcache.
    destruct (cache w !! symbol stock_config) as [cached|] eqn:Hc; simpl.
    + eexists _, _. split; [done|]. simpl. rewrite ?Hcache. auto.
    + eexists _, _. split; [done|]. simpl. auto.
Qed.

Lemma gather_fetch (o : Oracle) (stock_configs : list StockConfig) :
  ∀ w, ∃ results w',
    gather (get_stock_data o <$> stock_configs) w = (Ok results, w') ∧
    length results = length stock_configs ∧
    send_alert_calls w' = send_alert_calls w ∧
    (∀ k, is_Some (cache w !! k) -> is_Some (cache w' !! k)) ∧
    (∀ i sc e, stock_configs !! i = Some sc -> results !! i = Some (Raise e) ->
               cache w !! symbol sc = None) ∧
    (∀ k d, cache w' !! k = Some d ->
            cache w !! k = Some d ∨
            ∃ i sc, stock_configs !! i = Some sc ∧ symbol sc = k ∧
                    results !! i = Some (Ok d)).
Proof.
  induction stock_configs as [|sc0 stock_configs IH]; intros w.
  - exists [], w. simpl. split; [done|]. split; [done|]. split; [done|].
    split; [done|]. split; [intros i sc e H; by rewrite lookup_nil in H|]. auto.
  - destruct (get_stock_data_effect o sc0 w) as (r & w1 & Hfetch & Hcalls1 & Hr).
    destruct (IH w1) as (rs & w' & Hgather & Hlen & Hcalls & Hmono & Hraise & Hval).
    exists (r :: rs), w'. rewrite fmap_cons. simpl gather.
    rewrite Hfetch. unfold mbind at 1. unfold M_bind at 1. rewrite Hgather. unfold mret, M_ret.
    assert (Hmono1 : ∀ k, is_Some (cache w !! k) -> is_Some (cache w1 !! k)).
    { intros k Hk. destruct r as [d|e].
      - destruct Hr as [Hd [-> | ->]]; [done|].
        destruct (decide (symbol sc0 = k)) as [->|Hne];
          [by rewrite lookup_insert_eq | by rewrite lookup_insert_ne].
      - destruct Hr as [_ ->]. done. }
    split; [done|]. split; [simpl; by rewrite Hlen|]. split; [congruence|].
    split; [auto|]. split.
    + intros [|i] sc e Hsc Hres; simpl in Hsc, Hres.
      * injection Hsc as <-. injection Hres as ->. by destruct Hr.
      * specialize (Hraise i sc e Hsc Hres).
        destruct (cache w !! symbol sc) eqn:Hc; [|done].
        destruct (Hmono1 (symbol sc)) as [x Hx]; [by rewrite Hc | congruence].
    + intros k d Hk. destruct (Hval k d Hk) as [Hw1 | (i & sc & Hsc & Hsym & Hres)].
      * destruct r as [d0|e].
        -- destruct Hr as [Hd [Hsame | Hins]].
           ++ left. by rewrite <- Hsame.
           ++ destruct (decide (symbol sc0 = k)) as [Heq|Hne].
              ** right. exists 0%nat, sc0. simpl. split; [done|]. split; [done|].
                 subst k. congruence.
              ** left. rewrite Hins in Hw1. by rewrite lookup_insert_ne in Hw1.
        -- destruct Hr as [_ Hsame]. left. by rewrite <- Hsame.
      * right. exists (S i), sc. auto.
Qed.

(** The loop of [check_multiple_stocks] only reads the cache. *)
Lemma collect_result_effect (m0 : gmap string Snapshot.t)
    (item : StockConfig * result Snapshot.t) (w : World) :
  ∃ m w', collect_result m0 item w = (Ok m, w') ∧
    cache w' = cache w ∧ send_alert_calls w' = send_alert_calls w ∧
    match item.2 with
    | Ok d => m = <[symbol item.1 := d]> m0
    | Raise e => match cache w !! symbol item.1 with
                 | Some cached => m = <[symbol item.1 := cached]> m0
                 | None => m = m0
                 end
    end.
Proof.
  destruct item as [sc [d|e]]; unfold collect_result; simpl.
  - by eexists _, _.
  - unfold mbind, M_bind, logging, get_world, mret, M_ret. simpl.
    destruct (cache w !! symbol sc) as [cached|]; simpl; by eexists _, _.
Qed.

Lemma collect_results (items : list (StockConfig * result Snapshot.t)) :
  ∀ m0 w, ∃ m w', for_fold items collect_result m0 w = (Ok m, w') ∧
    cache w' = cache w ∧ send_alert_calls w' = send_alert_calls w ∧
    (∀ k, is_Some (m0 !! k) -> is_Some (m !! k)) ∧
    (∀ sc d, (sc, Ok d) ∈ items -> is_Some (m !! symbol sc)) ∧
    (∀ k d, m !! k = Some d ->
            m0 !! k = Some d ∨
            (∃ sc, (sc, Ok d) ∈ items ∧ symbol sc = k) ∨
            (∃ sc e, (sc, Raise e) ∈ items ∧ symbol sc = k ∧ cache w !! k = Some d)).
Proof.
  induction items as [|item items IH]; intros m0 w.
  - exists m0, w. simpl. split; [done|]. split; [done|]. split; [done|].
    split; [done|]. split; [|auto].
    intros sc d H. by apply elem_of_nil in H.
  - destruct (collect_result_effect m0 item w) as (m1 & w1 & Hstep & Hcache1 & Hcalls1 & Hm1).
    destruct (IH m1 w1) as (m & w' & Hfold & Hcache & Hcalls & Hmono & Hok & Hval).
    exists m, w'. simpl. unfold mbind at 1. unfold M_bind at 1. rewrite Hstep.
    assert (Hmono1 : ∀ k, is_Some (m0 !! k) -> is_Some (m1 !! k)).
    { intros k Hk. destruct item as [sc [d|e]]; simpl in Hm1.
      - subst m1. destruct (decide (symbol sc = k)) as [->|Hne];
          [by rewrite lookup_insert_eq | by rewrite lookup_insert_ne].
      - destruct (cache w !! symbol sc); subst m1; [|done].
        destruct (decide (symbol sc = k)) as [->|Hne];
          [by rewrite lookup_insert_eq | by rewrite lookup_insert_ne]. }
    split; [done|]. split; [congruence|]. split; [congruence|].
    split; [auto|]. split.
    + intros sc d Hin. apply elem_of_cons in Hin as [Heq|Hin]; [subst item|eauto].
      simpl in Hm1. subst m1. apply Hmono. by rewrite lookup_insert_eq.
    + intros k d Hk. destruct (Hval k d Hk) as [Hm1k | [(sc & Hin & Hsym) | (sc & e & Hin & Hsym & Hc)]].
      * destruct item as [sc [d0|e]]; simpl in Hm1.
        -- subst m1. destruct (decide (symbol sc = k)) as [Heq|Hne].
           ++ subst k. rewrite lookup_insert_eq in Hm1k. injection Hm1k as ->.
              right. left. exists sc. split; [apply elem_of_cons; auto | done].
           ++ rewrite lookup_insert_ne in Hm1k by done. auto.
        -- destruct (cache w !! symbol sc) as [cached|] eqn:Hc; subst m1; [|auto].
           destruct (decide (symbol sc = k)) as [Heq|Hne].
           ++ subst k. rewrite lookup_insert_eq in Hm1k. injection Hm1k as ->.
              right. right. exists sc, e. split; [apply elem_of_cons; auto | done].
           ++ rewrite lookup_insert_ne in Hm1k by done. auto.
      * right. left. exists sc. split; [apply elem_of_cons; auto | done].
      * right. right. exists sc, e. split; [apply elem_of_cons; auto|]. split; [done|].
        by rewrite <- Hcache1.
Qed.

(** The run: results in the order of the configurations, and the map. *)
Lemma check_multiple_stocks_effect (o : Oracle) (stock_configs : list StockConfig) (w : World) :
  ∃ m w', check_multiple_stocks o stock_configs w = (Ok m, w') ∧
    send_alert_calls w' = send_alert_calls w ∧
    length (fetch_results o stock_configs w) = length stock_configs ∧
    (∀ i sc d, stock_configs !! i = Some sc ->
               fetch_results o stock_configs w !! i = Some (Ok d) ->
               is_Some (m !! symbol sc)) ∧
    (∀ k d, m !! k = Some d ->
            ∃ i sc, stock_configs !! i = Some sc ∧ symbol sc = k ∧
                    fetch_results o stock_configs w !! i = Some (Ok d)).
Proof.
  unfold check_multiple_stocks, fetch_results.
  destruct (gather_fetch o stock_configs w)
    as (rs & w1 & Hgather & Hlen & Hcalls1 & Hmono & Hraise & Hval).
  destruct (collect_results (zip stock_configs rs) ∅ w1)
    as (m & w' & Hfold & Hcache & Hcalls & _ & Hok & Hin).
  exists m, w'. unfold mbind at 1. unfold M_bind at 1. rewrite Hgather. simpl.
  split; [done|]. split; [congruence|]. split; [done|]. split.
  - intros i sc d Hsc Hres. apply Hok with d.
    apply list_elem_of_lookup. exists i.
    apply lookup_zip_with_Some. eauto.
  - intros k d Hk. destruct (Hin k d Hk) as [Hempty | [(sc & Hitem & Hsym) | (sc & e & Hitem & Hsym & Hc)]].
    + by rewrite lookup_empty in Hempty.
    + apply list_elem_of_lookup in Hitem as [i Hi].
      apply lookup_zip_with_Some in Hi as (sc' & r & Heq & Hsc & Hr).
      injection Heq as <- <-. eauto.
    + apply list_elem_of_lookup in Hitem as [i Hi].
      apply lookup_zip_with_Some in Hi as (sc' & r & Heq & Hsc & Hr).
      injection Heq as <- <-.
      destruct (Hval k d Hc) as [Hw | Hfound]; [|done].
      specialize (Hraise i sc e Hsc Hr). congruence.
Qed.

(** C6: the map of the multi-instrument fetch has a symbol exactly when
    the single-instrument fetch of some instrument with that symbol
    returned a value, whatever the fetches of the other instruments did;
    the snapshot it holds for the symbol is such a returned value; and a
    symbol all of whose fetches raised is absent. *)
Theorem C6_map_has_exactly_the_fetched (o : Oracle) (stock_configs : list StockConfig)
    (w : World) (sym : string) :
  let results := fetch_results o stock_configs w in
  let m := fetched_map o stock_configs w in
  length results = length stock_configs ∧
  (is_Some (m !! sym) <->
   ∃ i sc d, stock_configs !! i = Some sc ∧ symbol sc = sym ∧ results !! i = Some (Ok d)) ∧
  (∀ d, m !! sym = Some d ->
        ∃ i sc, stock_configs !! i = Some sc ∧ symbol sc = sym ∧ results !! i = Some (Ok d)) ∧
  ((∀ i sc, stock_configs !! i = Some sc -> symbol sc = sym ->
            ∃ e, results !! i = Some (Raise e)) ->
   m !! sym = None).
Proof.
  intros results m. subst results m. unfold fetched_map.
  destruct (check_multiple_stocks_effect o stock_configs w)
    as (m & w' & Hrun & _ & Hlen & Hok & Hin).
  rewrite Hrun. simpl. split; [done|].
  assert (Hiff : is_Some (m !! sym) <->
                 ∃ i sc d, stock_configs !! i = Some sc ∧ symbol sc = sym ∧
                           fetch_results o stock_configs w !! i = Some (Ok d)).
  { split.
    - intros [d Hd]. destruct (Hin sym d Hd) as (i & sc & H1 & H2 & H3).
      by exists i, sc, d.
    - intros (i & sc & d & Hsc & <- & Hres). by apply (Hok i sc d). }
  split; [done|]. split; [auto|].
  intros Hall. destruct (m !! sym) as [d|] eqn:Hd; [|done].
  destruct (Hin sym d Hd) as (i & sc & Hsc & Hsym & Hres).
  destruct (Hall i sc Hsc Hsym) as [e He]. congruence.
Qed.

(** ** The dispatcher and the planner *)

#[local] Arguments is_any_cover_breached : simpl never.

(** Unfolding the monad on a given world. *)
Ltac run_M :=
  unfold mbind, M_bind, mret, M_ret, logging, record_send_alert, next_query, lift,
    now, try_except, raise, get_world; simpl.

Lemma M_bind_run {A B : Type} (m : M A) (f : A -> M B) (w w1 : World) (a : A) :
  m w = (Ok a, w1) -> (m ≫= f) w = f a w1.
Proof. intros H. unfold mbind, M_bind. by rewrite H. Qed.

Lemma try_except_Ok {A : Type} (m : M A) (handler : exn -> M A) (w w1 : World) (a : A) :
  m w = (Ok a, w1) -> try_except m handler w = (Ok a, w1).
Proof. intros H. unfold try_except. by rewrite H. Qed.

Lemma send_alert_effect (o : Oracle) (sender : SenderConfig) (r : RecipientConfig)
    (subject : string) (content : Html) (w : World) :
  ∃ w', send_alert o sender r subject content w = (Ok tt, w') ∧
    cache w' = cache w ∧
    send_alert_calls w' =
      send_alert_calls w ++
        [{| call_recipient := r; call_subject := subject; call_content := content |}].
Proof.
  unfold send_alert, _send_smtp_email. run_M.
  destruct (nonempty (smtp_password sender)); simpl.
  - destruct (smtp_send_message o (queries w) sender _ _) as [[]|e]; simpl;
      by eexists.
  - by eexists.
Qed.

Lemma format_grouped_alert_effect (o : Oracle) (all_stock_data : list Snapshot.t)
    (all_stock_configs : list StockConfig) (currency_symbol : string) (w : World) :
  ∃ content w', format_grouped_alert o all_stock_data all_stock_configs currency_symbol w
                = (Ok content, w') ∧
    cache w' = cache w ∧ send_alert_calls w' = send_alert_calls w.
Proof. unfold format_grouped_alert. run_M. by eexists _, _. Qed.

Lemma process_recipient_effect (o : Oracle) (sender : SenderConfig)
    (all_stocks_config : list StockConfig) (currency_symbol : string)
    (m : gmap string Snapshot.t) (is_scheduled threat_only : bool)
    (r : RecipientConfig) (w : World) :
  ∃ w' cs,
    process_recipient o sender all_stocks_config currency_symbol m
                      is_scheduled threat_only r w = (Ok tt, w') ∧
    cache w' = cache w ∧
    send_alert_calls w' = send_alert_calls w ++ cs ∧
    call_recipient <$> cs =
      (if sends_email all_stocks_config m is_scheduled threat_only r then [r] else []) ∧
    (∀ c, c ∈ cs -> call_subject c = email_subject all_stocks_config m is_scheduled r).
Proof.
  unfold process_recipient, sends_email, email_subject.
  destruct (is_scheduled && pref r "scheduled_reports"
            || threat_only && pref r "threat_alerts") eqn:Hpref; simpl.
  2: { exists w, []. rewrite app_nil_r. split; [done|]. split; [done|]. split; [done|].
       split; [done|]. intros c Hc. by apply elem_of_nil in Hc. }
  destruct (recipient_snapshots m r) as [|d ds] eqn:Hsnap.
  { exists w, []. rewrite app_nil_r. split; [done|]. split; [done|]. split; [done|].
    split; [done|]. intros c Hc. by apply elem_of_nil in Hc. }
  destruct (is_scheduled && pref r "scheduled_reports" && negb threat_only
            || threat_only && pref r "threat_alerts"
               && is_any_cover_breached all_stocks_config (d :: ds)) eqn:Hsend.
  2: { exists w, []. rewrite app_nil_r. split; [done|]. split; [done|]. split; [done|].
       split; [done|]. intros c Hc. by apply elem_of_nil in Hc. }
  unfold mbind at 1. unfold M_bind at 1.
  destruct (format_grouped_alert_effect o (d :: ds) all_stocks_config currency_symbol w)
    as (content & w1 & -> & Hcache1 & Hcalls1).
  unfold mbind at 1. unfold M_bind at 1.
  match goal with |- context [send_alert o sender r ?s content w1] =>
    destruct (send_alert_effect o sender r s content w1) as (w2 & -> & Hcache2 & Hcalls2)
  end.
  eexists _, _. split; [reflexivity|]. unfold logging. simpl.
  split; [congruence|]. split; [rewrite Hcalls2, Hcalls1; reflexivity|].
  split; [done|].
  intros c Hc. apply list_elem_of_singleton in Hc as ->. done.
Qed.

Lemma for_each_recipient_effect (o : Oracle) (sender : SenderConfig)
    (all_stocks_config : list StockConfig) (currency_symbol : string)
    (m : gmap string Snapshot.t) (is_scheduled threat_only : bool)
    (recipients : list RecipientConfig) :
  ∀ w, ∃ w' cs,
    for_each recipients
      (process_recipient o sender all_stocks_config currency_symbol m
                         is_scheduled threat_only) w = (Ok tt, w') ∧
    send_alert_calls w' = send_alert_calls w ++ cs ∧
    call_recipient <$> cs =
      List.filter (sends_email all_stocks_config m is_scheduled threat_only) recipients ∧
    (∀ c, c ∈ cs -> call_subject c
                    = email_subject all_stocks_config m is_scheduled (call_recipient c)).
Proof.
  induction recipients as [|r recipients IH]; intros w.
  - exists w, []. rewrite app_nil_r. split; [done|]. split; [done|]. split; [done|].
    intros c Hc. by apply elem_of_nil in Hc.
  - destruct (process_recipient_effect o sender all_stocks_config currency_symbol m
                is_scheduled threat_only r w) as (w1 & cs1 & Hstep & _ & Hcalls1 & Hrcpt1 & Hsubj1).
    destruct (IH w1) as (w' & cs & Hrest & Hcalls & Hrcpt & Hsubj).
    exists w', (cs1 ++ cs). simpl. unfold mbind at 1. unfold M_bind at 1.
    rewrite Hstep. split; [done|]. split; [by rewrite Hcalls, Hcalls1, app_assoc|].
    split.
    + rewrite fmap_app, Hrcpt1, Hrcpt.
      by destruct (sends_email all_stocks_config m is_scheduled threat_only r).
    + intros c Hc. apply elem_of_app in Hc as [Hc|Hc]; [|auto].
      rewrite (Hsubj1 c Hc). f_equal.
      assert (Hr : call_recipient c ∈ call_recipient <$> cs1)
        by (by apply list_elem_of_fmap_2).
      rewrite Hrcpt1 in Hr.
      destruct (sends_email all_stocks_config m is_scheduled threat_only r).
      * by apply list_elem_of_singleton in Hr.
      * by apply elem_of_nil in Hr.
Qed.

Lemma filter_sends_email_empty (all_stocks_config : list StockConfig)
    (is_scheduled threat_only : bool) (recipients : list RecipientConfig) :
  List.filter (sends_email all_stocks_config ∅ is_scheduled threat_only) recipients = [].
Proof.
  induction recipients as [|r rs IH]; [done|]. simpl.
  assert (sends_email all_stocks_config ∅ is_scheduled threat_only r = false) as ->; [|done].
  unfold sends_email, recipient_snapshots.
  assert (omap (λ sym : string, (∅ : gmap string Snapshot.t) !! sym)
               (subscribed_symbols r) = []) as ->; [|by rewrite andb_false_r].
  induction (subscribed_symbols r) as [|x xs IHx]; [done|]. simpl.
  by rewrite lookup_empty.
Qed.

(** A pipeline run never raises; it calls [send_alert] for the recipients
    the planner selects, in their order, each with the planner's subject. *)
Lemma _check_all_stocks_effect (o : Oracle) (sender : SenderConfig) (config : Config)
    (is_scheduled threat_only : bool) (w : World) :
  let run := _check_all_stocks o sender config is_scheduled threat_only in
  let m := fetched_map o (get_stocks config) w in
  (run w).1 = Ok tt ∧
  send_alert_calls (run w).2 = send_alert_calls w ++ calls_of_run run w ∧
  call_recipient <$> calls_of_run run w =
    List.filter (sends_email (get_stocks config) m is_scheduled threat_only)
                (get_recipients config) ∧
  (∀ c, c ∈ calls_of_run run w ->
        call_subject c = email_subject (get_stocks config) m is_scheduled (call_recipient c)).
Proof.
  intros run m. subst run m. unfold calls_of_run, fetched_map.
  destruct (check_multiple_stocks_effect o (get_stocks config) w)
    as (m & w1 & Hfetch & Hcalls1 & _).
  destruct (for_each_recipient_effect o sender (get_stocks config)
              (get_currency_symbol config) m is_scheduled threat_only
              (get_recipients config) w1)
    as (w' & cs & Hloop & Hcalls & Hrcpt & Hsubj).
  rewrite Hfetch. cbn [fst].
  assert (Hrun : ∃ w2, _check_all_stocks o sender config is_scheduled threat_only w
                       = (Ok tt, w2) ∧
                       send_alert_calls w2 = send_alert_calls w ++ cs).
  { unfold _check_all_stocks.
    destruct (get_stocks config) as [|sc stocks] eqn:Hstocks.
    { eexists. split; [reflexivity|]. simpl.
      assert (cs = []) as ->; [|by rewrite app_nil_r].
      apply fmap_nil_inv with call_recipient. rewrite Hrcpt.
      assert (m = ∅) as ->.
      { unfold check_multiple_stocks in Hfetch. simpl in Hfetch. by injection Hfetch as <-. }
      apply filter_sends_email_empty. }
    destruct (get_recipients config) as [|r0 recipients] eqn:Hrecipients.
    { eexists. split; [reflexivity|]. simpl.
      assert (cs = []) as ->; [|by rewrite app_nil_r].
      by apply fmap_nil_inv with call_recipient. }
    exists w'. split; [|congruence].
    apply try_except_Ok. by rewrite (M_bind_run _ _ _ _ _ Hfetch). }
  destruct Hrun as (w2 & -> & Hcalls2). cbn [fst snd].
  rewrite Hcalls2, drop_app_length. done.
Qed.

(** The loop with its [break] finds a breach exactly when there is one. *)
Lemma is_any_cover_breached_iff (all_stocks_config : list StockConfig)
    (m : gmap string Snapshot.t) (r : RecipientConfig) :
  is_any_cover_breached all_stocks_config (recipient_snapshots m r) = true
  <-> any_breach all_stocks_config m r.
Proof.
  unfold is_any_cover_breached, any_breach, recipient_snapshots.
  rewrite existsb_exists. split.
  - intros (d & Hin & Hd). apply list_elem_of_In, list_elem_of_omap in Hin
      as (sym & Hsym & Hm).
    destruct (find_config all_stocks_config (Snapshot.symbol d)) as [sc|] eqn:Hfind;
      [|discriminate].
    by exists sym, d, sc.
  - intros (sym & d & sc & Hsym & Hm & Hfind & Hlt). exists d. split.
    + apply list_elem_of_In, list_elem_of_omap. eauto.
    + by rewrite Hfind.
Qed.

Lemma recipient_snapshots_nonempty (m : gmap string Snapshot.t) (r : RecipientConfig) :
  (∃ sym, sym ∈ subscribed_symbols r ∧ is_Some (m !! sym)) ->
  recipient_snapshots m r ≠ [].
Proof.
  intros (sym & Hsym & [d Hd]) Hnil.
  assert (Hin : d ∈ recipient_snapshots m r)
    by (apply list_elem_of_omap; eauto).
  rewrite Hnil in Hin. by apply elem_of_nil in Hin.
Qed.

(** C1: in a threat-scan run, a recipient none of whose subscribed symbols
    present in the run's snapshot map is breached gets no call of
    [send_alert], whatever the alert preferences are. *)
Theorem C1_clean_threat_scan_is_silent (o : Oracle) (sender : SenderConfig)
    (config : Config) (w : World) (r : RecipientConfig) :
  ¬ any_breach (get_stocks config) (fetched_map o (get_stocks config) w) r ->
  ∀ c, c ∈ calls_of_run (_continuous_threat_check o sender config) w ->
       call_recipient c ≠ r.
Proof.
  intros Hclean c Hc Hr. unfold _continuous_threat_check in Hc.
  destruct (_check_all_stocks_effect o sender config false true w)
    as (_ & _ & Hrcpt & _).
  assert (Hin : r ∈ call_recipient <$> calls_of_run
                  (_check_all_stocks o sender config false true) w).
  { rewrite <- Hr. by apply list_elem_of_fmap_2. }
  rewrite Hrcpt in Hin. apply list_elem_of_In, filter_In in Hin as [_ Hsends].
  apply Hclean, is_any_cover_breached_iff.
  unfold sends_email in Hsends. simpl in Hsends.
  destruct (recipient_snapshots _ r) as [|d ds]; [by rewrite andb_false_r in Hsends|].
  apply andb_true_iff in Hsends as [_ Hsends].
  by apply andb_true_iff in Hsends as [_ Hsends].
Qed.

Lemma C1_clean_threat_scan_is_silent_witness :
  ¬ any_breach (get_stocks ex_config)
               (fetched_map ex_oracle_recovered (get_stocks ex_config) ex_world)
               ex_recipient ∧
  ∀ c, c ∈ calls_of_run (_continuous_threat_check ex_oracle_recovered ex_sender ex_config)
                        ex_world ->
       call_recipient c ≠ ex_recipient.
Proof.
  assert (Hclean : ¬ any_breach (get_stocks ex_config)
                     (fetched_map ex_oracle_recovered (get_stocks ex_config) ex_world)
                     ex_recipient).
  { intros H. apply is_any_cover_breached_iff in H. vm_compute in H. discriminate. }
  split; [exact Hclean|].
  exact (C1_clean_threat_scan_is_silent ex_oracle_recovered ex_sender ex_config
           ex_world ex_recipient Hclean).
Defined.

(** C2: in a scheduled run, a recipient of the configuration whose
    [scheduled_reports] preference is true and who has a subscribed symbol
    in the run's snapshot map gets a call of [send_alert], breached or
    not; the subject of such a call is the escalated one exactly when a
    subscribed instrument in the map is breached, and the plain one
    otherwise. *)
Theorem C2_scheduled_report_is_sent (o : Oracle) (sender : SenderConfig)
    (config : Config) (w : World) (r : RecipientConfig) :
  r ∈ get_recipients config ->
  pref r "scheduled_reports" = true ->
  (∃ sym, sym ∈ subscribed_symbols r ∧
          is_Some (fetched_map o (get_stocks config) w !! sym)) ->
  let calls := calls_of_run (_scheduled_check o sender config) w in
  let breached := any_breach (get_stocks config) (fetched_map o (get_stocks config) w) r in
  (∃ c, c ∈ calls ∧ call_recipient c = r) ∧
  (∀ c, c ∈ calls -> call_recipient c = r ->
        (call_subject c = "Scheduled Report - BOT ALERT!" <-> breached) ∧
        (call_subject c = "Scheduled Report - Stock Update" <-> ¬ breached)).
Proof.
  intros Hr Hpref Hsym calls breached. subst calls breached.
  unfold _scheduled_check.
  destruct (_check_all_stocks_effect o sender config true false w)
    as (_ & _ & Hrcpt & Hsubj).
  split.
  - assert (Hin : r ∈ call_recipient <$> calls_of_run
                    (_check_all_stocks o sender config true false) w).
    { rewrite Hrcpt. apply list_elem_of_In, filter_In. split; [by apply list_elem_of_In|].
      unfold sends_email. rewrite Hpref. simpl.
      apply recipient_snapshots_nonempty in Hsym.
      by destruct (recipient_snapshots _ r). }
    apply list_elem_of_fmap in Hin as (c & -> & Hc). eauto.
  - intros c Hc <-. rewrite (Hsubj c Hc). unfold email_subject.
    rewrite <- is_any_cover_breached_iff.
    destruct (is_any_cover_breached _ _); simpl; split; split; done.
Qed.

Lemma C2_scheduled_report_is_sent_witness :
  let calls := calls_of_run (_scheduled_check ex_oracle_recovered ex_sender ex_config)
                            ex_world in
  let breached :=
    any_breach (get_stocks ex_config)
               (fetched_map ex_oracle_recovered (get_stocks ex_config) ex_world)
               ex_recipient in
  (∃ c, c ∈ calls ∧ call_recipient c = ex_recipient) ∧
  (∀ c, c ∈ calls -> call_recipient c = ex_recipient ->
        (call_subject c = "Scheduled Report - BOT ALERT!" <-> breached) ∧
        (call_subject c = "Scheduled Report - Stock Update" <-> ¬ breached)).
Proof.
  apply (C2_scheduled_report_is_sent ex_oracle_recovered ex_sender ex_config
           ex_world ex_recipient).
  - apply list_elem_of_singleton. reflexivity.
  - reflexivity.
  - exists "STAR.NS". split; [apply list_elem_of_singleton; reflexivity|].
    vm_compute. eexists. reflexivity.
Defined.

(** ** Delivery failures *)

Lemma same_but_log_refl (w : World) : same_but_log w w.
Proof. by unfold same_but_log. Qed.

Lemma transport_blind_bind {A B : Type} (m1 m2 : M A) (f1 f2 : A -> M B) :
  transport_blind m1 m2 -> (∀ a, transport_blind (f1 a) (f2 a)) ->
  transport_blind (m1 ≫= f1) (m2 ≫= f2).
Proof.
  intros Hm Hf w1 w2 Hw. destruct (Hm w1 w2 Hw) as [Hres Hw'].
  unfold mbind, M_bind.
  destruct (m1 w1) as [r1 w1'], (m2 w2) as [r2 w2']. simpl in Hres, Hw'. subst r2.
  destruct r1 as [a|e]; [by apply Hf | done].
Qed.

Lemma transport_blind_ret {A : Type} (a : A) : transport_blind (mret a) (mret a).
Proof. by intros w1 w2 Hw. Qed.

Lemma transport_blind_for_each {A : Type} (l : list A) (f1 f2 : A -> M unit) :
  (∀ x, transport_blind (f1 x) (f2 x)) -> transport_blind (for_each l f1) (for_each l f2).
Proof.
  intros Hf. induction l as [|x l IH]; simpl.
  - apply transport_blind_ret.
  - apply transport_blind_bind; [apply Hf | intros _; apply IH].
Qed.

Lemma transport_blind_format (o : Oracle)
    (smtp : nat -> SenderConfig -> Message -> list string -> result unit)
    (all_stock_data : list Snapshot.t) (all_stock_configs : list StockConfig)
    (currency_symbol : string) :
  transport_blind
    (format_grouped_alert (with_transport o smtp) all_stock_data all_stock_configs currency_symbol)
    (format_grouped_alert o all_stock_data all_stock_configs currency_symbol).
Proof.
  intros w1 w2 (Hc & Hu & Hq & Hs). unfold format_grouped_alert. run_M.
  rewrite Hq. done.
Qed.

(** Whether the transport delivers or raises, [send_alert] returns
    normally and leaves the same world but for the log. *)
Lemma transport_blind_send_alert (o : Oracle)
    (smtp : nat -> SenderConfig -> Message -> list string -> result unit)
    (sender : SenderConfig) (r : RecipientConfig) (subject : string) (content : Html) :
  transport_blind (send_alert (with_transport o smtp) sender r subject content)
                  (send_alert o sender r subject content).
Proof.
  intros w1 w2 (Hc & Hu & Hq & Hs). unfold send_alert, _send_smtp_email. run_M.
  destruct (nonempty (smtp_password sender)); simpl.
  - destruct (smtp _ _ _ _) as [[]|e1], (smtp_send_message o _ _ _ _) as [[]|e2]; simpl;
      unfold same_but_log; simpl; rewrite Hc, Hu, Hq, Hs; done.
  - unfold same_but_log; simpl. rewrite Hc, Hu, Hq, Hs. done.
Qed.

Lemma transport_blind_process_recipient (o : Oracle)
    (smtp : nat -> SenderConfig -> Message -> list string -> result unit)
    (sender : SenderConfig) (all_stocks_config : list StockConfig)
    (currency_symbol : string) (m : gmap string Snapshot.t)
    (is_scheduled threat_only : bool) (r : RecipientConfig) :
  transport_blind
    (process_recipient (with_transport o smtp) sender all_stocks_config currency_symbol m
                       is_scheduled threat_only r)
    (process_recipient o sender all_stocks_config currency_symbol m
                       is_scheduled threat_only r).
Proof.
  unfold process_recipient.
  destruct (negb _); [apply transport_blind_ret|].
  destruct (recipient_snapshots m r) as [|d ds]; [apply transport_blind_ret|].
  destruct (_ || _); [|apply transport_blind_ret].
  apply transport_blind_bind; [apply transport_blind_format|]. intros content.
  apply transport_blind_bind; [apply transport_blind_send_alert|]. intros _.
  intros w1 w2 (Hc & Hu & Hq & Hs). unfold logging, same_but_log. simpl. done.
Qed.

Lemma check_all_stocks_transport_blind (o : Oracle)
    (smtp : nat -> SenderConfig -> Message -> list string -> result unit)
    (sender : SenderConfig) (config : Config) (is_scheduled threat_only : bool) (w : World) :
  calls_of_run (_check_all_stocks (with_transport o smtp) sender config
                                  is_scheduled threat_only) w
  = calls_of_run (_check_all_stocks o sender config is_scheduled threat_only) w.
Proof.
  unfold calls_of_run. f_equal. unfold _check_all_stocks.
  destruct (get_stocks config) as [|sc stocks] eqn:Hstocks; [done|].
  destruct (get_recipients config) as [|r0 recipients] eqn:Hrecipients; [done|].
  destruct (check_multiple_stocks_effect o (sc :: stocks) w) as (m & w1 & Hfetch & _).
  assert (Hfetch' : check_multiple_stocks (with_transport o smtp) (sc :: stocks) w
                    = (Ok m, w1)) by exact Hfetch.
  set (loop1 := for_each (r0 :: recipients)
                  (process_recipient (with_transport o smtp) sender (sc :: stocks)
                     (get_currency_symbol config) m is_scheduled threat_only)).
  set (loop2 := for_each (r0 :: recipients)
                  (process_recipient o sender (sc :: stocks)
                     (get_currency_symbol config) m is_scheduled threat_only)).
  assert (Hblind : transport_blind loop1 loop2).
  { apply transport_blind_for_each. intros r. apply transport_blind_process_recipient. }
  destruct (Hblind w1 w1 (same_but_log_refl w1)) as [Hres (_ & _ & _ & Hcalls)].
  destruct (for_each_recipient_effect o sender (sc :: stocks) (get_currency_symbol config)
              m is_scheduled threat_only (r0 :: recipients) w1) as (w2 & cs & Hloop2 & _).
  fold loop2 in Hloop2. rewrite Hloop2 in Hres, Hcalls. simpl in Hres, Hcalls.
  destruct (loop1 w1) as [res1 w2'] eqn:Hloop1. simpl in Hres, Hcalls. subst res1.
  rewrite (try_except_Ok _ _ w w2' tt), (try_except_Ok _ _ w w2 tt); [exact Hcalls| |].
  - by rewrite (M_bind_run _ _ _ _ _ Hfetch).
  - by rewrite (M_bind_run _ _ _ _ _ Hfetch').
Qed.

(** C7: when the transport raises while a recipient's message is
    delivered, [send_alert] returns normally and writes the failure to the
    log; and the calls of [send_alert] that a pipeline run makes are the
    same whatever the transport does, so a failed delivery takes no
    dispatch attempt away from the recipients processed after it. *)
Theorem C7_delivery_failure_is_contained (o : Oracle) (sender : SenderConfig)
    (recipient : RecipientConfig) (subject : string) (content : Html) (w : World)
    (e : exn) :
  nonempty (smtp_password sender) = true ->
  smtp_send_message o (queries w) sender
    (mime_message sender recipient subject content) (all_recipients recipient) = Raise e ->
  (send_alert o sender recipient subject content w).1 = Ok tt ∧
  log_of_run (send_alert o sender recipient subject content) w
    = [(ERROR, Failed_to_send_email (email recipient) e)] ∧
  (∀ config is_scheduled threat_only w0,
     (_check_all_stocks o sender config is_scheduled threat_only w0).1 = Ok tt ∧
     ∀ smtp,
       calls_of_run (_check_all_stocks (with_transport o smtp) sender config
                                       is_scheduled threat_only) w0
       = calls_of_run (_check_all_stocks o sender config is_scheduled threat_only) w0).
Proof.
  intros Hpw Hfail. split; [|split].
  - by destruct (send_alert_effect o sender recipient subject content w) as (w' & -> & _).
  - unfold log_of_run, send_alert, _send_smtp_email. run_M. rewrite Hpw. simpl.
    rewrite Hfail. simpl. by rewrite drop_app_length.
  - intros config is_scheduled threat_only w0. split.
    + by destruct (_check_all_stocks_effect o sender config is_scheduled threat_only w0).
    + intros smtp. apply check_all_stocks_transport_blind.
Qed.

Lemma C7_delivery_failure_is_contained_witness :
  (send_alert ex_oracle_smtp_down ex_sender ex_recipient "Stock Update"
     {| html_currency_symbol := "INR"; html_generated_on := ex_now; html_blocks := [] |}
     ex_world).1 = Ok tt ∧
  log_of_run (send_alert ex_oracle_smtp_down ex_sender ex_recipient "Stock Update"
     {| html_currency_symbol := "INR"; html_generated_on := ex_now; html_blocks := [] |})
     ex_world
    = [(ERROR, Failed_to_send_email (email ex_recipient)
                 (SMTPException "authentication failed"))] ∧
  (∀ config is_scheduled threat_only w0,
     (_check_all_stocks ex_oracle_smtp_down ex_sender config is_scheduled threat_only w0).1
       = Ok tt ∧
     ∀ smtp,
       calls_of_run (_check_all_stocks (with_transport ex_oracle_smtp_down smtp) ex_sender
                                       config is_scheduled threat_only) w0
       = calls_of_run (_check_all_stocks ex_oracle_smtp_down ex_sender config
                                         is_scheduled threat_only) w0).
Proof.
  apply (C7_delivery_failure_is_contained ex_oracle_smtp_down ex_sender ex_recipient
           "Stock Update" _ ex_world (SMTPException "authentication failed")).
  - reflexivity.
  - reflexivity.
Defined.

(** ** The manual alert *)

Lemma for_each_send_alert_effect (o : Oracle) (sender : SenderConfig) (subject : string)
    (content : Html) (recipients : list RecipientConfig) :
  ∀ w, ∃ w',
    for_each recipients (fun r => send_alert o sender r subject content) w = (Ok tt, w') ∧
    send_alert_calls w' =
      send_alert_calls w ++
        ((fun r => {| call_recipient := r; call_subject := subject;
                      call_content := content |}) <$> recipients).
Proof.
  induction recipients as [|r recipients IH]; intros w.
  - exists w. by rewrite app_nil_r.
  - destruct (send_alert_effect o sender r subject content w) as (w1 & Hsend & _ & Hcalls1).
    destruct (IH w1) as (w' & Hrest & Hcalls).
    exists w'. simpl. rewrite (M_bind_run _ _ _ _ _ Hsend). split; [done|].
    by rewrite Hcalls, Hcalls1, <- app_assoc.
Qed.

(** Once the instrument is found and its snapshot fetched, the route
    calls [send_alert] for [recipients_to_notify], in their order, with
    [final_subject]. *)
Lemma trigger_manual_alert_effect (o : Oracle) (sender : SenderConfig) (config : Config)
    (sym : string) (w : World) (stock_config_obj : StockConfig) (stock_data : Snapshot.t) :
  List.find (fun s => bool_decide (upper (symbol s) = upper sym)) (get_stocks config)
    = Some stock_config_obj ->
  (get_stock_data o stock_config_obj w).1 = Ok stock_data ->
  ∃ content,
    calls_of_run (trigger_manual_alert o sender config sym) w =
      (fun r => {| call_recipient := r;
                   call_subject := final_subject stock_data stock_config_obj;
                   call_content := content |})
        <$> recipients_to_notify (upper sym) (get_recipients config).
Proof.
  intros Hfind Hdata. unfold calls_of_run, trigger_manual_alert. rewrite Hfind.
  destruct (get_stock_data_effect o stock_config_obj w) as (res & w1 & Hfetch & Hcalls1 & _).
  rewrite Hfetch in Hdata. simpl in Hdata. subst res.
  destruct (recipients_to_notify (upper sym) (get_recipients config)) as [|r0 rs] eqn:Hto.
  - exists {| html_currency_symbol := ""; html_generated_on := ""; html_blocks := [] |}.
    erewrite try_except_Ok.
    2: { rewrite (M_bind_run _ _ _ _ _ Hfetch). reflexivity. }
    simpl. by rewrite Hcalls1, drop_all.
  - destruct (format_grouped_alert_effect o [stock_data] [stock_config_obj]
                (get_currency_symbol config) w1) as (content & w2 & Hformat & _ & Hcalls2).
    destruct (for_each_send_alert_effect o sender
                (final_subject stock_data stock_config_obj) content (r0 :: rs) w2)
      as (w3 & Hloop & Hcalls3).
    exists content. erewrite try_except_Ok.
    2: { rewrite (M_bind_run _ _ _ _ _ Hfetch). cbv beta iota.
         rewrite (M_bind_run _ _ _ _ _ Hformat).
         rewrite (M_bind_run _ _ _ _ _ Hloop). reflexivity. }
    cbn [snd]. rewrite Hcalls3, Hcalls2, Hcalls1, drop_app_length. done.
Qed.

Lemma final_subject_escalated (stock_data : Snapshot.t) (stock_config_obj : StockConfig) :
  (final_subject stock_data stock_config_obj = "BOT ALERT!: " +:+ symbol stock_config_obj
   <-> (default (Float 999) (Snapshot.security_cover stock_data)
          < security_cover_threshold stock_config_obj)%num) ∧
  (final_subject stock_data stock_config_obj
     = "Manual Stock Update: " +:+ symbol stock_config_obj
   <-> ¬ (default (Float 999) (Snapshot.security_cover stock_data)
            < security_cover_threshold stock_config_obj)%num).
Proof.
  unfold final_subject.
  destruct (ltb _ _); simpl; split; split; done.
Qed.

(** C8, as amended: for a manual trigger whose upper-cased symbol names a
    configured instrument and whose fetch returns a snapshot (fresh or
    cached), a recipient gets a call of [send_alert] exactly when the
    upper-cased symbol is among the recipient's subscribed symbols and the
    [manual_alerts] preference is true; the subject of every such call is
    the escalated one exactly when the cover ratio of the snapshot (999
    when it has none) is below the threshold of the instrument, and the
    plain one otherwise. *)
Theorem C8_manual_alert_recipients (o : Oracle) (sender : SenderConfig) (config : Config)
    (sym : string) (w : World) (stock_config_obj : StockConfig) (stock_data : Snapshot.t) :
  List.find (fun s => bool_decide (upper (symbol s) = upper sym)) (get_stocks config)
    = Some stock_config_obj ->
  (get_stock_data o stock_config_obj w).1 = Ok stock_data ->
  let calls := calls_of_run (trigger_manual_alert o sender config sym) w in
  let breached :=
    (default (Float 999) (Snapshot.security_cover stock_data)
       < security_cover_threshold stock_config_obj)%num in
  (∀ r, (∃ c, c ∈ calls ∧ call_recipient c = r)
        <-> r ∈ get_recipients config ∧ upper sym ∈ subscribed_symbols r ∧
            pref r "manual_alerts" = true) ∧
  (∀ c, c ∈ calls ->
        (call_subject c = "BOT ALERT!: " +:+ symbol stock_config_obj <-> breached) ∧
        (call_subject c = "Manual Stock Update: " +:+ symbol stock_config_obj
         <-> ¬ breached)).
Proof.
  intros Hfind Hdata calls breached. subst calls breached.
  destruct (trigger_manual_alert_effect o sender config sym w stock_config_obj stock_data
              Hfind Hdata) as (content & ->).
  split.
  - intros r. unfold recipients_to_notify. split.
    + intros (c & Hc & <-). apply list_elem_of_fmap in Hc as (r & -> & Hr). simpl.
      apply list_elem_of_In, filter_In in Hr as [Hin Hr].
      apply andb_true_iff in Hr as [Hsub Hpref]. apply bool_decide_eq_true in Hsub.
      by rewrite list_elem_of_In.
    + intros (Hin & Hsub & Hpref). eexists. split.
      * apply list_elem_of_fmap. exists r. split; [reflexivity|].
        apply list_elem_of_In, filter_In. split; [by apply list_elem_of_In|].
        apply andb_true_iff. split; [by apply bool_decide_eq_true | done].
      * done.
  - intros c Hc. apply list_elem_of_fmap in Hc as (r & -> & Hr). simpl.
    apply final_subject_escalated.
Qed.

Lemma C8_manual_alert_recipients_witness :
  let calls := calls_of_run (trigger_manual_alert ex_oracle ex_sender ex_config "star.ns")
                            ex_world in
  let breached :=
    (default (Float 999) (Snapshot.security_cover ex_snapshot)
       < security_cover_threshold ex_stock)%num in
  (∀ r, (∃ c, c ∈ calls ∧ call_recipient c = r)
        <-> r ∈ get_recipients ex_config ∧ upper "star.ns" ∈ subscribed_symbols r ∧
            pref r "manual_alerts" = true) ∧
  (∀ c, c ∈ calls ->
        (call_subject c = "BOT ALERT!: " +:+ symbol ex_stock <-> breached) ∧
        (call_subject c = "Manual Stock Update: " +:+ symbol ex_stock <-> ¬ breached)).
Proof.
  apply (C8_manual_alert_recipients ex_oracle ex_sender ex_config "star.ns" ex_world
           ex_stock ex_snapshot).
  - vm_compute. reflexivity.
  - vm_compute. reflexivity.
Defined.

(** C8 fails as stated, on two inputs. With the provider down and nothing
    cached, a recipient subscribed to STAR.NS with manual alerts enabled
    gets no call: the route answers with status 500. With the provider
    up, a trigger naming [star.ns], which is not literally among the
    recipient's subscribed symbols, does reach the recipient. *)
Lemma C8_eligible_recipient_not_notified :
  (ex_recipient ∈ get_recipients ex_config ∧
   "STAR.NS" ∈ subscribed_symbols ex_recipient ∧
   pref ex_recipient "manual_alerts" = true ∧
   calls_of_run (trigger_manual_alert ex_oracle_down ex_sender ex_config "STAR.NS")
                ex_world = [] ∧
   (trigger_manual_alert ex_oracle_down ex_sender ex_config "STAR.NS" ex_world).1
   = Raise (HTTPException 500
              "Error processing manual alert for STAR.NS: connection timed out")) ∧
  (("star.ns" ∉ subscribed_symbols ex_recipient) ∧
   (call_recipient <$> calls_of_run (trigger_manual_alert ex_oracle ex_sender ex_config
                                                          "star.ns") ex_world)
   = [ex_recipient]).
Proof.
  split.
  - split; [apply list_elem_of_singleton; reflexivity|].
    split; [apply list_elem_of_singleton; reflexivity|].
    split; [reflexivity|].
    split; vm_compute; reflexivity.
  - split; [|vm_compute; reflexivity].
    intros H. apply list_elem_of_singleton in H. discriminate.
Qed.

(** ** Snapshots without a cover ratio *)

(** C10: on a snapshot that has no cover-ratio field, each of the three
    breach checks evaluates, and evaluates as on a cover ratio of 999. The
    planner's aggregation over such snapshots is true exactly when one of
    them names a configured instrument whose threshold exceeds 999; the
    subject of the manual alert is the escalated one exactly when the
    threshold of the instrument exceeds 999, and the plain one exactly
    when it does not; the renderer styles the block as breached exactly
    when the threshold of the instrument it finds exceeds 999. So for
    thresholds up to 999 the snapshot counts as not breached in all
    three. *)
Theorem C10_missing_cover_counts_as_999 (all_stocks_config : list StockConfig)
    (recipient_stock_data : list Snapshot.t) (stock_data : Snapshot.t)
    (stock_config : StockConfig) :
  (∀ d, d ∈ recipient_stock_data -> Snapshot.security_cover d = None) ->
  Snapshot.security_cover stock_data = None ->
  (is_any_cover_breached all_stocks_config recipient_stock_data = true
   <-> ∃ d sc, d ∈ recipient_stock_data ∧
               find_config all_stocks_config (Snapshot.symbol d) = Some sc ∧
               (999 <? security_cover_threshold sc)%float = true) ∧
  (final_subject stock_data stock_config = "BOT ALERT!: " +:+ symbol stock_config
   <-> (999 <? security_cover_threshold stock_config)%float = true) ∧
  (final_subject stock_data stock_config = "Manual Stock Update: " +:+ symbol stock_config
   <-> (999 <? security_cover_threshold stock_config)%float = false) ∧
  ((security_cover_threshold stock_config <=? 999)%float = true ->
   final_subject stock_data stock_config
   = "Manual Stock Update: " +:+ symbol stock_config) ∧
  (∀ b, format_block all_stocks_config stock_data = Some b ->
        ∃ sc, find_config all_stocks_config (Snapshot.symbol stock_data) = Some sc ∧
              (header_style b = "color: red;"
               <-> (999 <? security_cover_threshold sc)%float = true) ∧
              (cover_style b = "color: red; font-weight: bold;"
               <-> (999 <? security_cover_threshold sc)%float = true) ∧
              ((security_cover_threshold sc <=? 999)%float = true ->
               header_style b = "color: blue;" ∧ cover_style b = "")) ∧
  ((∀ sc, sc ∈ all_stocks_config -> (security_cover_threshold sc <=? 999)%float = true) ->
   is_any_cover_breached all_stocks_config recipient_stock_data = false).
Proof.
  intros Hall Hnone.
  assert (Hplanner :
    is_any_cover_breached all_stocks_config recipient_stock_data = true
    <-> ∃ d sc, d ∈ recipient_stock_data ∧
                find_config all_stocks_config (Snapshot.symbol d) = Some sc ∧
                (999 <? security_cover_threshold sc)%float = true).
  { unfold is_any_cover_breached. rewrite existsb_exists. split.
    - intros (d & Hin & Hd). apply list_elem_of_In in Hin.
      destruct (find_config all_stocks_config (Snapshot.symbol d)) as [sc|] eqn:Hfind;
        [|discriminate].
      rewrite (Hall d Hin) in Hd. eauto.
    - intros (d & sc & Hin & Hfind & Hlt). exists d.
      split; [by apply list_elem_of_In|].
      by rewrite Hfind, (Hall d Hin). }
  split; [done|].
  destruct (final_subject_escalated stock_data stock_config) as [Hesc Hplain].
  rewrite Hnone in Hesc, Hplain. simpl in Hesc, Hplain. unfold ltb in Hesc, Hplain.
  simpl in Hesc, Hplain.
  split; [done|]. split.
  { rewrite Hplain. by destruct (999 <? _)%float. }
  split.
  { intros Hle. apply Hplain. by rewrite (leb_not_ltb _ _ Hle). }
  split.
  - intros b Hb. unfold format_block in Hb.
    destruct (find_config all_stocks_config (Snapshot.symbol stock_data)) as [sc|];
      [|discriminate].
    exists sc. split; [done|]. injection Hb as <-. simpl.
    rewrite Hnone. unfold ltb. simpl.
    destruct (999 <? security_cover_threshold sc)%float eqn:Hlt.
    + split; [done|]. split; [done|]. intros Hle.
      apply leb_not_ltb in Hle. congruence.
    + split; [done|]. split; done.
  - intros Hle. destruct (is_any_cover_breached _ _) eqn:Hb; [|done].
    destruct (proj1 Hplanner eq_refl) as (d & sc & Hin & Hfind & Hlt).
    unfold find_config in Hfind. apply find_some in Hfind as [Hsc _].
    apply list_elem_of_In, Hle, leb_not_ltb in Hsc. congruence.
Qed.

Lemma C10_missing_cover_counts_as_999_witness :
  (is_any_cover_breached [ex_stock] [ex_snapshot_no_cover] = true
   <-> ∃ d sc, d ∈ [ex_snapshot_no_cover] ∧
               find_config [ex_stock] (Snapshot.symbol d) = Some sc ∧
               (999 <? security_cover_threshold sc)%float = true) ∧
  (final_subject ex_snapshot_no_cover ex_stock = "BOT ALERT!: " +:+ symbol ex_stock
   <-> (999 <? security_cover_threshold ex_stock)%float = true) ∧
  (final_subject ex_snapshot_no_cover ex_stock = "Manual Stock Update: " +:+ symbol ex_stock
   <-> (999 <? security_cover_threshold ex_stock)%float = false) ∧
  ((security_cover_threshold ex_stock <=? 999)%float = true ->
   final_subject ex_snapshot_no_cover ex_stock
   = "Manual Stock Update: " +:+ symbol ex_stock) ∧
  (∀ b, format_block [ex_stock] ex_snapshot_no_cover = Some b ->
        ∃ sc, find_config [ex_stock] (Snapshot.symbol ex_snapshot_no_cover) = Some sc ∧
              (header_style b = "color: red;"
               <-> (999 <? security_cover_threshold sc)%float = true) ∧
              (cover_style b = "color: red; font-weight: bold;"
               <-> (999 <? security_cover_threshold sc)%float = true) ∧
              ((security_cover_threshold sc <=? 999)%float = true ->
               header_style b = "color: blue;" ∧ cover_style b = "")) ∧
  ((∀ sc, sc ∈ [ex_stock] -> (security_cover_threshold sc <=? 999)%float = true) ->
   is_any_cover_breached [ex_stock] [ex_snapshot_no_cover] = false).
Proof.
  apply (C10_missing_cover_counts_as_999 [ex_stock] [ex_snapshot_no_cover]
           ex_snapshot_no_cover ex_stock).
  - intros d Hd. apply list_elem_of_singleton in Hd. rewrite Hd. reflexivity.
  - reflexivity.
Defined.

(** ** Worked examples *)

(** One instrument fails with nothing cached, the other is fetched: the
    map has the second and not the first. *)
Example partial_failure_is_isolated :
  fetched_map ex_oracle_partial [ex_stock_down; ex_stock] ex_world !! "STAR.NS"
    = Some ex_snapshot ∧
  fetched_map ex_oracle_partial [ex_stock_down; ex_stock] ex_world !! "DOWN.NS" = None.
Proof. split; vm_compute; reflexivity. Qed.

(** The provider is down and STAR.NS was fetched before: the map has the
    cached snapshot. *)
Example stale_snapshot_is_served :
  fetched_map ex_oracle_down [ex_stock] ex_world_cached !! "STAR.NS" = Some ex_snapshot.
Proof. vm_compute. reflexivity. Qed.

(** No data for the symbol at all is a [ValueError], and without a cache
    the fetch raises it. *)
Example no_data_is_a_failure :
  (get_stock_data
     {| yf_Ticker := fun _ _ => Ok {| info := ∅; hist_5d := []; hist_1d := [] |};
        datetime_now := fun _ => ex_now;
        smtp_send_message := fun _ _ _ _ => Ok tt |}
     ex_stock ex_world).1
  = Raise (ValueError "No data available for STAR.NS").
Proof. vm_compute. reflexivity. Qed.

(** At 5.50 the cover of X is 1.375, stored as 1.38 and below 1.5: the
    threat scan and the scheduled report both send, escalated. *)
Example quoted_at_5_50 :
  Snapshot.security_cover <$> (fetched_map (ex_oracle_quoting 5.5) [ex_stock_x] ex_world !! "X")
    = Some (Some (Float64 1.38)) ∧
  call_subject <$> calls_of_run (_continuous_threat_check (ex_oracle_quoting 5.5)
                                   ex_sender ex_config_x) ex_world
    = ["BOT ALERT!"] ∧
  call_subject <$> calls_of_run (_scheduled_check (ex_oracle_quoting 5.5)
                                   ex_sender ex_config_x) ex_world
    = ["Scheduled Report - BOT ALERT!"].
Proof. repeat split; vm_compute; reflexivity. Qed.

(** At 7.00 the cover is 1.75: the threat scan is silent, the scheduled
    report is sent with the plain subject. *)
Example quoted_at_7_00 :
  Snapshot.security_cover <$> (fetched_map (ex_oracle_quoting 7) [ex_stock_x] ex_world !! "X")
    = Some (Some (Float64 1.75)) ∧
  calls_of_run (_continuous_threat_check (ex_oracle_quoting 7) ex_sender ex_config_x)
               ex_world = [] ∧
  call_subject <$> calls_of_run (_scheduled_check (ex_oracle_quoting 7)
                                   ex_sender ex_config_x) ex_world
    = ["Scheduled Report - Stock Update"].
Proof. repeat split; vm_compute; reflexivity. Qed.

(** [round] on the float nearest to 2.675, which is below it: Python's
    gives 2.67, numpy's 2.68. A frame of pandas holds [numpy.float64]. *)
Example round_depends_on_the_kind :
  round (Float 2.675) 2 = Float 2.67 ∧ round (Float64 2.675) 2 = Float64 2.68.
Proof. split; vm_compute; reflexivity. Qed.

(** * Further properties *)

(** ** The monitor's cache *)

Lemma fresh_snapshot_well_formed (stock_config : StockConfig) (ticker : TickerData)
    (ts : string) (d : Snapshot.t) :
  fresh_snapshot stock_config ticker ts = Ok d -> well_formed (symbol stock_config) d.
Proof.
  unfold fresh_snapshot. intros H.
  apply result_bind_Ok in H as ([price vol] & _ & H).
  apply result_bind_Ok in H as ([yc0 pc0] & _ & H).
  apply result_bind_Ok in H as (pc & _ & H).
  apply result_bind_Ok in H as (yc & _ & H).
  apply result_bind_Ok in H as ([ych ychp] & _ & H).
  injection H as <-. unfold well_formed. simpl. eauto 10.
Qed.

(** A fetch that returns a fresh snapshot: where the snapshot comes from
    and what the fetch writes. *)
Lemma get_stock_data_try_Ok_fresh (o : Oracle) (stock_config : StockConfig) (w w' : World)
    (d : Snapshot.t) :
  get_stock_data_try o stock_config w = (Ok d, w') ->
  (∃ ticker, yf_Ticker o (queries w) (symbol stock_config) = Ok ticker ∧
             fresh_snapshot stock_config ticker (datetime_now o (S (queries w))) = Ok d) ∧
  cache w' = <[symbol stock_config := d]> (cache w) ∧
  last_update w' =
    <[symbol stock_config := datetime_now o (S (S (queries w)))]> (last_update w) ∧
  queries w' = (3 + queries w)%nat ∧
  log w' = log w.
Proof.
  unfold get_stock_data_try, mbind, M_bind, next_query, lift, now, set_cache,
    set_last_update, mret, M_ret. simpl.
  destruct (yf_Ticker o (queries w) (symbol stock_config)) as [ticker|e1]; simpl;
    [|discriminate].
  destruct (fresh_snapshot stock_config ticker _) as [d'|e2] eqn:Hd; simpl; [|discriminate].
  intros [= <- <-]. simpl. eauto 10.
Qed.

(** One fetch keeps any property of the cache entries that fresh
    snapshots have, and what it returns has the property. *)
Lemma get_stock_data_preserves (P : string -> Snapshot.t -> Prop) (o : Oracle)
    (stock_config : StockConfig) (w : World) :
  (∀ ticker ts d, fresh_snapshot stock_config ticker ts = Ok d -> P (symbol stock_config) d) ->
  (∀ k d, cache w !! k = Some d -> P k d) ->
  (∀ k d, cache (get_stock_data o stock_config w).2 !! k = Some d -> P k d) ∧
  (∀ d, (get_stock_data o stock_config w).1 = Ok d -> P (symbol stock_config) d).
Proof.
  intros Hfresh Hcache. unfold get_stock_data, try_except.
  destruct (get_stock_data_try o stock_config w) as [[d|e] w1] eqn:E.
  - apply get_stock_data_try_Ok_fresh in E as ((ticker & _ & Hd) & Hc & _).
    apply Hfresh in Hd. simpl. split.
    + intros k d' Hk. rewrite Hc in Hk.
      destruct (decide (symbol stock_config = k)) as [<-|Hne].
      * rewrite lookup_insert_eq in Hk. by injection Hk as <-.
      * rewrite lookup_insert_ne in Hk by done. eauto.
    + by intros d' [= <-].
  - apply get_stock_data_try_Raise in E as [Hc _].
    unfold get_stock_data_except. run_M. rewrite Hc.
    destruct (cache w !! symbol stock_config) as [cached|] eqn:Hcached; simpl.
    + rewrite ?Hc. split; [done|]. intros d' [= <-]. eauto.
    + rewrite ?Hc. split; [done|]. discriminate.
Qed.

Lemma gather_cons {A : Type} (task : M A) (tasks : list (M A)) (w : World) :
  gather (task :: tasks) w =
  (let '(r, w') := task w in
   match gather tasks w' with
   | (Ok rs, w'') => (Ok (r :: rs), w'')
   | (Raise e, w'') => (Raise e, w'')
   end).
Proof. simpl. destruct (task w) as [r w']. reflexivity. Qed.

Lemma gather_preserves (P : string -> Snapshot.t -> Prop) (o : Oracle)
    (stock_configs : list StockConfig) :
  (∀ sc ticker ts d, fresh_snapshot sc ticker ts = Ok d -> P (symbol sc) d) ->
  ∀ w, (∀ k d, cache w !! k = Some d -> P k d) ->
    (∀ k d, cache (gather (get_stock_data o <$> stock_configs) w).2 !! k = Some d -> P k d) ∧
    (∀ i sc d, stock_configs !! i = Some sc ->
               fetch_results o stock_configs w !! i = Some (Ok d) -> P (symbol sc) d).
Proof.
  intros Hfresh. unfold fetch_results.
  induction stock_configs as [|sc0 stock_configs IH]; intros w Hcache.
  - simpl. split; [done|]. intros i sc d H. by rewrite lookup_nil in H.
  - rewrite fmap_cons, gather_cons.
    destruct (get_stock_data_preserves P o sc0 w (Hfresh sc0) Hcache) as [Hc1 Hr1].
    destruct (get_stock_data o sc0 w) as [r w1]. simpl in Hc1, Hr1.
    destruct (IH w1 Hc1) as [Hc Hr].
    destruct (gather_fetch o stock_configs w1) as (rs & w' & Hg & _).
    rewrite Hg in Hc, Hr |- *. simpl in Hc, Hr |- *. split; [done|].
    intros [|i] sc d Hsc Hres; simpl in Hsc, Hres.
    + injection Hsc as <-. injection Hres as ->. by apply Hr1.
    + eauto.
Qed.

Lemma check_multiple_stocks_cache (o : Oracle) (stock_configs : list StockConfig) (w : World) :
  cache (check_multiple_stocks o stock_configs w).2
  = cache (gather (get_stock_data o <$> stock_configs) w).2.
Proof.
  unfold check_multiple_stocks.
  destruct (gather_fetch o stock_configs w) as (rs & w1 & Hg & _).
  destruct (collect_results (zip stock_configs rs) ∅ w1) as (m & w' & Hfold & Hcache & _).
  rewrite (M_bind_run _ _ _ _ _ Hg), Hfold, Hg. done.
Qed.

Lemma snapshot_map_is_well_formed_aux (o : Oracle) (stock_configs : list StockConfig)
    (w : World) :
  all_well_formed (cache w) -> all_well_formed (fetched_map o stock_configs w).
Proof.
  intros Hw.
  destruct (gather_preserves well_formed o stock_configs fresh_snapshot_well_formed w Hw)
    as [Hcache Hres].
  intros k d Hk. unfold fetched_map in Hk.
  destruct (check_multiple_stocks_effect o stock_configs w) as (m & w' & Hrun & _ & _ & _ & Hin).
  rewrite Hrun in Hk. simpl in Hk.
  destruct (Hin k d Hk) as (i & sc & Hsc & <- & Hr). eauto.
Qed.

(** X1: when every cache entry is a snapshot built for its key, with all
    its numeric fields, the same holds of the snapshot map of a
    multi-instrument fetch and of the cache it leaves. *)
Theorem snapshot_map_is_well_formed (o : Oracle) (stock_configs : list StockConfig)
    (w : World) :
  all_well_formed (cache w) ->
  all_well_formed (fetched_map o stock_configs w) ∧
  all_well_formed (cache (check_multiple_stocks o stock_configs w).2).
Proof.
  intros Hw.
  destruct (gather_preserves well_formed o stock_configs fresh_snapshot_well_formed w Hw)
    as [Hcache Hres].
  split; [by apply snapshot_map_is_well_formed_aux|].
  rewrite check_multiple_stocks_cache. done.
Qed.

Lemma singleton_cache_well_formed :
  all_well_formed (cache ex_world_cached).
Proof.
  intros k d H. unfold ex_world_cached in H. simpl in H.
  apply lookup_singleton_Some in H as [<- <-].
  unfold well_formed. simpl. eauto 10.
Qed.

Lemma snapshot_map_is_well_formed_witness :
  all_well_formed (cache ex_world_cached) ∧
  all_well_formed (fetched_map ex_oracle_partial [ex_stock_down; ex_stock] ex_world_cached) ∧
  all_well_formed
    (cache (check_multiple_stocks ex_oracle_partial [ex_stock_down; ex_stock]
                                  ex_world_cached).2).
Proof.
  split; [exact singleton_cache_well_formed|].
  exact (snapshot_map_is_well_formed ex_oracle_partial [ex_stock_down; ex_stock]
           ex_world_cached singleton_cache_well_formed).
Defined.

(** The keys of the snapshot map are symbols of the configuration. *)
Lemma fetched_map_keys (o : Oracle) (stock_configs : list StockConfig) (w : World)
    (k : string) (d : Snapshot.t) :
  fetched_map o stock_configs w !! k = Some d -> k ∈ symbol <$> stock_configs.
Proof.
  unfold fetched_map. intros Hk.
  destruct (check_multiple_stocks_effect o stock_configs w) as (m & w' & Hrun & _ & _ & _ & Hin).
  rewrite Hrun in Hk. simpl in Hk.
  destruct (Hin k d Hk) as (i & sc & Hsc & <- & _).
  apply list_elem_of_fmap_2. by apply list_elem_of_lookup_2 with i.
Qed.

Lemma find_config_is_Some (all_stocks_config : list StockConfig) (k : string) :
  k ∈ symbol <$> all_stocks_config ->
  ∃ sc, find_config all_stocks_config (Some k) = Some sc ∧ symbol sc = k.
Proof.
  intros Hk. apply list_elem_of_fmap in Hk as (sc0 & -> & Hin).
  unfold find_config.
  destruct (List.find _ all_stocks_config) as [sc|] eqn:Hfind.
  - exists sc. split; [done|]. apply find_some in Hfind as [_ Heq].
    apply bool_decide_eq_true in Heq. by injection Heq.
  - apply list_elem_of_In in Hin. apply (find_none _ _ Hfind) in Hin.
    by apply bool_decide_eq_false in Hin.
Qed.

(** X2: in a run that starts from a well-formed cache, a recipient has a
    breach exactly when some subscribed symbol is in the snapshot map with
    a stored cover ratio below the threshold of the first instrument
    configured for that symbol; the 999 of the checks is never used, and
    that instrument always exists. *)
Theorem breach_is_read_off_the_stored_cover (o : Oracle) (all_stocks_config : list StockConfig)
    (w : World) (r : RecipientConfig) :
  all_well_formed (cache w) ->
  let m := fetched_map o all_stocks_config w in
  (∀ sym d, m !! sym = Some d ->
     ∃ c sc, Snapshot.security_cover d = Some c ∧
             find_config all_stocks_config (Snapshot.symbol d) = Some sc ∧ symbol sc = sym) ∧
  (any_breach all_stocks_config m r <->
   ∃ sym d c sc,
     sym ∈ subscribed_symbols r ∧ m !! sym = Some d ∧
     Snapshot.security_cover d = Some c ∧
     find_config all_stocks_config (Some sym) = Some sc ∧
     (c < security_cover_threshold sc)%num).
Proof.
  intros Hw m. subst m.
  pose proof (snapshot_map_is_well_formed_aux o all_stocks_config w Hw) as Hm.
  assert (Hentry : ∀ sym d, fetched_map o all_stocks_config w !! sym = Some d ->
            ∃ c sc, Snapshot.security_cover d = Some c ∧ Snapshot.symbol d = Some sym ∧
                    find_config all_stocks_config (Some sym) = Some sc ∧ symbol sc = sym).
  { intros sym d Hd. destruct (Hm sym d Hd) as (Hsym & _ & _ & _ & _ & _ & _ & _ & [c Hc]).
    destruct (find_config_is_Some all_stocks_config sym) as (sc & Hsc & Hs).
    { by apply fetched_map_keys with o w d. }
    by exists c, sc. }
  split.
  - intros sym d Hd. destruct (Hentry sym d Hd) as (c & sc & Hc & Hsym & Hsc & Hs).
    exists c, sc. by rewrite Hsym.
  - unfold any_breach. split.
    + intros (sym & d & sc & Hin & Hd & Hfind & Hlt).
      destruct (Hentry sym d Hd) as (c & sc' & Hc & Hsym & Hsc & _).
      rewrite Hsym in Hfind. rewrite Hc in Hlt. simpl in Hlt.
      exists sym, d, c, sc. done.
    + intros (sym & d & c & sc & Hin & Hd & Hc & Hfind & Hlt).
      destruct (Hentry sym d Hd) as (c' & sc' & Hc' & Hsym & _).
      exists sym, d, sc. rewrite Hsym, Hc. done.
Qed.

Lemma breach_is_read_off_the_stored_cover_witness :
  all_well_formed (cache ex_world_cached) ∧
  (let m := fetched_map ex_oracle [ex_stock] ex_world_cached in
   (∀ sym d, m !! sym = Some d ->
      ∃ c sc, Snapshot.security_cover d = Some c ∧
              find_config [ex_stock] (Snapshot.symbol d) = Some sc ∧ symbol sc = sym) ∧
   (any_breach [ex_stock] m ex_recipient <->
    ∃ sym d c sc,
      sym ∈ subscribed_symbols ex_recipient ∧ m !! sym = Some d ∧
      Snapshot.security_cover d = Some c ∧
      find_config [ex_stock] (Some sym) = Some sc ∧
      (c < security_cover_threshold sc)%num)).
Proof.
  split; [exact singleton_cache_well_formed|].
  exact (breach_is_read_off_the_stored_cover ex_oracle [ex_stock] ex_world_cached
           ex_recipient singleton_cache_well_formed).
Defined.

(** A fetch that fails serves the cache entry of the symbol. *)
Lemma get_stock_data_serves_cache (o : Oracle) (stock_config : StockConfig) (w : World)
    (e : exn) (d : Snapshot.t) :
  (get_stock_data_try o stock_config w).1 = Raise e ->
  cache w !! symbol stock_config = Some d ->
  (get_stock_data o stock_config w).1 = Ok d.
Proof.
  intros Htry Hd. unfold get_stock_data, try_except.
  destruct (get_stock_data_try o stock_config w) as [r w1] eqn:E. simpl in Htry. subst r.
  apply get_stock_data_try_Raise in E as [Hc _].
  unfold get_stock_data_except. run_M. by rewrite Hc, Hd.
Qed.

(** A fetch writes at most the cache entry of its own symbol. *)
Lemma get_stock_data_local (o : Oracle) (stock_config : StockConfig) (w : World) (k : string) :
  k ≠ symbol stock_config ->
  cache (get_stock_data o stock_config w).2 !! k = cache w !! k.
Proof.
  intros Hk. destruct (get_stock_data_effect o stock_config w) as (r & w' & -> & _ & Hr).
  simpl. destruct r as [d|e].
  - destruct Hr as [_ [-> | ->]]; [done|]. by rewrite lookup_insert_ne.
  - by destruct Hr as [_ ->].
Qed.

Lemma gather_local (o : Oracle) (stock_configs : list StockConfig) (k : string) :
  k ∉ symbol <$> stock_configs ->
  ∀ w, cache (gather (get_stock_data o <$> stock_configs) w).2 !! k = cache w !! k.
Proof.
  induction stock_configs as [|sc0 stock_configs IH]; intros Hk w; [done|].
  rewrite fmap_cons, gather_cons. rewrite fmap_cons in Hk.
  apply not_elem_of_cons in Hk as [Hne Hk].
  pose proof (get_stock_data_local o sc0 w k Hne) as H1.
  destruct (get_stock_data o sc0 w) as [r w1]. simpl in H1.
  specialize (IH Hk w1).
  destruct (gather (get_stock_data o <$> stock_configs) w1) as [[rs|e] w']; simpl in *;
    congruence.
Qed.

Lemma gather_grows (o : Oracle) (stock_configs : list StockConfig) (w : World) (k : string) :
  is_Some (cache w !! k) ->
  is_Some (cache (gather (get_stock_data o <$> stock_configs) w).2 !! k).
Proof.
  destruct (gather_fetch o stock_configs w) as (rs & w' & -> & _ & _ & Hmono & _). simpl. auto.
Qed.

(** X3: the snapshot that a fetch of an instrument returns, fresh or
    cached, is the one that a later fetch of the instrument serves when
    it fails, also after a multi-instrument fetch of instruments with
    other symbols in between. *)
Theorem returned_snapshot_is_the_next_fallback (o : Oracle) (stock_config : StockConfig)
    (others : list StockConfig) (w : World) (d : Snapshot.t) (e : exn) :
  (get_stock_data o stock_config w).1 = Ok d ->
  symbol stock_config ∉ symbol <$> others ->
  let w1 := (get_stock_data o stock_config w).2 in
  let w2 := (check_multiple_stocks o others w1).2 in
  (get_stock_data_try o stock_config w2).1 = Raise e ->
  (get_stock_data o stock_config w2).1 = Ok d.
Proof.
  intros Hd Hothers w1 w2 Hfail. apply get_stock_data_serves_cache with e; [done|].
  subst w2. rewrite check_multiple_stocks_cache, gather_local by done.
  subst w1. destruct (get_stock_data_effect o stock_config w) as (r & w' & E & _ & Hr).
  rewrite E in Hd |- *. simpl in Hd |- *. subst r. by destruct Hr.
Qed.

Lemma returned_snapshot_is_the_next_fallback_witness :
  (get_stock_data ex_oracle_flaky ex_stock ex_world).1 = Ok ex_snapshot ∧
  (let w1 := (get_stock_data ex_oracle_flaky ex_stock ex_world).2 in
   let w2 := (check_multiple_stocks ex_oracle_flaky [ex_stock_down; ex_stock_x] w1).2 in
   (get_stock_data ex_oracle_flaky ex_stock w2).1 = Ok ex_snapshot).
Proof.
  assert (Hfetched : (get_stock_data ex_oracle_flaky ex_stock ex_world).1 = Ok ex_snapshot)
    by (vm_compute; reflexivity).
  split; [exact Hfetched|].
  apply (returned_snapshot_is_the_next_fallback ex_oracle_flaky ex_stock
           [ex_stock_down; ex_stock_x] ex_world ex_snapshot
           (ProviderError "connection timed out") Hfetched).
  - vm_compute. intros H. inversion H as [|? ? ? H']; subst.
    inversion H' as [|? ? ? H'']; subst. inversion H''.
  - vm_compute. reflexivity.
Defined.

(** ** What the dispatcher leaves alone *)

Lemma keeps_cache_bind {A B : Type} (m : M A) (f : A -> M B) :
  keeps_cache m -> (∀ a, keeps_cache (f a)) -> keeps_cache (m ≫= f).
Proof.
  intros Hm Hf w. specialize (Hm w). unfold mbind, M_bind.
  destruct (m w) as [[a|e] w1]; simpl in Hm; [|done].
  destruct (Hf a w1) as [H1 H2]. destruct Hm as [H3 H4]. split; congruence.
Qed.

Lemma keeps_cache_ret {A : Type} (a : A) : keeps_cache (mret a).
Proof. by intros w. Qed.

Lemma keeps_cache_logging (lvl : level) (msg : log_message) : keeps_cache (logging lvl msg).
Proof. by intros w. Qed.

Lemma keeps_cache_now (o : Oracle) : keeps_cache (now o).
Proof. by intros w. Qed.

Lemma keeps_cache_send_alert (o : Oracle) (sender : SenderConfig) (r : RecipientConfig)
    (subject : string) (content : Html) :
  keeps_cache (send_alert o sender r subject content).
Proof.
  intros w. unfold send_alert, _send_smtp_email. run_M.
  destruct (nonempty (smtp_password sender)); simpl; [|done].
  by destruct (smtp_send_message o (queries w) sender _ _) as [[]|e].
Qed.

Lemma keeps_cache_format (o : Oracle) (all_stock_data : list Snapshot.t)
    (all_stock_configs : list StockConfig) (currency_symbol : string) :
  keeps_cache (format_grouped_alert o all_stock_data all_stock_configs currency_symbol).
Proof. by intros w. Qed.

Lemma keeps_cache_for_each {A : Type} (l : list A) (f : A -> M unit) :
  (∀ x, keeps_cache (f x)) -> keeps_cache (for_each l f).
Proof.
  intros Hf. induction l as [|x l IH]; simpl.
  - apply keeps_cache_ret.
  - apply keeps_cache_bind; [apply Hf | intros _; apply IH].
Qed.

Create HintDb keeps.

#[local] Hint Resolve keeps_cache_ret keeps_cache_logging keeps_cache_now
  keeps_cache_send_alert keeps_cache_format : keeps.

Lemma keeps_cache_process_recipient (o : Oracle) (sender : SenderConfig)
    (all_stocks_config : list StockConfig) (currency_symbol : string)
    (m : gmap string Snapshot.t) (is_scheduled threat_only : bool) (r : RecipientConfig) :
  keeps_cache (process_recipient o sender all_stocks_config currency_symbol m
                                 is_scheduled threat_only r).
Proof.
  unfold process_recipient.
  destruct (negb _); [auto with keeps|].
  destruct (recipient_snapshots m r) as [|d ds]; [auto with keeps|].
  destruct (_ || _); [|auto with keeps].
  apply keeps_cache_bind; [auto with keeps|]. intros content.
  apply keeps_cache_bind; auto with keeps.
Qed.

(** The cache after a pipeline run: untouched when there is nothing to
    do, and otherwise what the fetches leave. *)
Lemma _check_all_stocks_cache (o : Oracle) (sender : SenderConfig) (config : Config)
    (is_scheduled threat_only : bool) (w : World) :
  cache (_check_all_stocks o sender config is_scheduled threat_only w).2 =
  match get_stocks config, get_recipients config with
  | [], _ | _, [] => cache w
  | _, _ => cache (gather (get_stock_data o <$> get_stocks config) w).2
  end.
Proof.
  unfold _check_all_stocks.
  destruct (get_stocks config) as [|sc stocks] eqn:Hstocks; [done|].
  destruct (get_recipients config) as [|r0 recipients] eqn:Hrecipients; [done|].
  destruct (check_multiple_stocks_effect o (sc :: stocks) w) as (m & w1 & Hfetch & _).
  pose proof (check_multiple_stocks_cache o (sc :: stocks) w) as Hc.
  rewrite Hfetch in Hc. simpl in Hc.
  pose proof (keeps_cache_for_each (r0 :: recipients) _
                (keeps_cache_process_recipient o sender (sc :: stocks)
                   (get_currency_symbol config) m is_scheduled threat_only) w1) as [Hk _].
  destruct (for_each_recipient_effect o sender (sc :: stocks) (get_currency_symbol config)
              m is_scheduled threat_only (r0 :: recipients) w1) as (w2 & cs & Hloop & _).
  rewrite Hloop in Hk. simpl in Hk.
  rewrite (try_except_Ok _ _ w w2 tt); [simpl; congruence|].
  by rewrite (M_bind_run _ _ _ _ _ Hfetch).
Qed.

(** X4: a pipeline run never removes a cache entry, and it leaves the
    entry of every symbol that is not a configured instrument as it is. *)
Theorem pipeline_only_adds_to_the_cache (o : Oracle) (sender : SenderConfig)
    (config : Config) (is_scheduled threat_only : bool) (w : World) :
  let w' := (_check_all_stocks o sender config is_scheduled threat_only w).2 in
  (∀ k, is_Some (cache w !! k) -> is_Some (cache w' !! k)) ∧
  (∀ k, k ∉ symbol <$> get_stocks config -> cache w' !! k = cache w !! k).
Proof.
  intros w'. subst w'. rewrite _check_all_stocks_cache.
  destruct (get_stocks config) as [|sc stocks]; [done|].
  destruct (get_recipients config) as [|r0 recipients]; [done|].
  split.
  - intros k. apply gather_grows.
  - intros k Hk. by apply gather_local.
Qed.

(** ** Building a snapshot *)

Lemma iloc_in_range {A : Type} (l : list A) (k : nat) :
  (0 < k ≤ length l)%nat -> ∃ x, iloc l (- Z.of_nat k) = Ok x.
Proof.
  intros Hk. rewrite iloc_from_end by done.
  destruct (lookup_lt_is_Some_2 l (length l - k)) as [x Hx]; [lia|].
  exists x. by rewrite Hx.
Qed.

(** When the "current price logic" finds a price. *)
Lemma current_price_logic_outcome (sym : string) (ticker : TickerData) :
  let has_price :=
    hist_1d ticker ≠ [] ∨
    truthy (dict_get (info ticker) "currentPrice") = true ∨
    truthy (dict_get (info ticker) "previousClose") = true in
  (has_price -> ∃ price vol, current_price_logic sym ticker = Ok (price, vol)) ∧
  (¬ has_price ->
   current_price_logic sym ticker = Raise (ValueError ("No data available for " +:+ sym))).
Proof.
  intros has_price. subst has_price. unfold current_price_logic, py_or.
  destruct (hist_1d ticker) as [|bar bars] eqn:Hbars.
  - destruct (dict_get (info ticker) "currentPrice") as [|x],
      (dict_get (info ticker) "previousClose") as [|y]; simpl;
      try (destruct (nonzero x) eqn:Hx; simpl; rewrite ?Hx; simpl);
      try (destruct (nonzero y) eqn:Hy; simpl; rewrite ?Hy; simpl);
      (split;
       [first [by intros [H | [H | H]] | intros _; eexists _, _; reflexivity]
       |first [done | intros H; exfalso; apply H; auto]]).
  - split; [|intros H; exfalso; apply H; auto].
    intros _.
    destruct (iloc_in_range (Close <$> bar :: bars) 1) as [x Hx]; [simpl; lia|].
    destruct (iloc_in_range (Volume <$> bar :: bars) 1) as [v Hv]; [simpl; lia|].
    change (- Z.of_nat 1)%Z with (-1)%Z in Hx, Hv.
    rewrite Hx. cbn [mbind result_bind]. rewrite Hv. cbn [mbind result_bind]. eauto.
Qed.


(** ** Prices that are not numbers *)

Lemma is_nan_Prim2SF (x : float) : is_nan x = true <-> Prim2SF x = S754_nan.
Proof.
  unfold Prim2SF. destruct (is_nan x); [done|].
  split; [discriminate|].
  destruct (is_zero x); [discriminate|]. destruct (is_infinity x); [discriminate|].
  destruct (Z.frexp x) as [r e]. destruct (shr_fexp _ _ _ _ _) as [shr e'].
  by destruct (shr_m shr).
Qed.

(** An operation on [nan] gives [nan]. *)
Lemma nan_mul (x y : float) : is_nan y = true -> is_nan (x * y)%float = true.
Proof.
  rewrite !is_nan_Prim2SF, mul_spec. intros ->. unfold SF64mul, SFmul.
  by destruct (Prim2SF x) as [[]|[]| |[] m e].
Qed.

Lemma nan_mul_l (x y : float) : is_nan x = true -> is_nan (x * y)%float = true.
Proof.
  rewrite !is_nan_Prim2SF, mul_spec. intros ->. reflexivity.
Qed.

Lemma nan_div_l (x y : float) : is_nan x = true -> is_nan (x / y)%float = true.
Proof.
  rewrite !is_nan_Prim2SF, div_spec. intros ->. reflexivity.
Qed.

Lemma nan_ltb (x y : float) : is_nan x = true -> (x <? y)%float = false.
Proof.
  rewrite is_nan_Prim2SF, FloatAxioms.ltb_spec. intros ->. reflexivity.
Qed.

Lemma nan_not_finite (x : float) : is_nan x = true -> is_finite x = false.
Proof. unfold is_finite. by intros ->. Qed.

Lemma nan_rint (x : float) : is_nan x = true -> is_nan (rint x) = true.
Proof.
  intros H. unfold rint. rewrite (proj1 (is_nan_Prim2SF x) H). exact H.
Qed.

(** [round] keeps [nan], on a float and on a [numpy.float64]. *)
Lemma nan_round (a : number) (ndigits : nat) :
  is_nan (float_of a) = true -> is_nan (float_of (round a ndigits)) = true.
Proof.
  destruct a as [x|x]; simpl; intros H.
  - unfold float_round. by rewrite (proj1 (is_nan_Prim2SF x) H).
  - unfold float64_round. by apply nan_div_l, nan_rint, nan_mul_l.
Qed.

Lemma nan_binop_r (op : float -> float -> float) (a b : number) :
  (∀ x y, is_nan y = true -> is_nan (op x y) = true) ->
  is_nan (float_of b) = true -> is_nan (float_of (binop op a b)) = true.
Proof. intros Hop H. destruct a, b; simpl in *; by apply Hop. Qed.

Lemma nan_binop_l (op : float -> float -> float) (a b : number) :
  (∀ x y, is_nan x = true -> is_nan (op x y) = true) ->
  is_nan (float_of a) = true -> is_nan (float_of (binop op a b)) = true.
Proof. intros Hop H. destruct a, b; simpl in *; by apply Hop. Qed.



(** ** The dispatcher *)

(** X7: without a password [send_alert] returns normally, asks the
    transport nothing and logs that it cannot send; what it does is the
    same whatever the transport is. *)
Theorem send_alert_without_password_is_local (o : Oracle) (sender : SenderConfig)
    (r : RecipientConfig) (subject : string) (content : Html) (w : World) :
  nonempty (smtp_password sender) = false ->
  (send_alert o sender r subject content w).1 = Ok tt ∧
  queries (send_alert o sender r subject content w).2 = queries w ∧
  log_of_run (send_alert o sender r subject content) w = [(ERROR, Cannot_send_email)] ∧
  (∀ smtp, send_alert (with_transport o smtp) sender r subject content w
           = send_alert o sender r subject content w).
Proof.
  intros Hpw. unfold log_of_run, send_alert. run_M. rewrite Hpw. simpl.
  by rewrite drop_app_length.
Qed.

Lemma send_alert_without_password_is_local_witness :
  (send_alert ex_oracle ex_sender_no_password ex_recipient "Stock Update" ex_html ex_world).1
  = Ok tt ∧
  queries (send_alert ex_oracle ex_sender_no_password ex_recipient "Stock Update" ex_html
             ex_world).2 = queries ex_world ∧
  log_of_run (send_alert ex_oracle ex_sender_no_password ex_recipient "Stock Update" ex_html)
             ex_world = [(ERROR, Cannot_send_email)] ∧
  (∀ smtp, send_alert (with_transport ex_oracle smtp) ex_sender_no_password ex_recipient
             "Stock Update" ex_html ex_world
           = send_alert ex_oracle ex_sender_no_password ex_recipient "Stock Update" ex_html
               ex_world).
Proof.
  apply (send_alert_without_password_is_local ex_oracle ex_sender_no_password ex_recipient
           "Stock Update" ex_html ex_world).
  reflexivity.
Defined.

(** X8: a rendered block is flagged in its header exactly when it is
    flagged in its cover line, which is exactly when the cover ratio of
    the snapshot (999 when it has none) is below the threshold shown as
    required; for a snapshot that has a cover ratio this is when the cover
    shown is below the cover required. The sign and the colour of each
    change follow the sign of the change shown. *)
Theorem format_block_is_consistent (all_stock_configs : list StockConfig)
    (stock_data : Snapshot.t) (b : Block) :
  format_block all_stock_configs stock_data = Some b ->
  let breached :=
    (default (Float 999) (Snapshot.security_cover stock_data) < required_cover_val b)%num in
  (header_style b = "color: red;" <-> breached) ∧
  (header_style b = "color: blue;" <-> ¬ breached) ∧
  (cover_style b = "color: red; font-weight: bold;" <-> breached) ∧
  (cover_style b = "" <-> ¬ breached) ∧
  (is_Some (Snapshot.security_cover stock_data) ->
   (breached <-> (security_cover_val b < required_cover_val b)%num)) ∧
  (current_change_color b = "green" <-> (Float 0 <= current_change_val b)%num) ∧
  (current_change_sign b = "+" <-> (Float 0 <= current_change_val b)%num) ∧
  (yesterday_change_color b = "green" <-> (Float 0 <= yesterday_change_val b)%num) ∧
  (yesterday_change_sign b = "+" <-> (Float 0 <= yesterday_change_val b)%num).
Proof.
  unfold format_block. intros H.
  destruct (find_config all_stock_configs (Snapshot.symbol stock_data)) as [sc|];
    [|discriminate].
  injection H as <-. simpl.
  destruct (ltb (default (Float 999) (Snapshot.security_cover stock_data))
                (security_cover_threshold sc)) eqn:Hb.
  - split; [done|]. split; [done|]. split; [done|]. split; [done|].
    split; [intros [c Hc]; by rewrite Hc in Hb |- *|].
    destruct (leb (Float 0) (default (Float 0) (Snapshot.change stock_data))),
      (leb (Float 0) (default (Float 0) (Snapshot.yesterday_change stock_data)));
      repeat split; done.
  - split; [done|]. split; [done|]. split; [done|]. split; [done|].
    split; [intros [c Hc]; rewrite Hc in Hb |- *; simpl in *; by rewrite Hb|].
    destruct (leb (Float 0) (default (Float 0) (Snapshot.change stock_data))),
      (leb (Float 0) (default (Float 0) (Snapshot.yesterday_change stock_data)));
      repeat split; done.
Qed.

Lemma format_block_is_consistent_witness :
  ∃ b, format_block [ex_stock] ex_snapshot = Some b ∧
       header_style b = "color: red;" ∧
       (let breached :=
          (default (Float 999) (Snapshot.security_cover ex_snapshot)
             < required_cover_val b)%num in
        (header_style b = "color: red;" <-> breached) ∧
        (header_style b = "color: blue;" <-> ¬ breached) ∧
        (cover_style b = "color: red; font-weight: bold;" <-> breached) ∧
        (cover_style b = "" <-> ¬ breached) ∧
        (is_Some (Snapshot.security_cover ex_snapshot) ->
         (breached <-> (security_cover_val b < required_cover_val b)%num)) ∧
        (current_change_color b = "green" <-> (Float 0 <= current_change_val b)%num) ∧
        (current_change_sign b = "+" <-> (Float 0 <= current_change_val b)%num) ∧
        (yesterday_change_color b = "green" <-> (Float 0 <= yesterday_change_val b)%num) ∧
        (yesterday_change_sign b = "+" <-> (Float 0 <= yesterday_change_val b)%num)).
Proof.
  destruct (format_block [ex_stock] ex_snapshot) as [b|] eqn:Hb;
    [|vm_compute in Hb; discriminate].
  exists b. split; [reflexivity|]. split.
  - vm_compute in Hb. injection Hb as <-. reflexivity.
  - apply (format_block_is_consistent [ex_stock] ex_snapshot b Hb).
Defined.

(** ** The planner, call by call *)

(** What [process_recipient] does when the planner selects the recipient:
    one call, with the report of the recipient's snapshots, and the
    closing log line, whatever the transport does. *)
Lemma process_recipient_sends (o : Oracle) (sender : SenderConfig)
    (all_stocks_config : list StockConfig) (currency_symbol : string)
    (m : gmap string Snapshot.t) (is_scheduled threat_only : bool)
    (r : RecipientConfig) (w : World) :
  sends_email all_stocks_config m is_scheduled threat_only r = true ->
  ∃ w',
    process_recipient o sender all_stocks_config currency_symbol m
                      is_scheduled threat_only r w = (Ok tt, w') ∧
    send_alert_calls w' =
      send_alert_calls w ++
        [{| call_recipient := r;
            call_subject := email_subject all_stocks_config m is_scheduled r;
            call_content :=
              {| html_currency_symbol := currency_symbol;
                 html_generated_on := datetime_now o (queries w);
                 html_blocks :=
                   omap (format_block all_stocks_config) (recipient_snapshots m r) |} |}] ∧
    last (log w') =
      Some (INFO, Email_sent_to (if nonempty (name r) then name r else email r)
                                (length (recipient_snapshots m r))
                                (is_any_cover_breached all_stocks_config
                                                       (recipient_snapshots m r))
                                (cc_bcc_info r)).
Proof.
  unfold sends_email, process_recipient, email_subject. intros Hsends.
  apply andb_true_iff in Hsends as [Hpref Hsends]. rewrite Hpref. simpl.
  destruct (recipient_snapshots m r) as [|d ds]; [discriminate|]. rewrite Hsends.
  unfold format_grouped_alert, send_alert, _send_smtp_email. run_M.
  destruct (nonempty (smtp_password sender)); simpl.
  - destruct (smtp_send_message o (S (queries w)) sender _ _) as [[]|e]; simpl;
      eexists; (split; [reflexivity|]); simpl; (split; [reflexivity|]);
      apply last_snoc.
  - eexists. split; [reflexivity|]. simpl. split; [reflexivity|]. apply last_snoc.
Qed.

Lemma process_recipient_skips (o : Oracle) (sender : SenderConfig)
    (all_stocks_config : list StockConfig) (currency_symbol : string)
    (m : gmap string Snapshot.t) (is_scheduled threat_only : bool)
    (r : RecipientConfig) (w : World) :
  sends_email all_stocks_config m is_scheduled threat_only r = false ->
  process_recipient o sender all_stocks_config currency_symbol m
                    is_scheduled threat_only r w = (Ok tt, w).
Proof.
  unfold sends_email, process_recipient. intros Hsends.
  destruct (_ || _); simpl in *; [|done].
  destruct (recipient_snapshots m r) as [|d ds]; [done|]. by rewrite Hsends.
Qed.

(** The reports of a loop over the recipients. *)
Lemma for_each_recipient_content (o : Oracle) (sender : SenderConfig)
    (all_stocks_config : list StockConfig) (currency_symbol : string)
    (m : gmap string Snapshot.t) (is_scheduled threat_only : bool)
    (recipients : list RecipientConfig) :
  ∀ w, ∃ w' cs,
    for_each recipients
      (process_recipient o sender all_stocks_config currency_symbol m
                         is_scheduled threat_only) w = (Ok tt, w') ∧
    send_alert_calls w' = send_alert_calls w ++ cs ∧
    (∀ c, c ∈ cs ->
          sends_email all_stocks_config m is_scheduled threat_only (call_recipient c) = true ∧
          html_currency_symbol (call_content c) = currency_symbol ∧
          html_blocks (call_content c) =
            omap (format_block all_stocks_config) (recipient_snapshots m (call_recipient c))).
Proof.
  induction recipients as [|r recipients IH]; intros w.
  - exists w, []. rewrite app_nil_r. split; [done|]. split; [done|].
    intros c Hc. by apply elem_of_nil in Hc.
  - destruct (sends_email all_stocks_config m is_scheduled threat_only r) eqn:Hsends.
    + destruct (process_recipient_sends o sender all_stocks_config currency_symbol m
                  is_scheduled threat_only r w Hsends) as (w1 & Hstep & Hcalls1 & _).
      destruct (IH w1) as (w' & cs & Hrest & Hcalls & Hcontent).
      eexists w', (_ :: cs). simpl. rewrite (M_bind_run _ _ _ _ _ Hstep).
      split; [done|]. split; [by rewrite Hcalls, Hcalls1, <- app_assoc|].
      intros c Hc. apply elem_of_cons in Hc as [->|Hc]; [done | auto].
    + pose proof (process_recipient_skips o sender all_stocks_config currency_symbol m
                    is_scheduled threat_only r w Hsends) as Hstep.
      destruct (IH w) as (w' & cs & Hrest & Hcalls & Hcontent).
      exists w', cs. simpl. by rewrite (M_bind_run _ _ _ _ _ Hstep).
Qed.

(** The reports of a pipeline run. *)
Lemma _check_all_stocks_content (o : Oracle) (sender : SenderConfig) (config : Config)
    (is_scheduled threat_only : bool) (w : World) (c : SendCall) :
  c ∈ calls_of_run (_check_all_stocks o sender config is_scheduled threat_only) w ->
  let m := fetched_map o (get_stocks config) w in
  sends_email (get_stocks config) m is_scheduled threat_only (call_recipient c) = true ∧
  html_currency_symbol (call_content c) = get_currency_symbol config ∧
  html_blocks (call_content c) =
    omap (format_block (get_stocks config)) (recipient_snapshots m (call_recipient c)).
Proof.
  intros Hc m. subst m. revert Hc. unfold calls_of_run, fetched_map, _check_all_stocks.
  destruct (get_stocks config) as [|sc stocks] eqn:Hstocks.
  { simpl. rewrite drop_all. intros Hc. by apply elem_of_nil in Hc. }
  destruct (get_recipients config) as [|r0 recipients] eqn:Hrecipients.
  { unfold logging. simpl. rewrite drop_all. intros Hc. by apply elem_of_nil in Hc. }
  destruct (check_multiple_stocks_effect o (sc :: stocks) w) as (m & w1 & Hfetch & Hcalls1 & _).
  destruct (for_each_recipient_content o sender (sc :: stocks) (get_currency_symbol config)
              m is_scheduled threat_only (r0 :: recipients) w1)
    as (w' & cs & Hloop & Hcalls & Hcontent).
  rewrite (try_except_Ok _ _ w w' tt) by (by rewrite (M_bind_run _ _ _ _ _ Hfetch)).
  rewrite Hfetch. cbn [fst snd]. rewrite Hcalls, Hcalls1, drop_app_length. auto.
Qed.

Lemma omap_all_Some {A B : Type} (f : A -> option B) (l : list A) :
  (∀ x, x ∈ l -> is_Some (f x)) -> Forall2 (fun y x => f x = Some y) (omap f l) l.
Proof.
  induction l as [|x l IH]; intros Hall; [constructor|]. simpl.
  destruct (Hall x) as [y Hy]; [by left|]. rewrite Hy.
  constructor; [done|]. apply IH. intros x' Hx'. apply Hall. by right.
Qed.

(** X9: every report that a pipeline run hands to [send_alert] carries
    the configured currency symbol and the blocks of the recipient's
    snapshots: the subscribed symbols that are in the snapshot map, in the
    order of the subscription, and there is at least one. When the run
    starts from a well-formed cache every such snapshot has its block. *)
Theorem report_covers_the_subscribed_snapshots (o : Oracle) (sender : SenderConfig)
    (config : Config) (is_scheduled threat_only : bool) (w : World) (c : SendCall) :
  c ∈ calls_of_run (_check_all_stocks o sender config is_scheduled threat_only) w ->
  let m := fetched_map o (get_stocks config) w in
  let snapshots := recipient_snapshots m (call_recipient c) in
  html_currency_symbol (call_content c) = get_currency_symbol config ∧
  html_blocks (call_content c) = omap (format_block (get_stocks config)) snapshots ∧
  snapshots ≠ [] ∧
  (all_well_formed (cache w) ->
   Forall2 (fun b d => format_block (get_stocks config) d = Some b)
           (html_blocks (call_content c)) snapshots).
Proof.
  intros Hc m snapshots.
  destruct (_check_all_stocks_content o sender config is_scheduled threat_only w c Hc)
    as (Hsends & Hcur & Hblocks).
  fold m in Hsends, Hblocks. fold snapshots in Hblocks.
  split; [done|]. split; [done|]. split.
  - unfold sends_email in Hsends. fold snapshots in Hsends. intros Hnil.
    rewrite Hnil in Hsends. by rewrite andb_false_r in Hsends.
  - intros Hw. rewrite Hblocks. apply omap_all_Some. intros d Hd.
    apply list_elem_of_omap in Hd as (sym & _ & Hd).
    pose proof (snapshot_map_is_well_formed_aux o (get_stocks config) w Hw sym d Hd)
      as (Hsym & _).
    destruct (find_config_is_Some (get_stocks config) sym) as (sc & Hsc & _).
    { by apply fetched_map_keys with o w d. }
    unfold format_block. rewrite Hsym, Hsc. eauto.
Qed.

Lemma report_covers_the_subscribed_snapshots_witness :
  let calls := calls_of_run (_check_all_stocks ex_oracle ex_sender ex_config true false)
                            ex_world in
  let m := fetched_map ex_oracle (get_stocks ex_config) ex_world in
  length calls = 1%nat ∧
  Forall (fun c =>
            let snapshots := recipient_snapshots m (call_recipient c) in
            html_currency_symbol (call_content c) = get_currency_symbol ex_config ∧
            html_blocks (call_content c)
            = omap (format_block (get_stocks ex_config)) snapshots ∧
            snapshots ≠ [] ∧
            (all_well_formed (cache ex_world) ->
             Forall2 (fun b d => format_block (get_stocks ex_config) d = Some b)
                     (html_blocks (call_content c)) snapshots))
         calls.
Proof.
  split; [vm_compute; reflexivity|].
  apply Forall_forall. intros c Hc.
  exact (report_covers_the_subscribed_snapshots ex_oracle ex_sender ex_config true false
           ex_world c Hc).
Defined.

Lemma sublist_List_filter {A : Type} (f : A -> bool) (l : list A) :
  List.filter f l `sublist_of` l.
Proof.
  induction l as [|x l IH]; simpl; [constructor|].
  destruct (f x); by constructor.
Qed.

(** X10: the recipients that a pipeline run calls [send_alert] for are
    recipients of the configuration, in the order of the configuration and
    each entry at most once. *)
Theorem at_most_one_call_per_recipient (o : Oracle) (sender : SenderConfig)
    (config : Config) (is_scheduled threat_only : bool) (w : World) :
  let calls := calls_of_run (_check_all_stocks o sender config is_scheduled threat_only) w in
  (call_recipient <$> calls) `sublist_of` get_recipients config ∧
  (length calls ≤ length (get_recipients config))%nat.
Proof.
  intros calls. subst calls.
  destruct (_check_all_stocks_effect o sender config is_scheduled threat_only w)
    as (_ & _ & Hrcpt & _).
  assert (Hsub : (call_recipient <$> calls_of_run
                    (_check_all_stocks o sender config is_scheduled threat_only) w)
                 `sublist_of` get_recipients config).
  { rewrite Hrcpt. apply sublist_List_filter. }
  split; [done|]. apply sublist_length in Hsub. by rewrite length_fmap in Hsub.
Qed.

(** The recipient of a call of a run is one the planner selects. *)
Lemma call_recipient_is_selected (o : Oracle) (sender : SenderConfig) (config : Config)
    (is_scheduled threat_only : bool) (w : World) (r : RecipientConfig) :
  (∃ c, c ∈ calls_of_run (_check_all_stocks o sender config is_scheduled threat_only) w ∧
        call_recipient c = r) <->
  r ∈ get_recipients config ∧
  sends_email (get_stocks config) (fetched_map o (get_stocks config) w)
              is_scheduled threat_only r = true.
Proof.
  destruct (_check_all_stocks_effect o sender config is_scheduled threat_only w)
    as (_ & _ & Hrcpt & _).
  assert (Hin : r ∈ call_recipient <$> calls_of_run
                    (_check_all_stocks o sender config is_scheduled threat_only) w
                <-> r ∈ get_recipients config ∧
                    sends_email (get_stocks config) (fetched_map o (get_stocks config) w)
                                is_scheduled threat_only r = true).
  { rewrite Hrcpt, !list_elem_of_In. apply filter_In. }
  rewrite <- Hin, list_elem_of_fmap. split.
  - intros (c & Hc & <-). eauto.
  - intros (c & -> & Hc). eauto.
Qed.

(** X11: a recipient who has switched off every kind of alert that a run
    is about gets no call in that run. *)
Theorem switched_off_alerts_are_not_sent (o : Oracle) (sender : SenderConfig)
    (config : Config) (is_scheduled threat_only : bool) (w : World) (r : RecipientConfig) :
  (is_scheduled = true -> pref r "scheduled_reports" = false) ->
  (threat_only = true -> pref r "threat_alerts" = false) ->
  ∀ c, c ∈ calls_of_run (_check_all_stocks o sender config is_scheduled threat_only) w ->
       call_recipient c ≠ r.
Proof.
  intros Hs Ht c Hc Hr.
  destruct (proj1 (call_recipient_is_selected o sender config is_scheduled threat_only w r))
    as [_ Hsends]; [eauto|].
  unfold sends_email in Hsends.
  destruct is_scheduled, threat_only; simpl in Hsends;
    rewrite ?Hs, ?Ht in Hsends by done; simpl in Hsends; discriminate.
Qed.

Lemma switched_off_alerts_are_not_sent_witness :
  ex_recipient_opted_out ∈ get_recipients ex_config_three ∧
  ∀ c, c ∈ calls_of_run (_check_all_stocks ex_oracle ex_sender ex_config_three true false)
                        ex_world ->
       call_recipient c ≠ ex_recipient_opted_out.
Proof.
  split; [apply list_elem_of_here|].
  apply (switched_off_alerts_are_not_sent ex_oracle ex_sender ex_config_three true false
           ex_world ex_recipient_opted_out).
  - intros _. vm_compute. reflexivity.
  - intros H. discriminate H.
Defined.

(** X12: in a threat scan a recipient gets a call exactly when the
    recipient is configured, has [threat_alerts] on and has a breached
    subscribed snapshot; every call of a threat scan has the escalated
    subject. *)
Theorem threat_scan_sends_exactly_on_breach (o : Oracle) (sender : SenderConfig)
    (config : Config) (w : World) :
  let calls := calls_of_run (_continuous_threat_check o sender config) w in
  let m := fetched_map o (get_stocks config) w in
  (∀ r, (∃ c, c ∈ calls ∧ call_recipient c = r) <->
        r ∈ get_recipients config ∧ pref r "threat_alerts" = true ∧
        any_breach (get_stocks config) m r) ∧
  (∀ c, c ∈ calls -> call_subject c = "BOT ALERT!").
Proof.
  intros calls m. subst calls m. unfold _continuous_threat_check.
  assert (Hsel : ∀ r,
    sends_email (get_stocks config) (fetched_map o (get_stocks config) w) false true r = true
    <-> pref r "threat_alerts" = true ∧
        is_any_cover_breached (get_stocks config)
          (recipient_snapshots (fetched_map o (get_stocks config) w) r) = true).
  { intros r. unfold sends_email. simpl.
    destruct (pref r "threat_alerts"); simpl; [|split; [done | by intros [H _]]].
    destruct (recipient_snapshots _ r) as [|d ds] eqn:Hds;
      (split; [done | by intros [_ H]]). }
  split.
  - intros r. rewrite call_recipient_is_selected, Hsel, is_any_cover_breached_iff. done.
  - intros c Hc.
    destruct (_check_all_stocks_effect o sender config false true w) as (_ & _ & _ & Hsubj).
    rewrite (Hsubj c Hc). unfold email_subject.
    destruct (proj1 (call_recipient_is_selected o sender config false true w
                       (call_recipient c))) as [_ Hsends]; [eauto|].
    apply Hsel in Hsends as [_ ->]. done.
Qed.

(** X13: a recipient none of whose subscribed symbols is in the snapshot
    map of the run gets no call, in a scheduled run as in a threat scan. *)
Theorem nothing_fetched_nothing_sent (o : Oracle) (sender : SenderConfig)
    (config : Config) (is_scheduled threat_only : bool) (w : World) (r : RecipientConfig) :
  (∀ sym, sym ∈ subscribed_symbols r -> fetched_map o (get_stocks config) w !! sym = None) ->
  ∀ c, c ∈ calls_of_run (_check_all_stocks o sender config is_scheduled threat_only) w ->
       call_recipient c ≠ r.
Proof.
  intros Hnone c Hc Hr.
  destruct (proj1 (call_recipient_is_selected o sender config is_scheduled threat_only w r))
    as [_ Hsends]; [eauto|].
  unfold sends_email in Hsends.
  assert (recipient_snapshots (fetched_map o (get_stocks config) w) r = []) as Hnil.
  { apply elem_of_nil_inv. intros d Hd.
    apply list_elem_of_omap in Hd as (sym & Hsym & Hd). rewrite (Hnone sym Hsym) in Hd.
    discriminate. }
  rewrite Hnil in Hsends. by rewrite andb_false_r in Hsends.
Qed.

Lemma nothing_fetched_nothing_sent_witness :
  fetched_map ex_oracle_down (get_stocks ex_config) ex_world !! "STAR.NS" = None ∧
  ∀ c, c ∈ calls_of_run (_check_all_stocks ex_oracle_down ex_sender ex_config true false)
                        ex_world ->
       call_recipient c ≠ ex_recipient.
Proof.
  assert (Hnone : fetched_map ex_oracle_down (get_stocks ex_config) ex_world !! "STAR.NS"
                  = None) by (vm_compute; reflexivity).
  split; [exact Hnone|].
  apply (nothing_fetched_nothing_sent ex_oracle_down ex_sender ex_config true false
           ex_world ex_recipient).
  intros sym Hsym. apply list_elem_of_singleton in Hsym. subst sym. exact Hnone.
Defined.

(** X14: with no instrument or no recipient configured a run does
    nothing but write one log line: the provider is not asked and the
    cache is not refreshed. *)
Theorem nothing_to_do_means_no_fetch (o : Oracle) (sender : SenderConfig)
    (config : Config) (is_scheduled threat_only : bool) (w : World) :
  get_stocks config = [] ∨ get_recipients config = [] ->
  _check_all_stocks o sender config is_scheduled threat_only w
  = (Ok tt,
     {| cache := cache w; last_update := last_update w; queries := queries w;
        log := log w ++ [(INFO, No_stocks_or_recipients)];
        send_alert_calls := send_alert_calls w |}).
Proof.
  unfold _check_all_stocks. intros [-> | ->]; [done|].
  by destruct (get_stocks config).
Qed.

Lemma nothing_to_do_means_no_fetch_witness :
  _check_all_stocks ex_oracle ex_sender ex_config_nobody true false ex_world
  = (Ok tt,
     {| cache := cache ex_world; last_update := last_update ex_world;
        queries := queries ex_world;
        log := log ex_world ++ [(INFO, No_stocks_or_recipients)];
        send_alert_calls := send_alert_calls ex_world |}).
Proof.
  apply (nothing_to_do_means_no_fetch ex_oracle ex_sender ex_config_nobody true false
           ex_world).
  right. reflexivity.
Defined.

(** X15: for a recipient that the planner selects, the last log line of
    the turn is the line that the mail was sent, whether the transport
    delivered, raised, or was not asked for want of a password. *)
Theorem closing_log_line_ignores_delivery (o : Oracle) (sender : SenderConfig)
    (all_stocks_config : list StockConfig) (currency_symbol : string)
    (m : gmap string Snapshot.t) (is_scheduled threat_only : bool)
    (r : RecipientConfig) (w : World) :
  sends_email all_stocks_config m is_scheduled threat_only r = true ->
  last (log (process_recipient o sender all_stocks_config currency_symbol m
                               is_scheduled threat_only r w).2)
  = Some (INFO, Email_sent_to (if nonempty (name r) then name r else email r)
                              (length (recipient_snapshots m r))
                              (is_any_cover_breached all_stocks_config
                                                     (recipient_snapshots m r))
                              (cc_bcc_info r)).
Proof.
  intros Hsends.
  by destruct (process_recipient_sends o sender all_stocks_config currency_symbol m
                 is_scheduled threat_only r w Hsends) as (w' & -> & _ & Hlast).
Qed.

Lemma closing_log_line_ignores_delivery_witness :
  (smtp_send_message ex_oracle_smtp_down 0 ex_sender
     (mime_message ex_sender ex_recipient "x" ex_html) (all_recipients ex_recipient)
   ≠ Ok tt) ∧
  last (log (process_recipient ex_oracle_smtp_down ex_sender [ex_stock] "INR"
               {[ "STAR.NS" := ex_snapshot ]} true false ex_recipient ex_world).2)
  = Some (INFO, Email_sent_to
                  (if nonempty (name ex_recipient) then name ex_recipient
                   else email ex_recipient)
                  (length (recipient_snapshots {[ "STAR.NS" := ex_snapshot ]} ex_recipient))
                  (is_any_cover_breached [ex_stock]
                     (recipient_snapshots {[ "STAR.NS" := ex_snapshot ]} ex_recipient))
                  (cc_bcc_info ex_recipient)).
Proof.
  split; [vm_compute; discriminate|].
  apply (closing_log_line_ignores_delivery ex_oracle_smtp_down ex_sender [ex_stock] "INR"
           {[ "STAR.NS" := ex_snapshot ]} true false ex_recipient ex_world).
  vm_compute. reflexivity.
Defined.

(** ** The routes *)

Lemma upper_ascii_idempotent (c : Ascii.ascii) : upper_ascii (upper_ascii c) = upper_ascii c.
Proof. destruct c as [[] [] [] [] [] [] [] []]; reflexivity. Qed.

Lemma upper_idempotent (s : string) : upper (upper s) = upper s.
Proof.
  induction s as [|c s IH]; [done|]. simpl. by rewrite upper_ascii_idempotent, IH.
Qed.

Lemma find_by_upper_None (all_stocks_config : list StockConfig) (sym : string) :
  (∀ sc, sc ∈ all_stocks_config -> upper (symbol sc) ≠ upper sym) ->
  List.find (fun s => bool_decide (upper (symbol s) = upper sym)) all_stocks_config = None.
Proof.
  intros Hnone. destruct (List.find _ _) as [sc|] eqn:Hfind; [|done].
  apply find_some in Hfind as [Hin Heq]. apply bool_decide_eq_true in Heq.
  apply list_elem_of_In in Hin. by apply Hnone in Hin.
Qed.

(** X16: with symbols of ASCII characters, a symbol that, upper-cased,
    is the upper-cased symbol of no configured instrument gets status 404
    from the manual-alert route and from the snapshot route, and neither
    route touches the world: no fetch, no log line, no mail. *)
Theorem unknown_symbol_is_404 (o : Oracle) (sender : SenderConfig) (config : Config)
    (sym : string) (w : World) (aw : ApiWorld) :
  is_ascii sym = true ->
  (∀ sc, sc ∈ get_stocks config -> is_ascii (symbol sc) = true) ->
  (∀ sc, sc ∈ get_stocks config -> upper (symbol sc) ≠ upper sym) ->
  trigger_manual_alert o sender config sym w
  = (Raise (HTTPException 404 ("Stock " +:+ upper sym +:+ " not in watchlist.")), w) ∧
  get_stock_price o config sym aw
  = (Raise (HTTPException 404 ("Stock " +:+ upper sym +:+ " not found in configuration.")),
     aw).
Proof.
  intros _ _ Hnone. apply find_by_upper_None in Hnone.
  unfold trigger_manual_alert, get_stock_price. by rewrite Hnone.
Qed.

Lemma unknown_symbol_is_404_witness :
  trigger_manual_alert ex_oracle ex_sender ex_config "tcs.ns" ex_world
  = (Raise (HTTPException 404 ("Stock " +:+ upper "tcs.ns" +:+ " not in watchlist.")),
     ex_world) ∧
  get_stock_price ex_oracle ex_config "tcs.ns" ex_api_world
  = (Raise (HTTPException 404
              ("Stock " +:+ upper "tcs.ns" +:+ " not found in configuration.")),
     ex_api_world).
Proof.
  apply (unknown_symbol_is_404 ex_oracle ex_sender ex_config "tcs.ns" ex_world
           ex_api_world).
  - reflexivity.
  - intros sc Hsc. apply list_elem_of_singleton in Hsc. subst sc. reflexivity.
  - intros sc Hsc. apply list_elem_of_singleton in Hsc. subst sc.
    vm_compute. discriminate.
Defined.

Lemma format_grouped_alert_run (o : Oracle) (all_stock_data : list Snapshot.t)
    (all_stock_configs : list StockConfig) (currency_symbol : string) (w : World) :
  format_grouped_alert o all_stock_data all_stock_configs currency_symbol w
  = (Ok {| html_currency_symbol := currency_symbol;
           html_generated_on := datetime_now o (queries w);
           html_blocks := omap (format_block all_stock_configs) all_stock_data |},
     {| cache := cache w; last_update := last_update w; queries := S (queries w);
        log := log w; send_alert_calls := send_alert_calls w |}).
Proof. reflexivity. Qed.

(** The whole of a manual alert whose instrument is found and fetched. *)
Lemma trigger_manual_alert_run (o : Oracle) (sender : SenderConfig) (config : Config)
    (sym : string) (w w1 : World) (stock_config_obj : StockConfig) (stock_data : Snapshot.t) :
  List.find (fun s => bool_decide (upper (symbol s) = upper sym)) (get_stocks config)
    = Some stock_config_obj ->
  get_stock_data o stock_config_obj w = (Ok stock_data, w1) ->
  let to_notify := recipients_to_notify (upper sym) (get_recipients config) in
  let content :=
    {| html_currency_symbol := get_currency_symbol config;
       html_generated_on := datetime_now o (queries w1);
       html_blocks := omap (format_block [stock_config_obj]) [stock_data] |} in
  (trigger_manual_alert o sender config sym w).1
  = Ok (match to_notify with
        | [] => No_recipients_to_notify (upper sym)
        | _ => Alert_sent (upper sym) (length to_notify)
        end) ∧
  calls_of_run (trigger_manual_alert o sender config sym) w
  = (fun r => {| call_recipient := r;
                 call_subject := final_subject stock_data stock_config_obj;
                 call_content := content |}) <$> to_notify ∧
  cache (trigger_manual_alert o sender config sym w).2 = cache w1.
Proof.
  intros Hfind Hfetch to_notify content. subst to_notify content.
  unfold calls_of_run, trigger_manual_alert. rewrite Hfind.
  destruct (get_stock_data_effect o stock_config_obj w) as (res & w1' & E & Hcalls1 & _).
  rewrite Hfetch in E. injection E as <- <-.
  destruct (recipients_to_notify (upper sym) (get_recipients config)) as [|r0 rs] eqn:Hto.
  - erewrite try_except_Ok.
    2: { rewrite (M_bind_run _ _ _ _ _ Hfetch). reflexivity. }
    simpl. by rewrite Hcalls1, drop_all.
  - pose proof (format_grouped_alert_run o [stock_data] [stock_config_obj]
                  (get_currency_symbol config) w1) as Hformat.
    set (content := {| html_currency_symbol := get_currency_symbol config;
                       html_generated_on := datetime_now o (queries w1);
                       html_blocks := omap (format_block [stock_config_obj]) [stock_data] |})
      in *.
    set (w2 := {| cache := cache w1; last_update := last_update w1;
                  queries := S (queries w1); log := log w1;
                  send_alert_calls := send_alert_calls w1 |}) in *.
    destruct (for_each_send_alert_effect o sender
                (final_subject stock_data stock_config_obj) content (r0 :: rs) w2)
      as (w3 & Hloop & Hcalls3).
    pose proof (keeps_cache_for_each (r0 :: rs) _
      (fun r => keeps_cache_send_alert o sender r
                  (final_subject stock_data stock_config_obj) content) w2) as [Hkeep _].
    rewrite Hloop in Hkeep. simpl in Hkeep.
    erewrite try_except_Ok.
    2: { rewrite (M_bind_run _ _ _ _ _ Hfetch). cbv beta iota zeta.
         rewrite (M_bind_run _ _ _ _ _ Hformat).
         rewrite (M_bind_run _ _ _ _ _ Hloop). reflexivity. }
    cbn [fst snd]. rewrite Hcalls3. subst w2. simpl.
    rewrite Hcalls1, drop_app_length. done.
Qed.

(** X17: when the instrument of a manual alert is found and fetched, the
    answer counts the calls of [send_alert]: it names their number when
    there is one at least, and says that nobody was notified when there
    is none; either way the fetched snapshot is in the cache afterwards. *)
Theorem manual_alert_answer_counts_the_calls (o : Oracle) (sender : SenderConfig)
    (config : Config) (sym : string) (w : World) (stock_config_obj : StockConfig)
    (stock_data : Snapshot.t) :
  List.find (fun s => bool_decide (upper (symbol s) = upper sym)) (get_stocks config)
    = Some stock_config_obj ->
  (get_stock_data o stock_config_obj w).1 = Ok stock_data ->
  let calls := calls_of_run (trigger_manual_alert o sender config sym) w in
  let answer := (trigger_manual_alert o sender config sym w).1 in
  (calls = [] -> answer = Ok (No_recipients_to_notify (upper sym))) ∧
  (calls ≠ [] -> answer = Ok (Alert_sent (upper sym) (length calls))) ∧
  cache (trigger_manual_alert o sender config sym w).2 !! symbol stock_config_obj
  = Some stock_data.
Proof.
  intros Hfind Hdata calls answer. subst calls answer.
  destruct (get_stock_data_effect o stock_config_obj w) as (res & w1 & Hfetch & _ & Hres).
  rewrite Hfetch in Hdata. simpl in Hdata. subst res.
  destruct (trigger_manual_alert_run o sender config sym w w1 stock_config_obj stock_data
              Hfind Hfetch) as (-> & -> & ->).
  destruct (recipients_to_notify (upper sym) (get_recipients config)) as [|r0 rs].
  - split; [done|]. split; [done|]. by destruct Hres.
  - split; [discriminate|]. split; [|by destruct Hres].
    intros _. by rewrite length_fmap.
Qed.

Lemma manual_alert_answer_counts_the_calls_witness :
  let calls := calls_of_run (trigger_manual_alert ex_oracle ex_sender ex_config "star.ns")
                            ex_world in
  let answer := (trigger_manual_alert ex_oracle ex_sender ex_config "star.ns" ex_world).1 in
  (calls = [] -> answer = Ok (No_recipients_to_notify (upper "star.ns"))) ∧
  (calls ≠ [] -> answer = Ok (Alert_sent (upper "star.ns") (length calls))) ∧
  cache (trigger_manual_alert ex_oracle ex_sender ex_config "star.ns" ex_world).2
    !! symbol ex_stock
  = Some ex_snapshot.
Proof.
  apply (manual_alert_answer_counts_the_calls ex_oracle ex_sender ex_config "star.ns"
           ex_world ex_stock ex_snapshot).
  - vm_compute. reflexivity.
  - vm_compute. reflexivity.
Defined.

(** X18: the calls of one manual alert all carry the same subject and the
    same report, and the report is about the fetched snapshot alone: one
    block when the snapshot names the instrument, none otherwise. *)
Theorem manual_alert_report_is_shared (o : Oracle) (sender : SenderConfig)
    (config : Config) (sym : string) (w : World) (stock_config_obj : StockConfig)
    (stock_data : Snapshot.t) :
  List.find (fun s => bool_decide (upper (symbol s) = upper sym)) (get_stocks config)
    = Some stock_config_obj ->
  (get_stock_data o stock_config_obj w).1 = Ok stock_data ->
  let calls := calls_of_run (trigger_manual_alert o sender config sym) w in
  (∀ c1 c2, c1 ∈ calls -> c2 ∈ calls ->
            call_subject c1 = call_subject c2 ∧ call_content c1 = call_content c2) ∧
  (∀ c, c ∈ calls ->
        html_currency_symbol (call_content c) = get_currency_symbol config ∧
        (Snapshot.symbol stock_data = Some (symbol stock_config_obj) ->
         ∃ b, format_block [stock_config_obj] stock_data = Some b ∧
              html_blocks (call_content c) = [b]) ∧
        (Snapshot.symbol stock_data ≠ Some (symbol stock_config_obj) ->
         html_blocks (call_content c) = [])).
Proof.
  intros Hfind Hdata calls. subst calls.
  destruct (get_stock_data_effect o stock_config_obj w) as (res & w1 & Hfetch & _ & Hres).
  rewrite Hfetch in Hdata. simpl in Hdata. subst res.
  destruct (trigger_manual_alert_run o sender config sym w w1 stock_config_obj stock_data
              Hfind Hfetch) as (_ & -> & _).
  split.
  - intros c1 c2 Hc1 Hc2.
    apply list_elem_of_fmap in Hc1 as (r1 & -> & _).
    apply list_elem_of_fmap in Hc2 as (r2 & -> & _). done.
  - intros c Hc. apply list_elem_of_fmap in Hc as (r & -> & _). simpl.
    split; [done|]. unfold format_block, find_config. simpl.
    destruct (decide (Some (symbol stock_config_obj) = Snapshot.symbol stock_data))
      as [Heq|Hne].
    + rewrite bool_decide_eq_true_2 by done. split; [eauto | congruence].
    + rewrite bool_decide_eq_false_2 by done. split; [congruence | done].
Qed.

Lemma manual_alert_report_is_shared_witness :
  let calls := calls_of_run (trigger_manual_alert ex_oracle ex_sender ex_config_three
                               "STAR.NS") ex_world in
  length calls = 2%nat ∧
  (∀ c1 c2, c1 ∈ calls -> c2 ∈ calls ->
            call_subject c1 = call_subject c2 ∧ call_content c1 = call_content c2) ∧
  (∀ c, c ∈ calls ->
        html_currency_symbol (call_content c) = get_currency_symbol ex_config_three ∧
        (Snapshot.symbol ex_snapshot = Some (symbol ex_stock) ->
         ∃ b, format_block [ex_stock] ex_snapshot = Some b ∧
              html_blocks (call_content c) = [b]) ∧
        (Snapshot.symbol ex_snapshot ≠ Some (symbol ex_stock) ->
         html_blocks (call_content c) = [])).
Proof.
  split; [vm_compute; reflexivity|].
  apply (manual_alert_report_is_shared ex_oracle ex_sender ex_config_three "STAR.NS"
           ex_world ex_stock ex_snapshot).
  - vm_compute. reflexivity.
  - vm_compute. reflexivity.
Defined.

Lemma M_bind_raise {A B : Type} (m : M A) (f : A -> M B) (w w1 : World) (e : exn) :
  m w = (Raise e, w1) -> (m ≫= f) w = (Raise e, w1).
Proof. intros H. unfold mbind, M_bind. by rewrite H. Qed.

(** The whole of a manual alert whose fetch raises. *)
Lemma trigger_manual_alert_failure_run (o : Oracle) (sender : SenderConfig)
    (config : Config) (sym : string) (w w1 : World) (stock_config_obj : StockConfig)
    (e : exn) :
  List.find (fun s => bool_decide (upper (symbol s) = upper sym)) (get_stocks config)
    = Some stock_config_obj ->
  get_stock_data o stock_config_obj w = (Raise e, w1) ->
  trigger_manual_alert o sender config sym w
  = (Raise (HTTPException 500 ("Error processing manual alert for " +:+ upper sym
                               +:+ ": " +:+ str e)),
     {| cache := cache w1; last_update := last_update w1; queries := queries w1;
        log := log w1 ++ [(ERROR, Error_in_alert_endpoint (upper sym) e)];
        send_alert_calls := send_alert_calls w1 |}).
Proof.
  intros Hfind Hfetch. unfold trigger_manual_alert. rewrite Hfind.
  unfold try_except. by rewrite (M_bind_raise _ _ _ _ _ Hfetch).
Qed.

(** X19: when the instrument of a manual alert is found and its fetch
    raises, there being nothing cached to serve, the route logs the error
    and answers with status 500; nobody is notified. *)
Theorem manual_alert_fetch_failure_is_500 (o : Oracle) (sender : SenderConfig)
    (config : Config) (sym : string) (w : World) (stock_config_obj : StockConfig)
    (e : exn) :
  List.find (fun s => bool_decide (upper (symbol s) = upper sym)) (get_stocks config)
    = Some stock_config_obj ->
  (get_stock_data o stock_config_obj w).1 = Raise e ->
  (trigger_manual_alert o sender config sym w).1
  = Raise (HTTPException 500 ("Error processing manual alert for " +:+ upper sym
                              +:+ ": " +:+ str e)) ∧
  calls_of_run (trigger_manual_alert o sender config sym) w = [] ∧
  cache (trigger_manual_alert o sender config sym w).2 = cache w ∧
  last (log (trigger_manual_alert o sender config sym w).2)
  = Some (ERROR, Error_in_alert_endpoint (upper sym) e).
Proof.
  intros Hfind Hdata. unfold calls_of_run.
  destruct (get_stock_data_effect o stock_config_obj w) as (res & w1 & Hfetch & Hcalls & Hres).
  rewrite Hfetch in Hdata. simpl in Hdata. subst res. destruct Hres as [_ Hcache].
  rewrite (trigger_manual_alert_failure_run o sender config sym w w1 stock_config_obj e
             Hfind Hfetch). simpl.
  rewrite Hcalls, drop_all. split; [done|]. split; [done|]. split; [done|].
  apply last_snoc.
Qed.

Lemma manual_alert_fetch_failure_is_500_witness :
  (trigger_manual_alert ex_oracle_null_close ex_sender ex_config "star.ns" ex_world).1
  = Raise (HTTPException 500
             "Error processing manual alert for STAR.NS: unsupported operand type(s) for -: 'float' and 'NoneType'") ∧
  calls_of_run (trigger_manual_alert ex_oracle_null_close ex_sender ex_config "star.ns")
               ex_world = [] ∧
  cache (trigger_manual_alert ex_oracle_null_close ex_sender ex_config "star.ns" ex_world).2
  = cache ex_world ∧
  last (log (trigger_manual_alert ex_oracle_null_close ex_sender ex_config "star.ns"
               ex_world).2)
  = Some (ERROR, Error_in_alert_endpoint "STAR.NS"
                   (TypeError "unsupported operand type(s) for -: 'float' and 'NoneType'")).
Proof.
  apply (manual_alert_fetch_failure_is_500 ex_oracle_null_close ex_sender ex_config
           "star.ns" ex_world ex_stock
           (TypeError "unsupported operand type(s) for -: 'float' and 'NoneType'")).
  - vm_compute. reflexivity.
  - vm_compute. reflexivity.
Defined.

(** The calls of a manual alert go to [recipients_to_notify], whatever
    the route answers. *)
Lemma manual_alert_calls_are_to_notify (o : Oracle) (sender : SenderConfig)
    (config : Config) (sym : string) (w : World) (c : SendCall) :
  c ∈ calls_of_run (trigger_manual_alert o sender config sym) w ->
  call_recipient c ∈ recipients_to_notify (upper sym) (get_recipients config).
Proof.
  destruct (List.find (fun s => bool_decide (upper (symbol s) = upper sym))
                      (get_stocks config)) as [sc|] eqn:Hfind.
  - destruct (get_stock_data_effect o sc w) as ([d|e] & w1 & Hfetch & _).
    + destruct (trigger_manual_alert_run o sender config sym w w1 sc d Hfind Hfetch)
        as (_ & -> & _).
      intros Hc. by apply list_elem_of_fmap in Hc as (r & -> & Hr).
    + unfold calls_of_run.
      rewrite (trigger_manual_alert_failure_run o sender config sym w w1 sc e Hfind Hfetch).
      simpl. destruct (get_stock_data_effect o sc w) as (res & w1' & E & Hcalls & _).
      rewrite Hfetch in E. injection E as <- <-. rewrite Hcalls, drop_all. intros Hc. by apply elem_of_nil in Hc.
  - unfold calls_of_run, trigger_manual_alert. rewrite Hfind. simpl. rewrite drop_all.
    intros Hc. by apply elem_of_nil in Hc.
Qed.

(** X20: a manual alert reaches only recipients who have among their
    subscribed symbols one that is spelled in upper case: a recipient all
    of whose subscribed symbols change under [upper] gets no call,
    whatever symbol the trigger names. *)
Theorem manual_alerts_need_upper_case_subscriptions (o : Oracle) (sender : SenderConfig)
    (config : Config) (sym : string) (w : World) (r : RecipientConfig) :
  (∀ s, s ∈ subscribed_symbols r -> upper s ≠ s) ->
  ∀ c, c ∈ calls_of_run (trigger_manual_alert o sender config sym) w ->
       call_recipient c ≠ r.
Proof.
  intros Hlower c Hc Hr. apply manual_alert_calls_are_to_notify in Hc.
  rewrite Hr in Hc. unfold recipients_to_notify in Hc.
  apply list_elem_of_In, filter_In in Hc as [_ Hc].
  apply andb_true_iff in Hc as [Hsub _]. apply bool_decide_eq_true in Hsub.
  apply (Hlower _ Hsub). apply upper_idempotent.
Qed.

Lemma manual_alerts_need_upper_case_subscriptions_witness :
  (ex_recipient_lower ∈ get_recipients ex_config_three ∧
   pref ex_recipient_lower "manual_alerts" = true) ∧
  ∀ c, c ∈ calls_of_run (trigger_manual_alert ex_oracle ex_sender ex_config_three "star.ns")
                        ex_world ->
       call_recipient c ≠ ex_recipient_lower.
Proof.
  split.
  - split; [|vm_compute; reflexivity].
    apply list_elem_of_further, list_elem_of_further, list_elem_of_here.
  - apply (manual_alerts_need_upper_case_subscriptions ex_oracle ex_sender ex_config_three
             "star.ns" ex_world ex_recipient_lower).
    intros s Hs. apply list_elem_of_singleton in Hs. subst s.
    vm_compute. discriminate.
Defined.

(** X21: the two routes that take a symbol do not tell a symbol from its
    upper-case spelling. *)
Theorem routes_ignore_case (o : Oracle) (sender : SenderConfig) (config : Config)
    (sym : string) :
  trigger_manual_alert o sender config (upper sym) = trigger_manual_alert o sender config sym ∧
  get_stock_price o config (upper sym) = get_stock_price o config sym.
Proof.
  unfold trigger_manual_alert, get_stock_price. by rewrite upper_idempotent.
Qed.

Lemma api_call_run {A : Type} (m : M A) (aw : ApiWorld) :
  api_call m aw
  = ((m (api_world aw)).1,
     {| api_world := (m (api_world aw)).2; api_log := api_log aw |}).
Proof. unfold api_call. by destruct (m (api_world aw)). Qed.

(** A fetch that fails with nothing cached raises the failure. *)
Lemma get_stock_data_raises (o : Oracle) (stock_config : StockConfig) (w : World) (e : exn) :
  (get_stock_data_try o stock_config w).1 = Raise e ->
  cache w !! symbol stock_config = None ->
  (get_stock_data o stock_config w).1 = Raise e.
Proof.
  intros Htry Hd. unfold get_stock_data, try_except.
  destruct (get_stock_data_try o stock_config w) as [r w1] eqn:E. simpl in Htry. subst r.
  apply get_stock_data_try_Raise in E as [Hc _].
  unfold get_stock_data_except. run_M. by rewrite Hc, Hd.
Qed.

(** The route, after the fetch. *)
Lemma get_stock_price_run (o : Oracle) (config : Config) (sym : string) (aw : ApiWorld)
    (stock_config_obj : StockConfig) :
  List.find (fun s => bool_decide (upper (symbol s) = upper sym)) (get_stocks config)
    = Some stock_config_obj ->
  let fetch := get_stock_data o stock_config_obj (api_world aw) in
  let failure (e : exn) :=
    (Raise (HTTPException 500 ("Error fetching data for " +:+ upper sym +:+ ": " +:+ str e)),
     {| api_world := fetch.2;
        api_log := api_log aw ++ [(ERROR, Error_in_stock_endpoint (upper sym) e)] |}) in
  get_stock_price o config sym aw
  = match fetch.1 with
    | Ok d =>
        if json_compliant d then (Ok d, {| api_world := fetch.2; api_log := api_log aw |})
        else failure (ValueError "Out of range float values are not JSON compliant")
    | Raise e => failure e
    end.
Proof.
  intros Hfind. cbv zeta. unfold get_stock_price. rewrite Hfind.
  unfold api_try_except, mbind, Api_bind. rewrite api_call_run.
  destruct (get_stock_data o stock_config_obj (api_world aw)) as [[d|e] w1]; [|done].
  cbn [fst snd]. unfold api_lift, JSONResponse. by destruct (json_compliant d).
Qed.

(** X22: when the provider or the building of the snapshot fails, the
    snapshot route answers with the cached snapshot of the instrument, as
    if nothing had failed, when there is one and its floats are finite.
    It answers with status 500 and a log line of its own when there is
    none, and also when the snapshot to return, fresh or cached, holds a
    float that is not finite: the response cannot be rendered. *)
Theorem snapshot_route_serves_stale_data (o : Oracle) (config : Config) (sym : string)
    (aw : ApiWorld) (stock_config_obj : StockConfig) :
  List.find (fun s => bool_decide (upper (symbol s) = upper sym)) (get_stocks config)
    = Some stock_config_obj ->
  let fetched := (get_stock_data o stock_config_obj (api_world aw)).1 in
  let answer := (get_stock_price o config sym aw).1 in
  let logged := api_log (get_stock_price o config sym aw).2 in
  let status_500 (e : exn) :=
    answer = Raise (HTTPException 500 ("Error fetching data for " +:+ upper sym
                                       +:+ ": " +:+ str e)) ∧
    logged = api_log aw ++ [(ERROR, Error_in_stock_endpoint (upper sym) e)] in
  (∀ e d, (get_stock_data_try o stock_config_obj (api_world aw)).1 = Raise e ->
          cache (api_world aw) !! symbol stock_config_obj = Some d ->
          fetched = Ok d) ∧
  (∀ e, (get_stock_data_try o stock_config_obj (api_world aw)).1 = Raise e ->
        cache (api_world aw) !! symbol stock_config_obj = None ->
        fetched = Raise e) ∧
  (∀ d, fetched = Ok d -> json_compliant d = true ->
        answer = Ok d ∧ logged = api_log aw) ∧
  (∀ d, fetched = Ok d -> json_compliant d = false ->
        status_500 (ValueError "Out of range float values are not JSON compliant")) ∧
  (∀ e, fetched = Raise e -> status_500 e).
Proof.
  intros Hfind. cbv zeta.
  rewrite (get_stock_price_run o config sym aw stock_config_obj Hfind). cbv zeta.
  split; [intros e d; apply get_stock_data_serves_cache|].
  split; [intros e; apply get_stock_data_raises|].
  split; [|split].
  - intros d -> ->. done.
  - intros d -> ->. done.
  - intros e ->. done.
Qed.

Lemma snapshot_route_serves_stale_data_witness :
  let fetched := (get_stock_data ex_oracle_down ex_stock (api_world ex_api_world_cached)).1 in
  let answer := (get_stock_price ex_oracle_down ex_config "star.ns" ex_api_world_cached).1 in
  let logged :=
    api_log (get_stock_price ex_oracle_down ex_config "star.ns" ex_api_world_cached).2 in
  let status_500 (e : exn) :=
    answer = Raise (HTTPException 500 ("Error fetching data for " +:+ upper "star.ns"
                                       +:+ ": " +:+ str e)) ∧
    logged = api_log ex_api_world_cached
             ++ [(ERROR, Error_in_stock_endpoint (upper "star.ns") e)] in
  answer = Ok ex_snapshot ∧
  (∀ e d, (get_stock_data_try ex_oracle_down ex_stock (api_world ex_api_world_cached)).1
          = Raise e ->
          cache (api_world ex_api_world_cached) !! symbol ex_stock = Some d ->
          fetched = Ok d) ∧
  (∀ e, (get_stock_data_try ex_oracle_down ex_stock (api_world ex_api_world_cached)).1
        = Raise e ->
        cache (api_world ex_api_world_cached) !! symbol ex_stock = None ->
        fetched = Raise e) ∧
  (∀ d, fetched = Ok d -> json_compliant d = true ->
        answer = Ok d ∧ logged = api_log ex_api_world_cached) ∧
  (∀ d, fetched = Ok d -> json_compliant d = false ->
        status_500 (ValueError "Out of range float values are not JSON compliant")) ∧
  (∀ e, fetched = Raise e -> status_500 e).
Proof.
  split; [vm_compute; reflexivity|].
  apply (snapshot_route_serves_stale_data ex_oracle_down ex_config "star.ns"
           ex_api_world_cached ex_stock).
  vm_compute. reflexivity.
Defined.

Lemma forallb_map_to_list (m : gmap string Snapshot.t) :
  forallb (fun kd => json_compliant kd.2) (map_to_list m) = true
  <-> ∀ k d, m !! k = Some d -> json_compliant d = true.
Proof.
  rewrite forallb_forall. split.
  - intros H k d Hk. apply (H (k, d)). by apply list_elem_of_In, elem_of_map_to_list.
  - intros H [k d] Hin. apply list_elem_of_In, elem_of_map_to_list in Hin. by apply (H k).
Qed.

(** X23: the route of all snapshots answers with the snapshot map of a
    multi-instrument fetch, and logs nothing itself, exactly when every
    float of the map is finite; a single float that is not finite, in
    the snapshot of any instrument, makes it answer with status 500 and
    log the error. A failing fetch never does: the instrument is left
    out of the map. With no instrument configured the route returns the
    empty map and leaves the world as it is. *)
Theorem stocks_route_fails_only_at_rendering (o : Oracle) (config : Config) (aw : ApiWorld) :
  let m := fetched_map o (get_stocks config) (api_world aw) in
  let compliant := ∀ k d, m !! k = Some d -> json_compliant d = true in
  let e := ValueError "Out of range float values are not JSON compliant" in
  (compliant ->
   (get_all_monitored_stocks o config aw).1 = Ok m ∧
   api_log (get_all_monitored_stocks o config aw).2 = api_log aw) ∧
  (¬ compliant ->
   (get_all_monitored_stocks o config aw).1
   = Raise (HTTPException 500 ("Error fetching data for all stocks: " +:+ str e)) ∧
   api_log (get_all_monitored_stocks o config aw).2
   = api_log aw ++ [(ERROR, Error_in_stocks_endpoint e)]) ∧
  (get_stocks config = [] -> get_all_monitored_stocks o config aw = (Ok ∅, aw)).
Proof.
  cbv zeta. unfold get_all_monitored_stocks, fetched_map.
  destruct (get_stocks config) as [|sc stocks] eqn:Hstocks.
  { split; [done|]. split; [|done]. intros H. exfalso. apply H. intros k d Hk.
    unfold check_multiple_stocks in Hk. simpl in Hk. by rewrite lookup_empty in Hk. }
  unfold api_try_except, mbind, Api_bind. rewrite api_call_run.
  destruct (check_multiple_stocks_effect o (sc :: stocks) (api_world aw))
    as (m & w' & -> & _).
  cbn [fst snd]. unfold api_lift, JSONResponse.
  pose proof (forallb_map_to_list m) as Hiff.
  destruct (forallb _ (map_to_list m)).
  - split; [done|]. split; [|done].
    intros H. exfalso. apply H. by apply Hiff.
  - split; [|split; [done|done]].
    intros H. apply Hiff in H. discriminate.
Qed.

(** ** The configuration *)

(** X24: the password of the sender. When [get_sender_config] builds a
    sender, its password is the one of the configuration if that is not
    empty, and otherwise the one of the environment, empty if the
    environment has none. With no password key in the configuration and
    no usable password in the environment no sender is built: the
    constructor raises [TypeError]. Without the [email_sender] object the
    lookup raises [KeyError]. *)
Theorem sender_password_resolution (config : ConfigJson.t) (getenv : option string) :
  (ConfigJson.email_sender config = None ->
   ConfigManager.get_sender_config config getenv = Sender_KeyError "email_sender") ∧
  (∀ sender_data s,
     ConfigJson.email_sender config = Some sender_data ->
     ConfigManager.get_sender_config config getenv = Sender s ->
     let in_config := default "" (SenderJson.smtp_password sender_data) in
     smtp_password s = (if nonempty in_config then in_config else default "" getenv) ∧
     use_tls s = default true (SenderJson.use_tls sender_data)) ∧
  (∀ sender_data,
     ConfigJson.email_sender config = Some sender_data ->
     SenderJson.smtp_password sender_data = None ->
     nonempty (default "" getenv) = false ->
     ConfigManager.get_sender_config config getenv = Sender_TypeError).
Proof.
  unfold ConfigManager.get_sender_config. split; [by intros ->|]. split.
  - intros sender_data s -> Hs.
    destruct sender_data as [[e|] [n|] [h|] [p|] [u|] [pw|] t];
      destruct getenv as [env|]; simpl in *;
      try destruct (nonempty pw) eqn:Hpw; simpl in *;
      try destruct (nonempty env) eqn:Henv; simpl in *;
      try discriminate; injection Hs as <-; simpl; rewrite ?Hpw, ?Henv; try done;
      split; try done.
    all: try (by destruct pw).
    all: try (by destruct env).
    all: by destruct pw, env.
  - intros sender_data -> Hpw Henv.
    destruct sender_data as [e n h p u pw t]. simpl in Hpw. subst pw.
    destruct getenv as [env|]; simpl in *; rewrite ?Henv;
      unfold ConfigManager.SenderConfig_init; simpl; by repeat case_match.
Qed.

(** X25: a recipient built from the configuration has the empty name and
    no copies unless the configuration gives them, and has every
    preference the configuration does not set switched on: with no
    preferences at all, every kind of alert is on. *)
Theorem recipient_defaults (recipient : RecipientJson.t) (r : RecipientConfig) :
  ConfigManager.RecipientConfig_init recipient = Ok r ->
  name r = default "" (RecipientJson.name recipient) ∧
  cc r = default [] (RecipientJson.cc recipient) ∧
  bcc r = default [] (RecipientJson.bcc recipient) ∧
  (∀ key, pref r key
          = default true (default ∅ (RecipientJson.alert_preferences recipient) !! key)) ∧
  (RecipientJson.alert_preferences recipient = None -> ∀ key, pref r key = true).
Proof.
  unfold ConfigManager.RecipientConfig_init. intros H.
  destruct (RecipientJson.email recipient) as [e|]; [|discriminate].
  destruct (RecipientJson.subscribed_symbols recipient) as [s|]; [|discriminate].
  injection H as <-. unfold pref. simpl.
  assert (Hdefault : ∀ key, default true (ConfigManager.default_alert_preferences !! key)
                            = true).
  { intros key. unfold ConfigManager.default_alert_preferences.
    destruct (decide (key = "scheduled_reports")) as [->|H1]; [done|].
    destruct (decide (key = "threat_alerts")) as [->|H2]; [done|].
    destruct (decide (key = "manual_alerts")) as [->|H3]; [done|].
    rewrite !lookup_insert_ne by done. by rewrite lookup_singleton_ne. }
  split; [done|]. split; [done|]. split; [done|].
  destruct (RecipientJson.alert_preferences recipient) as [prefs|]; simpl.
  - split; [done | discriminate].
  - split; [|auto]. intros key. by rewrite Hdefault, lookup_empty.
Qed.

Lemma recipient_defaults_witness :
  ∃ r, ConfigManager.RecipientConfig_init ex_recipient_json = Ok r ∧
       name r = default "" (RecipientJson.name ex_recipient_json) ∧
       cc r = default [] (RecipientJson.cc ex_recipient_json) ∧
       bcc r = default [] (RecipientJson.bcc ex_recipient_json) ∧
       (∀ key, pref r key
               = default true
                   (default ∅ (RecipientJson.alert_preferences ex_recipient_json) !! key)) ∧
       (RecipientJson.alert_preferences ex_recipient_json = None ->
        ∀ key, pref r key = true).
Proof.
  destruct (ConfigManager.RecipientConfig_init ex_recipient_json) as [r|e] eqn:Hr;
    [|vm_compute in Hr; discriminate].
  exists r. split; [reflexivity|].
  apply (recipient_defaults ex_recipient_json r Hr).
Defined.

Lemma comprehension_raises {A B : Type} (f : A -> result B) (l : list A) (x : A) (e0 : exn) :
  x ∈ l -> f x = Raise e0 ->
  ∃ y e, y ∈ l ∧ f y = Raise e ∧ comprehension f l = Raise e.
Proof.
  intros Hin Hx. induction l as [|y l IH]; [by apply elem_of_nil in Hin|].
  simpl. destruct (f y) as [b|e] eqn:Hy.
  - apply elem_of_cons in Hin as [->|Hin]; [congruence|].
    destruct (IH Hin) as (z & e & Hz & Hfz & ->).
    exists z, e. split; [by apply list_elem_of_further | done].
  - exists y, e. split; [apply list_elem_of_here | done].
Qed.

Lemma comprehension_Raise {A B : Type} (f : A -> result B) (l : list A) (e : exn) :
  comprehension f l = Raise e -> ∃ y, y ∈ l ∧ f y = Raise e.
Proof.
  induction l as [|y l IH]; [discriminate|]. simpl.
  destruct (f y) as [b|e'] eqn:Hy; simpl.
  - destruct (comprehension f l) as [bs|e'']; simpl; [discriminate|].
    intros [= ->]. destruct (IH eq_refl) as (z & Hz & Hfz).
    exists z. split; [by apply list_elem_of_further | done].
  - intros [= ->]. exists y. split; [apply list_elem_of_here | done].
Qed.

Lemma StockConfig_init_raises (stock : StockJson.t) (e : exn) :
  ConfigManager.StockConfig_init stock = Raise e -> ∃ msg, e = TypeError msg.
Proof.
  unfold ConfigManager.StockConfig_init, missing_arguments.
  repeat case_match; intros [= <-]; eauto.
Qed.

Lemma RecipientConfig_init_raises (recipient : RecipientJson.t) (e : exn) :
  ConfigManager.RecipientConfig_init recipient = Raise e -> ∃ msg, e = TypeError msg.
Proof.
  unfold ConfigManager.RecipientConfig_init, missing_arguments.
  repeat case_match; intros [= <-]; eauto.
Qed.

(** X26: one instrument or one recipient of the configuration that lacks
    a required field makes the whole cycle raise [TypeError], from the
    reads that precede the [try] block: nothing is fetched, logged or
    sent. *)
Theorem malformed_entry_stops_the_run (o : Oracle) (sender : SenderConfig)
    (config : ConfigJson.t) (is_scheduled threat_only : bool) (w : World) :
  (∃ stock e, stock ∈ default [] (ConfigJson.stocks config) ∧
              ConfigManager.StockConfig_init stock = Raise e) ∨
  (∃ recipient e, recipient ∈ default [] (ConfigJson.recipients config) ∧
                  ConfigManager.RecipientConfig_init recipient = Raise e) ->
  ∃ msg, _check_all_stocks_of o sender config is_scheduled threat_only w
         = (Raise (TypeError msg), w).
Proof.
  intros Hbad. unfold _check_all_stocks_of.
  assert (Hread : ∃ msg, read_config config = Raise (TypeError msg)).
  { unfold read_config, ConfigManager.get_stocks, ConfigManager.get_recipients.
    destruct (comprehension ConfigManager.StockConfig_init _) as [stocks|e] eqn:Hstocks.
    - destruct Hbad as [(stock & e & Hin & Hstock) | (recipient & e & Hin & Hrecipient)].
      + destruct (comprehension_raises _ _ stock e Hin Hstock) as (y & e' & _ & _ & H).
        congruence.
      + destruct (comprehension_raises _ _ recipient e Hin Hrecipient)
          as (y & e' & _ & Hy & ->).
        apply RecipientConfig_init_raises in Hy as [msg ->]. by exists msg.
    - apply comprehension_Raise in Hstocks as (y & _ & Hy).
      apply StockConfig_init_raises in Hy as [msg ->]. by exists msg. }
  destruct Hread as [msg Hread]. exists msg.
  unfold mbind, M_bind, lift. by rewrite Hread.
Qed.

Lemma malformed_entry_stops_the_run_witness :
  _check_all_stocks_of ex_oracle ex_sender ex_config_json_malformed true false ex_world
  = (Raise (TypeError
              "RecipientConfig.__init__() missing 1 required positional argument: 'email'"),
     ex_world) ∧
  ∃ msg, _check_all_stocks_of ex_oracle ex_sender ex_config_json_malformed true false
           ex_world
         = (Raise (TypeError msg), ex_world).
Proof.
  split; [vm_compute; reflexivity|].
  apply (malformed_entry_stops_the_run ex_oracle ex_sender ex_config_json_malformed true
           false ex_world).
  right. eexists ex_recipient_json_no_email, _. split.
  - apply list_elem_of_further, list_elem_of_here.
  - vm_compute. reflexivity.
Defined.

(** ** The validation script *)

Import ValidateSmtp.

Lemma V_bind_run {A B : Type} (m : V A) (k : A -> V B) (c : Console) :
  (m ≫= k) c = match m c with
               | (Done a, c') => k a c'
               | (KeyError key, c') => (KeyError key, c')
               end.
Proof. reflexivity. Qed.

Lemma is_empty_false_sender (config : ConfigJson.t) (sender_data : SenderJson.t) :
  ConfigJson.email_sender config = Some sender_data -> is_empty config = false.
Proof.
  intros H. unfold is_empty. rewrite H.
  by destruct (ConfigJson.currency_symbol config), (ConfigJson.stocks config).
Qed.

Lemma is_empty_false_recipients (config : ConfigJson.t) (l : list RecipientJson.t) :
  ConfigJson.recipients config = Some l -> is_empty config = false.
Proof.
  intros H. unfold is_empty. rewrite H.
  by destruct (ConfigJson.currency_symbol config), (ConfigJson.stocks config),
       (ConfigJson.email_sender config).
Qed.

(** The connection test, once the configuration is read and a password
    is found. *)
Lemma test_smtp_connection_run (server : Server) (config : ConfigJson.t)
    (getenv : option string) (c : Console) :
  is_empty config = false ->
  nonempty (get_password getenv (get_email_sender config)) = true ->
  let email_config := get_email_sender config in
  let n := sessions c in
  let login := SMTP_login server n (get_smtp_host email_config) (get_smtp_port email_config)
                 (get_smtp_username email_config) (get_password getenv email_config) in
  let start := [Testing_connection_to (get_smtp_host email_config)
                                      (get_smtp_port email_config);
                Username (get_smtp_username email_config)] in
  test_smtp_connection server (Json config) getenv c
  = match login, SMTP_quit server n with
    | Raise e, _ =>
        (Done false, {| printed := printed c ++ start ++ [Connection_failed e];
                        sessions := S n |})
    | Ok _, Raise e =>
        (Done false,
         {| printed := printed c ++ start ++ [Connection_successful; Connection_failed e];
            sessions := S n |})
    | Ok _, Ok _ =>
        (Done true, {| printed := printed c ++ start ++ [Connection_successful];
                       sessions := S n |})
    end.
Proof.
  intros Hconfig Hpassword. cbv zeta.
  unfold test_smtp_connection. cbn [load_config].
  rewrite V_bind_run. cbn [mret V_ret].
  rewrite Hconfig, Hpassword. cbn [negb].
  unfold mbind, V_bind, print, next_session, mret, V_ret. cbn [printed sessions].
  destruct (SMTP_login _ _ _ _ _ _) as [[]|e]; [destruct (SMTP_quit _ _) as [[]|e]|];
    cbn [printed sessions]; rewrite <- ?app_assoc; reflexivity.
Qed.

(** The connection test without a configuration or a password. *)
Lemma test_smtp_connection_stops (server : Server) (f : config_file)
    (getenv : option string) (c : Console) :
  (∀ config, f = Json config ->
             is_empty config = true ∨
             nonempty (get_password getenv (get_email_sender config)) = false) ->
  let lines := match f with
               | FileNotFoundError => [Config_not_found]
               | JSONDecodeError e => [Invalid_JSON e]
               | Json config => if is_empty config then [] else [Password_not_found]
               end in
  test_smtp_connection server f getenv c
  = (Done false, {| printed := printed c ++ lines; sessions := sessions c |}).
Proof.
  intros Hf. cbv zeta. unfold test_smtp_connection. rewrite V_bind_run.
  destruct f as [|e|config]; cbn; try reflexivity.
  destruct (is_empty config) eqn:Hempty.
  - rewrite app_nil_r. by destruct c.
  - destruct (Hf config eq_refl) as [? | Hpassword]; [congruence|].
    rewrite Hpassword. reflexivity.
Qed.

(** The mail test, once the configuration is read, a first recipient
    has an address and a password is found. *)
Lemma test_send_email_run (server : Server) (config : ConfigJson.t)
    (getenv : option string) (c : Console) (first : RecipientJson.t)
    (rest : list RecipientJson.t) (to : string) :
  ConfigJson.recipients config = Some (first :: rest) ->
  RecipientJson.email first = Some to ->
  nonempty (get_password getenv (get_email_sender config)) = true ->
  let email_config := get_email_sender config in
  let n := sessions c in
  let login := SMTP_login server n (get_smtp_host email_config) (get_smtp_port email_config)
                 (get_smtp_username email_config) (get_password getenv email_config) in
  test_send_email server (Json config) getenv c
  = match login, SMTP_send_message server n (test_message email_config to),
          SMTP_quit server n with
    | Raise e, _, _ | Ok _, Raise e, _ =>
        (Done false, {| printed := printed c ++ [Failed_to_send_test_email e];
                        sessions := S n |})
    | Ok _, Ok _, Raise e =>
        (Done false,
         {| printed := printed c ++ [Test_email_sent_to to; Failed_to_send_test_email e];
            sessions := S n |})
    | Ok _, Ok _, Ok _ =>
        (Done true, {| printed := printed c ++ [Test_email_sent_to to]; sessions := S n |})
    end.
Proof.
  intros Hrecipients Hto Hpassword. cbv zeta.
  unfold test_send_email. cbn [load_config].
  rewrite V_bind_run. cbn [mret V_ret].
  rewrite (is_empty_false_recipients _ _ Hrecipients), Hrecipients, Hpassword.
  cbn [negb default from_option id]. unfold get_email. rewrite Hto.
  unfold mbind, V_bind, print, next_session, mret, V_ret. cbn [printed sessions].
  destruct (SMTP_login _ _ _ _ _ _) as [[]|e];
    [destruct (SMTP_send_message _ _ _) as [[]|e];
     [destruct (SMTP_quit _ _) as [[]|e]|]|];
    cbn [printed sessions]; rewrite <- ?app_assoc; reflexivity.
Qed.

(** The mail test when the first recipient has no address. *)
Lemma test_send_email_KeyError (server : Server) (config : ConfigJson.t)
    (getenv : option string) (c : Console) (first : RecipientJson.t)
    (rest : list RecipientJson.t) :
  ConfigJson.recipients config = Some (first :: rest) ->
  RecipientJson.email first = None ->
  nonempty (get_password getenv (get_email_sender config)) = true ->
  test_send_email server (Json config) getenv c = (KeyError "email", c).
Proof.
  intros Hrecipients Hto Hpassword.
  unfold test_send_email. cbn [load_config].
  rewrite V_bind_run. cbn [mret V_ret].
  rewrite (is_empty_false_recipients _ _ Hrecipients), Hrecipients, Hpassword.
  cbn [negb default from_option id]. unfold get_email. rewrite Hto.
  reflexivity.
Qed.

(** The mail test never passes without a first recipient's address. *)
Lemma test_send_email_true (server : Server) (f : config_file) (getenv : option string)
    (c c' : Console) :
  test_send_email server f getenv c = (Done true, c') ->
  ∃ config first rest to,
    f = Json config ∧
    ConfigJson.recipients config = Some (first :: rest) ∧
    RecipientJson.email first = Some to ∧
    nonempty (get_password getenv (get_email_sender config)) = true.
Proof.
  unfold test_send_email. rewrite V_bind_run.
  destruct f as [|e|config]; cbn; try discriminate.
  destruct (is_empty config); [discriminate|].
  destruct (ConfigJson.recipients config) as [[|first rest]|] eqn:Hrecipients;
    cbn; try discriminate.
  destruct (nonempty (get_password getenv (get_email_sender config))) eqn:Hpassword;
    cbn; [|discriminate].
  unfold get_email.
  destruct (RecipientJson.email first) as [to|] eqn:Hto; cbn; [|discriminate].
  intros _. by exists config, first, rest, to.
Qed.

(** [main] around its two tests. *)
Lemma main_run (server : Server) (f : config_file) (getenv : option string) (c : Console) :
  let c0 := {| printed := printed c ++ [Title; Rule; Testing_SMTP_Connection];
               sessions := sessions c |} in
  main server f getenv c
  = match test_smtp_connection server f getenv c0 with
    | (Done false, c1) =>
        (Done false, {| printed := printed c1 ++ [Check_your_configuration];
                        sessions := sessions c1 |})
    | (Done true, c1) =>
        let c2 := {| printed := printed c1 ++ [Testing_Email_Sending];
                     sessions := sessions c1 |} in
        match test_send_email server f getenv c2 with
        | (Done true, c3) =>
            (Done true, {| printed := printed c3 ++ [All_tests_passed];
                           sessions := sessions c3 |})
        | (Done false, c3) =>
            (Done false, {| printed := printed c3 ++ [Email_sending_failed];
                            sessions := sessions c3 |})
        | (KeyError key, c3) => (KeyError key, c3)
        end
    | (KeyError key, c1) => (KeyError key, c1)
    end.
Proof.
  cbv zeta. unfold main.
  unfold mbind at 1, V_bind at 1, print at 1. cbn [printed sessions].
  unfold mbind at 1, V_bind at 1, print at 1. cbn [printed sessions].
  unfold mbind at 1, V_bind at 1, print at 1. cbn [printed sessions].
  rewrite <- !app_assoc. cbn [app].
  rewrite V_bind_run.
  destruct (test_smtp_connection _ _ _ _) as [[[]|key] c1]; cbn [negb]; try reflexivity.
  unfold mbind at 1, V_bind at 1, print at 1. cbn [printed sessions].
  rewrite V_bind_run.
  destruct (test_send_email _ _ _ _) as [[[]|key] c3]; reflexivity.
Qed.

(** A sender that [get_sender_config] builds has its host, port and user
    name from the configuration. *)
Lemma get_sender_config_Sender (config : ConfigJson.t) (getenv : option string)
    (s : SenderConfig) :
  ConfigManager.get_sender_config config getenv = Sender s ->
  ∃ sender_data,
    ConfigJson.email_sender config = Some sender_data ∧
    SenderJson.smtp_host sender_data = Some (smtp_host s) ∧
    SenderJson.smtp_port sender_data = Some (smtp_port s) ∧
    SenderJson.smtp_username sender_data = Some (smtp_username s) ∧
    (∀ in_config, SenderJson.smtp_password sender_data = Some in_config ->
                  nonempty in_config = true -> smtp_password s = in_config).
Proof.
  unfold ConfigManager.get_sender_config.
  destruct (ConfigJson.email_sender config) as [sender_data|]; [|discriminate].
  intros Hs. exists sender_data. split; [reflexivity|].
  destruct sender_data as [e n h p u pw t]. cbn in *.
  assert (Hinit : ∀ pw', ConfigManager.SenderConfig_init
                           {| SenderJson.from_email := e; SenderJson.from_name := n;
                              SenderJson.smtp_host := h; SenderJson.smtp_port := p;
                              SenderJson.smtp_username := u; SenderJson.smtp_password := pw';
                              SenderJson.use_tls := t |} = Sender s ->
                         h = Some (smtp_host s) ∧ p = Some (smtp_port s) ∧
                         u = Some (smtp_username s) ∧ pw' = Some (smtp_password s)).
  { intros pw'. unfold ConfigManager.SenderConfig_init. cbn.
    destruct e, n, h, p, u, pw'; try discriminate.
    intros [= <-]. done. }
  destruct pw as [pw|].
  - destruct (nonempty pw) eqn:Hpw; cbn in Hs.
    + apply Hinit in Hs as (-> & -> & -> & [= ->]).
      repeat split; try reflexivity. by intros ? [= <-] _.
    + assert (Hrest : h = Some (smtp_host s) ∧ p = Some (smtp_port s) ∧
                      u = Some (smtp_username s)).
      { destruct getenv as [env|]; [destruct (nonempty env)|];
          apply Hinit in Hs; tauto. }
      destruct Hrest as (-> & -> & ->). repeat split; try reflexivity.
      intros ? [= <-] Hin. congruence.
  - assert (Hrest : h = Some (smtp_host s) ∧ p = Some (smtp_port s) ∧
                    u = Some (smtp_username s)).
    { destruct getenv as [env|]; [destruct (nonempty env)|];
        apply Hinit in Hs; tauto. }
    destruct Hrest as (-> & -> & ->). repeat split; try reflexivity.
    intros ? [=].
Qed.

(** X27. The connection test of [validate_smtp.py] logs in with the
    password of the environment whenever there is one, whatever
    [config.json] holds: with a sender that [get_sender_config] accepts,
    the test passes exactly when that login and the end of the session
    succeed. The service itself prefers the password of [config.json]
    when that one is not empty. *)
Theorem validation_tries_the_environment_password (server : Server)
    (config : ConfigJson.t) (env_password : string) (s : SenderConfig) (c : Console) :
  ConfigManager.get_sender_config config (Some env_password) = Sender s ->
  nonempty env_password = true ->
  ((test_smtp_connection server (Json config) (Some env_password) c).1 = Done true
   <-> SMTP_login server (sessions c) (smtp_host s) (smtp_port s) (smtp_username s)
         env_password = Ok tt
       ∧ SMTP_quit server (sessions c) = Ok tt) ∧
  (∀ sender_data in_config,
     ConfigJson.email_sender config = Some sender_data ->
     SenderJson.smtp_password sender_data = Some in_config ->
     nonempty in_config = true ->
     smtp_password s = in_config).
Proof.
  intros Hs Henv.
  destruct (get_sender_config_Sender _ _ _ Hs)
    as (sender_data & Hsender & Hhost & Hport & Huser & Hpassword).
  split.
  - assert (Hget : get_email_sender config = sender_data)
      by (unfold get_email_sender; by rewrite Hsender).
    assert (Hpw : get_password (Some env_password) (get_email_sender config)
                  = env_password)
      by (unfold get_password; by rewrite Henv).
    rewrite test_smtp_connection_run;
      [|exact (is_empty_false_sender _ _ Hsender)|by rewrite Hpw].
    rewrite Hpw, Hget. unfold get_smtp_host, get_smtp_port, get_smtp_username.
    rewrite Hhost, Hport, Huser. cbn [default from_option id].
    destruct (SMTP_login _ _ _ _ _ _) as [[]|e];
      [destruct (SMTP_quit _ _) as [[]|e]|]; cbn [fst].
    + done.
    + split; [discriminate|]. intros [_ [=]].
    + split; [discriminate|]. intros [[=] _].
  - intros sender_data' in_config Hsender'. rewrite Hsender in Hsender'.
    injection Hsender' as <-. apply Hpassword.
Qed.

Lemma validation_tries_the_environment_password_witness :
  ∃ s, ConfigManager.get_sender_config ex_config_json (Some "rotated") = Sender s ∧
       smtp_password s = "secret" ∧
       (test_smtp_connection ex_server (Json ex_config_json) (Some "rotated") ex_console).1
       = Done true ∧
       ((test_smtp_connection ex_server (Json ex_config_json) (Some "rotated")
           ex_console).1 = Done true
        <-> SMTP_login ex_server (sessions ex_console) (smtp_host s) (smtp_port s)
              (smtp_username s) "rotated" = Ok tt
            ∧ SMTP_quit ex_server (sessions ex_console) = Ok tt) ∧
       (∀ sender_data in_config,
          ConfigJson.email_sender ex_config_json = Some sender_data ->
          SenderJson.smtp_password sender_data = Some in_config ->
          nonempty in_config = true ->
          smtp_password s = in_config).
Proof.
  destruct (ConfigManager.get_sender_config ex_config_json (Some "rotated"))
    as [s| |] eqn:Hs; [|vm_compute in Hs; discriminate..].
  exists s. split; [reflexivity|]. split; [|split].
  - vm_compute in Hs. injection Hs as <-. reflexivity.
  - vm_compute. reflexivity.
  - apply (validation_tries_the_environment_password ex_server ex_config_json "rotated" s
             ex_console Hs).
    reflexivity.
Defined.

(** X28. Without a configuration, or without a password in the
    environment and in [config.json], the script opens no session: it
    exits with status 1 after the line that asks to check the
    configuration, whatever the mail server would do. *)
Theorem validation_stops_before_any_session (server : Server) (f : config_file)
    (getenv : option string) (c : Console) :
  (∀ config, f = Json config ->
             is_empty config = true ∨
             nonempty (get_password getenv (get_email_sender config)) = false) ->
  (script server f getenv c).1 = 1%Z ∧
  sessions (script server f getenv c).2 = sessions c ∧
  last (printed (script server f getenv c).2) = Some Check_your_configuration ∧
  (∀ server', script server' f getenv c = script server f getenv c).
Proof.
  intros Hf.
  assert (Hrun : ∀ server0,
            script server0 f getenv c
            = (1%Z, {| printed := (printed c ++ [Title; Rule; Testing_SMTP_Connection])
                                  ++ match f with
                                     | FileNotFoundError => [Config_not_found]
                                     | JSONDecodeError e => [Invalid_JSON e]
                                     | Json config =>
                                         if is_empty config then []
                                         else [Password_not_found]
                                     end ++ [Check_your_configuration];
                       sessions := sessions c |})).
  { intros server0. unfold script. rewrite main_run. cbv zeta.
    rewrite (test_smtp_connection_stops _ _ _ _ Hf). cbv zeta.
    cbn [fst snd printed sessions]. by rewrite <- !app_assoc. }
  rewrite (Hrun server). cbn [fst snd printed sessions].
  repeat split.
  - by rewrite !app_assoc, last_snoc.
  - intros server'. apply Hrun.
Qed.

Lemma validation_stops_before_any_session_witness :
  (script ex_server (JSONDecodeError "Expecting value") (Some "rotated") ex_console).1
  = 1%Z ∧
  sessions (script ex_server (JSONDecodeError "Expecting value") (Some "rotated")
              ex_console).2 = sessions ex_console ∧
  last (printed (script ex_server (JSONDecodeError "Expecting value") (Some "rotated")
                   ex_console).2) = Some Check_your_configuration ∧
  (∀ server', script server' (JSONDecodeError "Expecting value") (Some "rotated") ex_console
              = script ex_server (JSONDecodeError "Expecting value") (Some "rotated")
                  ex_console).
Proof.
  apply (validation_stops_before_any_session ex_server (JSONDecodeError "Expecting value")
           (Some "rotated") ex_console).
  intros config Hconfig. discriminate Hconfig.
Defined.

(** X29. The script exits with status 0 exactly when [config.json] has a
    first recipient with an address, a password is found, and the mail
    server accepts two sessions in a row: a login, and then a login
    followed by the test message, which is addressed to the first
    recipient alone. *)
Theorem exit_status_0_means_the_test_mail_was_accepted (server : Server) (f : config_file)
    (getenv : option string) (c : Console) :
  (script server f getenv c).1 = 0%Z <->
  ∃ config first rest to,
    f = Json config ∧
    ConfigJson.recipients config = Some (first :: rest) ∧
    RecipientJson.email first = Some to ∧
    let email_config := get_email_sender config in
    let password := get_password getenv email_config in
    let login n := SMTP_login server n (get_smtp_host email_config)
                     (get_smtp_port email_config) (get_smtp_username email_config)
                     password in
    let n := sessions c in
    nonempty password = true ∧
    login n = Ok tt ∧ SMTP_quit server n = Ok tt ∧
    login (S n) = Ok tt ∧
    SMTP_send_message server (S n) (test_message email_config to) = Ok tt ∧
    SMTP_quit server (S n) = Ok tt.
Proof.
  unfold script. rewrite main_run. cbv zeta. split.
  - destruct (test_smtp_connection _ _ _ _) as [[[]|key] c1] eqn:Hconnection;
      cbn [fst]; try discriminate.
    destruct (test_send_email _ _ _ _) as [[[]|key] c3] eqn:Hmail;
      cbn [fst]; try discriminate.
    intros _.
    destruct (test_send_email_true _ _ _ _ _ Hmail)
      as (config & first & rest & to & -> & Hrecipients & Hto & Hpassword).
    exists config, first, rest, to. repeat split; try done.
    all: rewrite test_smtp_connection_run in Hconnection;
      [|exact (is_empty_false_recipients _ _ Hrecipients)|exact Hpassword];
      cbn [sessions] in Hconnection.
    all: destruct (SMTP_login server (sessions c) _ _ _ _) as [[]|e1];
      [|discriminate].
    all: destruct (SMTP_quit server (sessions c)) as [[]|e2]; [|discriminate].
    all: try reflexivity.
    all: injection Hconnection as <-.
    all: rewrite (test_send_email_run _ _ _ _ _ _ _ Hrecipients Hto Hpassword)
      in Hmail; cbn [sessions] in Hmail.
    all: destruct (SMTP_login server (S (sessions c)) _ _ _ _) as [[]|e3];
      [|discriminate].
    all: destruct (SMTP_send_message _ _ _) as [[]|e4]; [|discriminate].
    all: destruct (SMTP_quit server (S (sessions c))) as [[]|e5]; [|discriminate].
    all: reflexivity.
  - intros (config & first & rest & to & -> & Hrecipients & Hto & Hpassword
            & Hlogin & Hquit & Hlogin' & Hsend & Hquit').
    rewrite test_smtp_connection_run;
      [|exact (is_empty_false_recipients _ _ Hrecipients)|exact Hpassword].
    cbn [sessions]. rewrite Hlogin, Hquit.
    rewrite (test_send_email_run _ _ _ _ _ _ _ Hrecipients Hto Hpassword).
    cbn [sessions]. rewrite Hlogin', Hsend, Hquit'. reflexivity.
Qed.

(** X30. When the connection test passes and the first recipient of
    [config.json] has no [email] key, the script crashes: it exits with
    status 1 on the line of the crash, after the one session of the
    connection test, and without a verdict on the mail test. *)
Theorem missing_address_crashes_the_validation (server : Server) (config : ConfigJson.t)
    (getenv : option string) (c : Console) (first : RecipientJson.t)
    (rest : list RecipientJson.t) :
  ConfigJson.recipients config = Some (first :: rest) ->
  RecipientJson.email first = None ->
  let email_config := get_email_sender config in
  nonempty (get_password getenv email_config) = true ->
  SMTP_login server (sessions c) (get_smtp_host email_config) (get_smtp_port email_config)
    (get_smtp_username email_config) (get_password getenv email_config) = Ok tt ->
  SMTP_quit server (sessions c) = Ok tt ->
  script server (Json config) getenv c
  = (1%Z,
     {| printed := printed c
                   ++ [Title; Rule; Testing_SMTP_Connection;
                       Testing_connection_to (get_smtp_host email_config)
                                             (get_smtp_port email_config);
                       Username (get_smtp_username email_config);
                       Connection_successful; Testing_Email_Sending;
                       Validation_crashed "email"];
        sessions := S (sessions c) |}).
Proof.
  intros Hrecipients Hto email_config Hpassword Hlogin Hquit.
  unfold script. rewrite main_run. cbv zeta.
  rewrite test_smtp_connection_run;
    [|exact (is_empty_false_recipients _ _ Hrecipients)|exact Hpassword].
  cbn [sessions]. fold email_config. rewrite Hlogin, Hquit.
  rewrite (test_send_email_KeyError _ _ _ _ _ _ Hrecipients Hto Hpassword).
  unfold print. cbn [fst snd printed sessions].
  by rewrite <- !app_assoc.
Qed.

Lemma missing_address_crashes_the_validation_witness :
  let email_config := get_email_sender ex_config_json_no_address in
  script ex_server (Json ex_config_json_no_address) (Some "rotated") ex_console
  = (1%Z,
     {| printed := printed ex_console
                   ++ [Title; Rule; Testing_SMTP_Connection;
                       Testing_connection_to (get_smtp_host email_config)
                                             (get_smtp_port email_config);
                       Username (get_smtp_username email_config);
                       Connection_successful; Testing_Email_Sending;
                       Validation_crashed "email"];
        sessions := S (sessions ex_console) |}).
Proof.
  apply (missing_address_crashes_the_validation ex_server ex_config_json_no_address
           (Some "rotated") ex_console ex_recipient_json_no_email [ex_recipient_json]).
  - reflexivity.
  - reflexivity.
  - reflexivity.
  - vm_compute. reflexivity.
  - reflexivity.
Defined.
